(** * PDF helper and DOCX-to-PDF converter: a shallow embedding

    The repository holds two command-line scripts, under [python_scripts],
    that a Node.js host runs as subprocesses:

    - the PDF helper: [compress_pdf], [add_watermark] and its [main];
    - the DOCX converter: [parse_docx_paragraph], [get_alignment],
      [docx_to_pdf] and its [main].

    Both are thin layers over third-party libraries (pikepdf, pypdf,
    reportlab, python-docx).  The scripts' own control flow, string
    building and arithmetic are translated function by function, local
    names kept.  What the libraries and the operating system answer is a
    parameter of the development, the classes [PdfEnv] and [DocxEnv]:
    every theorem holds whatever those answers are, and the examples run
    in the small concrete environments of [Fixtures].

    Modelling decisions.

    - A script is a computation in a state and exception monad over the
      outside world and standard output; [sys.exit] is the exception
      [SystemExit], which [except Exception] does not catch.
    - [print(json.dumps(d))] emits the JSON value [d]; serialisation to
      text is not modelled.
    - The compression ratio is computed in IEEE binary64 ([SpecFloat]) and
      printed by a correctly rounded [format(x, '.2f')].
    - Page geometry is rational: the script only halves page dimensions
      and offsets them by 50.  A page is its media box (lower left
      corner, width and height) and its content; the script reads the
      width and the height only.
    - What an overlay shows is read over the real numbers, as PDF
      transformations.
    - Strings are sequences of code points below 256. *)

From Stdlib Require Import ZArith QArith Bool List Lia.
From Stdlib Require Import Strings.Ascii Strings.String Numbers.DecimalString.
From Stdlib Require Import Floats.SpecFloat.
From Stdlib Require Import Reals Qreals Lra.
Import ListNotations.

Set Warnings "-register-all".

Open Scope string_scope.

(* ================================================================== *)
(** * Part I: definitions *)
(* ================================================================== *)

(** ** The Python runtime as far as the scripts use it *)

Module Py.

(** *** Exceptions

    [sys.exit(n)] raises [SystemExit], which is not a subclass of
    [Exception]: an [except Exception] clause lets it through.  Every
    other exception the scripts can meet (library errors, [OSError],
    [TypeError], [KeyError], [OverflowError], ...) is an [Exception];
    only its message, [str(e)], is ever observed. *)
Inductive exc : Type :=
| Exception (msg : string)
| SystemExit (code : Z).

(** *** JSON values

    What [json.loads] returns and [json.dumps] prints.  A Python [dict]
    keeps insertion order; it is an association list whose first binding
    of a key is the live one. *)
Inductive json : Type :=
| JNull
| JBool (b : bool)
| JInt (z : Z)
| JFloat (q : Q)
| JStr (s : string)
| JList (l : list json)
| JDict (kv : list (string * json)).

Fixpoint assoc {A : Type} (k : string) (kv : list (string * A)) : option A :=
  match kv with
  | [] => None
  | (k', v) :: rest => if String.eqb k k' then Some v else assoc k rest
  end.

(** [d.get(key, default)] on a dict literal of the script. *)
Definition dict_get {A : Type} (kv : list (string * A)) (k : string) (default : A) : A :=
  match assoc k kv with
  | Some v => v
  | None => default
  end.

(** The name Python prints for the type of a JSON value. *)
Definition type_name (j : json) : string :=
  match j with
  | JNull => "NoneType"
  | JBool _ => "bool"
  | JInt _ => "int"
  | JFloat _ => "float"
  | JStr _ => "str"
  | JList _ => "list"
  | JDict _ => "dict"
  end.

(** [obj.get(key, default)] on a value that came out of [json.loads]:
    only a dict has the method, anything else raises [AttributeError]. *)
Definition json_get (obj : json) (k : string) (default : json) : string + json :=
  match obj with
  | JDict kv => inr (dict_get kv k default)
  | _ => inl ("'" ++ type_name obj ++ "' object has no attribute 'get'")
  end.

(** [obj[key]] with a string key: [KeyError] on a dict without the key,
    [TypeError] on everything that is not a dict. *)
Definition json_getitem (obj : json) (k : string) : string + json :=
  match obj with
  | JDict kv =>
      match assoc k kv with
      | Some v => inr v
      | None => inl ("'" ++ k ++ "'")
      end
  | JList _ => inl "list indices must be integers or slices, not str"
  | JStr _ => inl "string indices must be integers, not 'str'"
  | _ => inl ("'" ++ type_name obj ++ "' object is not subscriptable")
  end.

(** [x == 'literal'] for a JSON value [x]. *)
Definition eq_str (j : json) (s : string) : bool :=
  match j with
  | JStr s' => String.eqb s' s
  | _ => false
  end.

(** The [success] entry of a report; a report without one counts as
    failed. *)
Definition success (report : json) : bool :=
  match report with
  | JDict kv =>
      match assoc "success" kv with
      | Some (JBool b) => b
      | _ => false
      end
  | _ => false
  end.

Definition field (report : json) (k : string) : option json :=
  match report with
  | JDict kv => assoc k kv
  | _ => None
  end.

(** *** Binary64 floats

    Python's [float] is IEEE 754 binary64; the operations are the
    reference ones of [SpecFloat] at precision 53. *)
Definition prec : Z := 53.
Definition emax : Z := 1024.
Definition float : Type := spec_float.

(** An integer as dividend or divisor: sign, magnitude, exponent 0.  The
    mantissa is not normalised; [SFdiv] rounds once, at the end. *)
Definition exact_int (z : Z) : float :=
  match z with
  | Z0 => S754_zero false
  | Zpos p => S754_finite false p 0
  | Zneg p => S754_finite true p 0
  end.

(** [float(z)] for an integer of moderate size. *)
Definition float_of_int (z : Z) : float := binary_normalize prec emax z 0 false.

(** [a / b] on two [int]s: the correctly rounded quotient,
    [ZeroDivisionError] for [b = 0], [OverflowError] when the quotient
    does not fit a float. *)
Definition int_truediv (a b : Z) : string + float :=
  if (b =? 0)%Z then inl "division by zero"
  else match SFdiv prec emax (exact_int a) (exact_int b) with
       | S754_infinity _ => inl "integer division result too large for a float"
       | q => inr q
       end.

(** [x * n] for a float [x] and an int [n]. *)
Definition float_mul_int (x : float) (n : Z) : float :=
  SFmul prec emax x (float_of_int n).

(** A Python number as the conditional expression of [compress_pdf]
    yields it: a float from the division, the int [0] from the guard. *)
Inductive number : Type :=
| PyInt (z : Z)
| PyFloat (x : float).

(** *** [format(x, '.2f')] *)

Definition round_half_even (num den : Z) : Z :=
  let q := (num / den)%Z in
  match (2 * (num mod den) ?= den)%Z with
  | Lt => q
  | Gt => (q + 1)%Z
  | Eq => if Z.even q then q else (q + 1)%Z
  end.

(** The magnitude [m * 2^e] in hundredths, rounded to the nearest
    integer, ties to even: what the correctly rounded decimal conversion
    of CPython prints at two places. *)
Definition hundredths (m : positive) (e : Z) : Z :=
  match e with
  | Zneg p => round_half_even (Zpos m * 100) (2 ^ Zpos p)
  | _ => (Zpos m * 2 ^ e * 100)%Z
  end.

Definition digit (d : Z) : ascii := ascii_of_nat (48 + Z.to_nat d).

Definition decimal (z : Z) : string := NilZero.string_of_uint (N.to_uint (Z.to_N z)).

Definition fixed2 (neg : bool) (h : Z) : string :=
  (if neg then "-" else "") ++ decimal (h / 100) ++ "."
    ++ String (digit ((h / 10) mod 10)) (String (digit (h mod 10)) "").

Definition format_2f_float (x : float) : string :=
  match x with
  | S754_zero s => fixed2 s 0
  | S754_finite s m e => fixed2 s (hundredths m e)
  | S754_infinity s => if s then "-inf" else "inf"
  | S754_nan => "nan"
  end.

(** An [int] is converted to [float] first. *)
Definition format_2f (x : number) : string :=
  match x with
  | PyInt z => format_2f_float (float_of_int z)
  | PyFloat f => format_2f_float f
  end.

(** *** Processes: a state and exception monad

    A running script owns the outside world (files, as the libraries see
    them) and its standard output.  [print(json.dumps(d))] appends the
    value [d] to [stdout]. *)
Section Proc.
Context {W : Type}.

Record proc : Type := mkProc { env : W; stdout : list json }.

Definition M (A : Type) : Type := proc -> (exc + A) * proc.

Definition ret {A} (a : A) : M A := fun p => (inr a, p).

Definition bind {A B} (c : M A) (k : A -> M B) : M B :=
  fun p => match c p with
           | (inr a, p') => k a p'
           | (inl e, p') => (inl e, p')
           end.

Definition raise {A} (e : exc) : M A := fun p => (inl e, p).

(** [try: body / except Exception as e: handler(str(e))]. *)
Definition try_except {A} (body : M A) (handler : string -> M A) : M A :=
  fun p => match body p with
           | (inl (Exception msg), p') => handler msg p'
           | r => r
           end.

Definition print (j : json) : M unit :=
  fun p => (inr tt, mkProc (env p) (stdout p ++ [j])).

Definition sys_exit {A} (code : Z) : M A := raise (SystemExit code).

(** A pure step that may raise. *)
Definition lift {A} (r : string + A) : M A :=
  match r with
  | inr a => ret a
  | inl msg => raise (Exception msg)
  end.

(** A library call that reads the world. *)
Definition ask {A} (f : W -> string + A) : M A :=
  fun p => lift (f (env p)) p.

(** A question to the world that always has an answer. *)
Definition look {A} (f : W -> A) : M A :=
  fun p => ret (f (env p)) p.

(** A library call that changes the world, also when it raises. *)
Definition act {A} (f : W -> (string + A) * W) : M A :=
  fun p => let '(r, w') := f (env p) in lift r (mkProc w' (stdout p)).

(** The exit status of the interpreter: 0 when the script runs off its
    end, the argument of [sys.exit], 1 after an uncaught exception. *)
Definition exit_code {A} (r : exc + A) : Z :=
  match r with
  | inr _ => 0
  | inl (SystemExit c) => c
  | inl (Exception _) => 1
  end.

(** One run of a script: what it printed, its exit status, the world
    it leaves. *)
Record outcome : Type := mkOutcome { printed : list json; status : Z; final : W }.

Definition run {A} (script : M A) (w : W) : outcome :=
  let '(r, p) := script (mkProc w []) in
  mkOutcome (stdout p) (exit_code r) (env p).
End Proc.

Arguments proc W : clear implicits.
Arguments M W A : clear implicits.
Arguments outcome W : clear implicits.

Declare Scope py_scope.
Delimit Scope py_scope with py.
Notation "x <- c ;; k" := (bind c (fun x => k))
  (at level 100, c at next level, right associativity) : py_scope.
Notation "c ;;; k" := (bind c (fun _ => k))
  (at level 100, right associativity) : py_scope.

End Py.

(** ** The PDF helper script *)

Module PdfHelper.
Import Py.
Local Open Scope py_scope.

(** The keyword arguments of [pikepdf.Pdf.save] that the script sets.
    [normalize_content] is passed at one level only. *)
Record save_kwargs : Type := mkSave {
  compress_streams : bool;
  stream_decode_level : Z;
  object_stream_mode : Z;
  recompress_flate : bool;
  normalize_content : option bool
}.

(** *** reportlab's canvas

    A canvas accumulates drawing operators.  User-supplied settings stay
    the JSON values they were given as; coordinates computed by the
    script are rationals (halving a page dimension is exact in binary
    floating point too). *)
Inductive canvas_op : Type :=
| setFillColor (r g b alpha : json)
| setFont (face : string) (size : json)
| saveState
| translate (dx dy : Q)
| rotate (theta : json)
| drawCentredString (x y : Q) (text : string)
| restoreState.

Record Canvas : Type := mkCanvas { pagesize : Q * Q; code : list canvas_op }.

(** *** pypdf's pages

    A page is its media box and what is painted on it, bottom to top: the
    content stream it was read with, then every overlay merged into
    it.  The media box is a rectangle of user space: [page.mediabox.left]
    and [.bottom] are its lower left corner, [.width] and [.height] its
    size.  The script reads the size only. *)
Inductive content : Type :=
| Original (stream : string)
| Overlay (ops : list canvas_op).

Record page : Type := mkPageAt {
  mediabox_left : Q;
  mediabox_bottom : Q;
  mediabox_width : Q;
  mediabox_height : Q;
  contents : list content
}.

(** A page whose media box starts at the origin of user space, as that
    of every page reportlab writes. *)
Definition mkPage (width height : Q) (contents : list content) : page :=
  mkPageAt 0 0 width height contents.

(** [page.merge_page(other)]: [other]'s content is painted over the
    page's own, in the page's user space; the media box stays. *)
Definition merge_page (p other : page) : page :=
  mkPageAt (mediabox_left p) (mediabox_bottom p) (mediabox_width p) (mediabox_height p)
           (contents p ++ contents other).

(** [can.save()] followed by [PdfReader(packet).pages[0]]: the script
    always sets a colour and a font first, so the canvas holds operators
    and [save] emits exactly one page, of the canvas's size. *)
Definition saved_page (can : Canvas) : page :=
  mkPage (fst (pagesize can)) (snd (pagesize can)) [Overlay (code can)].

(** *** What the libraries and the operating system answer

    A call that can raise answers [inl message].  A call that writes
    answers with the world it leaves, raised or not. *)
Class PdfEnv : Type := {
  world : Type;
  (** [Some message] when a third-party import fails at start-up *)
  import_error : option string;
  (** pikepdf *)
  pikepdf_Pdf : Type;
  Pdf_open : string -> world -> string + pikepdf_Pdf;
  Pdf_save : pikepdf_Pdf -> string -> save_kwargs -> world -> (string + unit) * world;
  (** os.path *)
  getsize : string -> world -> string + Z;
  (** json *)
  json_loads : string -> string + json;
  (** pypdf: all pages of the file; writing a list of pages to a path
      ([open(path, 'wb')] and [writer.write]) *)
  PdfReader : string -> world -> string + list page;
  write_pages : string -> list page -> world -> (string + unit) * world;
  (** reportlab: [Some message] when the canvas refuses an operator (a
      size that is no number, an alpha outside [0, 1], ...); the width of
      a string in a face at a size *)
  refuses : Canvas -> canvas_op -> option string;
  stringWidth : string -> string -> json -> string + Q
}.

Section Script.
Context {E : PdfEnv}.

Local Abbreviation M := (Py.M world).

(** **** compress_pdf *)

Definition save_options : list (string * save_kwargs) :=
  [ ("low",     mkSave true 0 0 false None);
    ("medium",  mkSave true 1 1 true None);
    ("high",    mkSave true 2 2 true None);
    ("extreme", mkSave true 3 2 true (Some true)) ].

(** [save_options['medium']], the second argument of [.get]. *)
Definition save_options_medium : save_kwargs :=
  dict_get save_options "medium" (mkSave true 1 1 true None).

Definition compress_pdf (input_path output_path level : string) : M json :=
  try_except
    (pdf <- ask (Pdf_open input_path) ;;
     let options := dict_get save_options level save_options_medium in
     act (Pdf_save pdf output_path options) ;;;
     input_size <- ask (getsize input_path) ;;
     output_size <- ask (getsize output_path) ;;
     let saved_bytes := (input_size - output_size)%Z in
     compression_ratio <-
       (if (input_size >? 0)%Z
        then q <- lift (int_truediv saved_bytes input_size) ;;
             ret (PyFloat (float_mul_int q 100))
        else ret (PyInt 0)) ;;
     ret (JDict [ ("success", JBool true);
                  ("original_size", JInt input_size);
                  ("compressed_size", JInt output_size);
                  ("saved_bytes", JInt saved_bytes);
                  ("compression_ratio", JStr (format_2f compression_ratio ++ "%"));
                  ("level", JStr level) ]))
    (fun e => ret (JDict [ ("success", JBool false); ("error", JStr e) ])).

(** **** add_watermark *)

(** A canvas method: the operator is appended unless the library
    refuses it. *)
Definition emit (can : Canvas) (op : canvas_op) : string + Canvas :=
  match refuses can op with
  | Some msg => inl msg
  | None => inr (mkCanvas (pagesize can) (code can ++ [op]))
  end.

Definition and_then {A B} (r : string + A) (k : A -> string + B) : string + B :=
  match r with
  | inr a => k a
  | inl msg => inl msg
  end.

Notation "x <~ r ;; k" := (and_then r (fun x => k))
  (at level 100, r at next level, right associativity).

(** The branch on [position]: the text is drawn in one of four ways, or
    not at all. *)
Definition place_text (can : Canvas) (position rotation : json) (text : string)
           (page_width page_height : Q) : string + Canvas :=
  if eq_str position "diagonal" then
    let center_x := page_width / 2 in
    let center_y := page_height / 2 in
    can <~ emit can saveState ;;
    can <~ emit can (translate center_x center_y) ;;
    can <~ emit can (rotate rotation) ;;
    can <~ emit can (drawCentredString 0 0 text) ;;
    emit can restoreState
  else if eq_str position "center" then
    let center_x := page_width / 2 in
    let center_y := page_height / 2 in
    emit can (drawCentredString center_x center_y text)
  else if eq_str position "top" then
    let center_x := page_width / 2 in
    emit can (drawCentredString center_x (page_height - 50) text)
  else if eq_str position "bottom" then
    let center_x := page_width / 2 in
    emit can (drawCentredString center_x 50 text)
  else inr can.

(** The overlay drawn for one page: the body of the loop up to
    [can.save()]. *)
Definition draw_overlay (opacity font_size rotation position color : json)
           (text : string) (pg : page) : string + Canvas :=
  let page_width := mediabox_width pg in
  let page_height := mediabox_height pg in
  let can := mkCanvas (page_width, page_height) [] in
  r <~ json_getitem color "r" ;;
  g <~ json_getitem color "g" ;;
  b <~ json_getitem color "b" ;;
  can <~ emit can (setFillColor r g b opacity) ;;
  can <~ emit can (setFont "Helvetica-Bold" font_size) ;;
  text_width <~ stringWidth text "Helvetica-Bold" font_size ;;
  place_text can position rotation text page_width page_height.

(** One turn of the loop: draw, save, read back, merge. *)
Definition watermark_page (opacity font_size rotation position color : json)
           (text : string) (pg : page) : string + page :=
  can <~ draw_overlay opacity font_size rotation position color text pg ;;
  let watermark_page := saved_page can in
  inr (merge_page pg watermark_page).

(** [for page_num, page in enumerate(reader.pages)]: [writer] is the
    list of pages added so far. *)
Fixpoint watermark_pages (opacity font_size rotation position color : json)
         (text : string) (pages writer : list page) : string + list page :=
  match pages with
  | [] => inr writer
  | pg :: rest =>
      pg' <~ watermark_page opacity font_size rotation position color text pg ;;
      watermark_pages opacity font_size rotation position color text rest (writer ++ [pg'])
  end.

Definition default_color : json :=
  JDict [ ("r", JFloat (1#2)); ("g", JFloat (1#2)); ("b", JFloat (1#2)) ].

(** [options] is [None] when the caller passes nothing and whatever
    [json.loads] returned otherwise (JSON [null] is [None]). *)
Definition add_watermark (input_path output_path text : string) (options : json) : M json :=
  try_except
    (let options := match options with JNull => JDict [] | _ => options end in
     opacity <- lift (json_get options "opacity" (JFloat (3#10))) ;;
     font_size <- lift (json_get options "fontSize" (JInt 48)) ;;
     rotation <- lift (json_get options "rotation" (JInt 45)) ;;
     position <- lift (json_get options "position" (JStr "diagonal")) ;;
     color <- lift (json_get options "color" default_color) ;;
     reader_pages <- ask (PdfReader input_path) ;;
     writer <- lift (watermark_pages opacity font_size rotation position color
                                     text reader_pages []) ;;
     act (write_pages output_path writer) ;;;
     ret (JDict [ ("success", JBool true);
                  ("pages", JInt (Z.of_nat (List.length reader_pages)));
                  ("watermark", JStr text);
                  ("position", position) ]))
    (fun e => ret (JDict [ ("success", JBool false); ("error", JStr e) ])).

(** **** main *)

(** [sys.argv[i]], used only after the length check that makes it
    safe. *)
Definition argv_at (argv : list string) (i : nat) : string := nth i argv "".

Definition main (argv : list string) : M unit :=
  if (List.length argv <? 2)%nat then
    print (JDict [ ("success", JBool false);
                   ("error", JStr "No operation specified");
                   ("usage", JStr "python pdf_helper.py <operation> <args...>");
                   ("operations", JList [JStr "compress"; JStr "watermark"]) ]) ;;;
    sys_exit 1
  else
    let operation := argv_at argv 1 in
    try_except
      (if String.eqb operation "compress" then
         if (List.length argv <? 5)%nat then
           print (JDict [ ("success", JBool false);
                          ("error", JStr "Usage: compress <input> <output> <level>");
                          ("levels", JList [JStr "low"; JStr "medium";
                                            JStr "high"; JStr "extreme"]) ]) ;;;
           sys_exit 1
         else
           let input_path := argv_at argv 2 in
           let output_path := argv_at argv 3 in
           let level := argv_at argv 4 in
           result <- compress_pdf input_path output_path level ;;
           print result
       else if String.eqb operation "watermark" then
         if (List.length argv <? 5)%nat then
           print (JDict [ ("success", JBool false);
                          ("error", JStr "Usage: watermark <input> <output> <text> [options_json]") ]) ;;;
           sys_exit 1
         else
           let input_path := argv_at argv 2 in
           let output_path := argv_at argv 3 in
           let text := argv_at argv 4 in
           options <- (if (5 <? List.length argv)%nat
                       then lift (json_loads (argv_at argv 5))
                       else ret (JDict [])) ;;
           result <- add_watermark input_path output_path text options ;;
           print result
       else
         print (JDict [ ("success", JBool false);
                        ("error", JStr ("Unknown operation: " ++ operation));
                        ("operations", JList [JStr "compress"; JStr "watermark"]) ]) ;;;
         sys_exit 1)
      (fun e =>
         print (JDict [ ("success", JBool false); ("error", JStr e) ]) ;;;
         sys_exit 1).

(** The whole script: the guarded imports at the top of the file, then
    [main()]. *)
Definition script (argv : list string) : M unit :=
  match import_error with
  | Some e =>
      print (JDict [ ("success", JBool false);
                     ("error", JStr ("Missing required library: " ++ e));
                     ("install_command", JStr "pip install pikepdf reportlab pypdf pillow") ]) ;;;
      sys_exit 1
  | None => main argv
  end.

End Script.
End PdfHelper.


(** ** Where an overlay puts its text

    The operators of a canvas, read as PDF reads them.  Coordinates are
    real numbers.  The current transformation maps the user space of the
    operators to the default user space of the overlay, which
    [merge_page] makes that of the page; a new [translate] or [rotate]
    applies to a point before the transformations already in force. *)

Module Geometry.
Import Py PdfHelper.
Local Open Scope R_scope.

Definition point : Type := R * R.

Definition transformation : Type := point -> point.

Record gstate : Type := mkGstate {
  ctm : transformation;
  saved : list transformation
}.

Definition initial : gstate := mkGstate (fun pt => pt) [].

(** The number a setting stands for; the library refuses what is not a
    number, and such a value counts as 0 here. *)
Definition number (j : json) : R :=
  match j with
  | JInt z => IZR z
  | JFloat q => Q2R q
  | JBool b => if b then 1 else 0
  | _ => 0
  end.

Definition radians (degrees : R) : R := degrees * PI / 180.

Definition translated (dx dy : R) (pt : point) : point :=
  (fst pt + dx, snd pt + dy).

Definition rotated (angle : R) (pt : point) : point :=
  (fst pt * cos angle - snd pt * sin angle,
   fst pt * sin angle + snd pt * cos angle).

(** What an overlay shows of its geometry: the point a rotation turns
    about, and for a string the two ends of its baseline. *)
Inductive mark : Type :=
| Pivot (at_point : point)
| TextRun (start stop : point).

(** [width text] is the advance of [text] in the font in force. *)
Fixpoint render (width : string -> R) (g : gstate) (ops : list canvas_op) : list mark :=
  match ops with
  | [] => []
  | op :: rest =>
      match op with
      | setFillColor _ _ _ _ | setFont _ _ => render width g rest
      | saveState => render width (mkGstate (ctm g) (ctm g :: saved g)) rest
      | restoreState =>
          match saved g with
          | t :: older => render width (mkGstate t older) rest
          | [] => render width g rest
          end
      | translate dx dy =>
          render width
            (mkGstate (fun pt => ctm g (translated (Q2R dx) (Q2R dy) pt)) (saved g)) rest
      | rotate theta =>
          Pivot (ctm g (0, 0))
          :: render width
               (mkGstate (fun pt => ctm g (rotated (radians (number theta)) pt)) (saved g))
               rest
      | drawCentredString x y text =>
          TextRun (ctm g (Q2R x - width text / 2, Q2R y))
                  (ctm g (Q2R x + width text / 2, Q2R y))
          :: render width g rest
      end
  end.

Definition midpoint (a b : point) : point :=
  ((fst a + fst b) / 2, (snd a + snd b) / 2).

(** [(center_x, center_y)] as the script computes them: the middle of
    the overlay canvas, whose size is that of the page's media box and
    whose lower left corner is the origin. *)
Definition canvas_centre (pg : page) : point :=
  (Q2R (mediabox_width pg) / 2, Q2R (mediabox_height pg) / 2).

(** The centre of the page: the middle of its media box. *)
Definition page_centre (pg : page) : point :=
  (Q2R (mediabox_left pg) + Q2R (mediabox_width pg) / 2,
   Q2R (mediabox_bottom pg) + Q2R (mediabox_height pg) / 2).

(** The media box starts at the origin of user space. *)
Definition at_origin (pg : page) : Prop :=
  (mediabox_left pg == 0)%Q /\ (mediabox_bottom pg == 0)%Q.

End Geometry.

(** ** Python strings

    Characters are code points below 256. *)

Module Str.

(** [c.isspace()]. *)
Definition isspace (c : ascii) : bool :=
  let n := nat_of_ascii c in
  (((9 <=? n) && (n <=? 13)) || ((28 <=? n) && (n <=? 32))
   || (n =? 133) || (n =? 160))%nat.

Fixpoint lstrip (s : string) : string :=
  match s with
  | String c s' => if isspace c then lstrip s' else s
  | EmptyString => EmptyString
  end.

Fixpoint rstrip (s : string) : string :=
  match s with
  | String c s' =>
      let r := rstrip s' in
      if isspace c && String.eqb r "" then "" else String c r
  | EmptyString => EmptyString
  end.

(** [s.strip()]. *)
Definition strip (s : string) : string := rstrip (lstrip s).

(** [sub in s]. *)
Fixpoint contains (sub s : string) : bool :=
  String.prefix sub s
  || match s with
     | String _ s' => contains sub s'
     | EmptyString => false
     end.

(** [s.replace(old, new)] for a non-empty [old]: occurrences are found
    left to right and do not overlap.  [skip] counts the characters of an
    occurrence still to be dropped. *)
Fixpoint replace_from (old new : string) (skip : nat) (s : string) : string :=
  match s with
  | EmptyString => EmptyString
  | String c s' =>
      match skip with
      | S k => replace_from old new k s'
      | O =>
          if String.prefix old s
          then new ++ replace_from old new (String.length old - 1) s'
          else String c (replace_from old new 0 s')
      end
  end.

Definition replace (s old new : string) : string := replace_from old new 0 s.

(** [''.join(parts)]. *)
Definition join (parts : list string) : string := String.concat "" parts.

End Str.

(** ** The DOCX converter *)

Module DocxToPdf.
Import Py.
Local Open Scope py_scope.

(** *** python-docx's document model *)

(** [run.underline]: [None] (inherited), [True], [False], or a member of
    [WD_UNDERLINE], an integer-valued enumeration. *)
Inductive underline_value : Type :=
| UnderlineInherited
| UnderlineBool (b : bool)
| UnderlineStyle (wd_underline : Z).

Record Run : Type := mkRun {
  text : string;
  bold : option bool;
  italic : option bool;
  underline : underline_value
}.

Inductive WD_ALIGN_PARAGRAPH : Type :=
| LEFT | CENTER | RIGHT | JUSTIFY | DISTRIBUTE
| JUSTIFY_MED | JUSTIFY_HI | JUSTIFY_LOW | THAI_JUSTIFY.

Record DocxParagraph : Type := mkPara {
  runs : list Run;
  style_name : string;
  alignment : option WD_ALIGN_PARAGRAPH
}.

(** A table: its rows, each the text of its cells. *)
Definition DocxTable : Type := list (list string).

Record Document : Type := mkDoc {
  paragraphs : list DocxParagraph;
  tables : list DocxTable
}.

(** Truth value of a tri-state flag: [None] is false. *)
Definition truthy (flag : option bool) : bool :=
  match flag with
  | Some b => b
  | None => false
  end.

Definition underlined (u : underline_value) : bool :=
  match u with
  | UnderlineInherited => false
  | UnderlineBool b => b
  | UnderlineStyle v => negb (v =? 0)%Z
  end.

(** *** reportlab's flowables *)

Definition TA_LEFT : Z := 0%Z.
Definition TA_CENTER : Z := 1%Z.
Definition TA_RIGHT : Z := 2%Z.
Definition TA_JUSTIFY : Z := 4%Z.

Record ParagraphStyle : Type := mkStyle {
  name : string;
  parent : string;
  fontSize : Z;
  textColor : string;
  spaceAfter : Z;
  spaceBefore : option Z;
  style_alignment : Z
}.

Inductive arg : Type :=
| Color (c : string)
| Word (s : string)
| Num (n : Z).

(** One command of a [TableStyle]: its name, the cell range, the
    values. *)
Record table_command : Type := mkCmd {
  command : string;
  start : Z * Z;
  stop : Z * Z;
  values : list arg
}.

Inductive flowable : Type :=
| Spacer (width height : Q)
| Paragraph (markup : string) (style : ParagraphStyle)
| Table (data : list (list string)) (table_style : list table_command).

Record SimpleDocTemplate : Type := mkTemplate {
  filename : string;
  template_pagesize : Q * Q;
  rightMargin : Z;
  leftMargin : Z;
  topMargin : Z;
  bottomMargin : Z
}.

Definition inch : Q := 72.
Definition letter : Q * Q := (612, 792).

(** *** What the libraries and the operating system answer *)
Class DocxEnv : Type := {
  world : Type;
  import_error : option string;
  (** os.path *)
  exists_ : string -> world -> bool;
  getsize : string -> world -> string + Z;
  (** python-docx: loading a file; whether the enumeration of alignments
      can be imported inside [get_alignment] *)
  load_document : string -> world -> string + Document;
  enum_importable : bool;
  (** reportlab: [Some message] when [Paragraph(text, style)] cannot parse
      its markup, when [Table(data)] rejects its data; laying the story
      out and writing the file *)
  Paragraph_error : string -> ParagraphStyle -> option string;
  Table_error : list (list string) -> option string;
  build : SimpleDocTemplate -> list flowable -> world -> (string + unit) * world
}.

(** **** parse_docx_paragraph *)

Definition wrap (tag body : string) : string :=
  "<" ++ tag ++ ">" ++ body ++ "</" ++ tag ++ ">".

(** The body of the loop over [para.runs]: [text_parts] after one more
    run. *)
Definition parse_run (text_parts : list string) (run : Run) : list string :=
  let text := text run in
  if String.eqb text "" then text_parts
  else
    let text := if truthy (bold run) then wrap "b" text else text in
    let text := if truthy (italic run) then wrap "i" text else text in
    let text := if underlined (underline run) then wrap "u" text else text in
    text_parts ++ [text].

Definition parse_docx_paragraph (para : DocxParagraph) : string :=
  Str.join (fold_left parse_run (runs para) []).

Section Script.
Context {E : DocxEnv}.

Local Abbreviation M := (Py.M world).

(** **** get_alignment *)

Definition get_alignment (para : DocxParagraph) : Z :=
  match alignment para with
  | None => TA_LEFT
  | Some a =>
      if enum_importable then
        match a with
        | CENTER => TA_CENTER
        | RIGHT => TA_RIGHT
        | JUSTIFY => TA_JUSTIFY
        | _ => TA_LEFT
        end
      else TA_LEFT
  end.

(** **** docx_to_pdf *)

Definition and_then {A B} (r : string + A) (k : A -> string + B) : string + B :=
  match r with
  | inr a => k a
  | inl msg => inl msg
  end.

Notation "x <~ r ;; k" := (and_then r (fun x => k))
  (at level 100, r at next level, right associativity).

(** The [ParagraphStyle] chosen from the name of the paragraph's style. *)
Definition select_style (para : DocxParagraph) : ParagraphStyle :=
  let style_name := style_name para in
  if Str.contains "Heading 1" style_name || Str.contains "Title" style_name then
    mkStyle "CustomHeading1" "Heading1" 18%Z "black" 12%Z (Some 12%Z) (get_alignment para)
  else if Str.contains "Heading 2" style_name then
    mkStyle "CustomHeading2" "Heading2" 14%Z "black" 10%Z (Some 10%Z) (get_alignment para)
  else if Str.contains "Heading 3" style_name then
    mkStyle "CustomHeading3" "Heading3" 12%Z "black" 8%Z (Some 8%Z) (get_alignment para)
  else
    mkStyle "CustomNormal" "Normal" 11%Z "black" 6%Z None (get_alignment para).

(** The six chained [replace] calls of the fallback. *)
Definition strip_markup (text : string) : string :=
  Str.replace (Str.replace (Str.replace (Str.replace (Str.replace (Str.replace
    text "<b>" "") "</b>" "") "<i>" "") "</i>" "") "<u>" "") "</u>" "".

(** [Paragraph(text, style)]. *)
Definition new_paragraph (text : string) (style : ParagraphStyle) : string + flowable :=
  match Paragraph_error text style with
  | Some msg => inl msg
  | None => inr (Paragraph text style)
  end.

(** One turn of the loop over [doc.paragraphs]: the flowable appended to
    the story.  An exception inside the handler of the inner [try] is not
    caught there. *)
Definition convert_paragraph (para : DocxParagraph) : string + flowable :=
  let text := parse_docx_paragraph para in
  if String.eqb (Str.strip text) "" then inr (Spacer 1 (0.2 * inch))
  else
    let style := select_style para in
    match new_paragraph text style with
    | inr p => inr p
    | inl _ => new_paragraph (strip_markup text) style
    end.

Fixpoint convert_paragraphs (paras : list DocxParagraph) (story : list flowable)
  : string + list flowable :=
  match paras with
  | [] => inr story
  | para :: rest =>
      p <~ convert_paragraph para ;;
      convert_paragraphs rest (story ++ [p])
  end.

Definition table_theme : list table_command :=
  [ mkCmd "BACKGROUND" (0, 0)%Z (-1, 0)%Z [Color "grey"];
    mkCmd "TEXTCOLOR" (0, 0)%Z (-1, 0)%Z [Color "whitesmoke"];
    mkCmd "ALIGN" (0, 0)%Z (-1, -1)%Z [Word "CENTER"];
    mkCmd "FONTNAME" (0, 0)%Z (-1, 0)%Z [Word "Helvetica-Bold"];
    mkCmd "FONTSIZE" (0, 0)%Z (-1, 0)%Z [Num 12%Z];
    mkCmd "BOTTOMPADDING" (0, 0)%Z (-1, 0)%Z [Num 12%Z];
    mkCmd "BACKGROUND" (0, 1)%Z (-1, -1)%Z [Color "beige"];
    mkCmd "GRID" (0, 0)%Z (-1, -1)%Z [Num 1%Z; Color "black"] ].

(** One turn of the loop over [doc.tables]: the flowables appended. *)
Definition convert_table (table : DocxTable) : string + list flowable :=
  let table_data := map (map Str.strip) table in
  match table_data with
  | [] => inr []
  | _ =>
      match Table_error table_data with
      | Some msg => inl msg
      | None => inr [Table table_data table_theme; Spacer 1 (0.3 * inch)]
      end
  end.

Fixpoint convert_tables (tbls : list DocxTable) (story : list flowable)
  : string + list flowable :=
  match tbls with
  | [] => inr story
  | table :: rest =>
      fs <~ convert_table table ;;
      convert_tables rest (story ++ fs)
  end.

Definition docx_to_pdf (input_path output_path : string) : M json :=
  try_except
    (doc <- ask (load_document input_path) ;;
     let pdf_doc := mkTemplate output_path letter 72%Z 72%Z 72%Z 72%Z in
     story <- lift (convert_paragraphs (paragraphs doc) []) ;;
     story <- lift (convert_tables (tables doc) story) ;;
     act (build pdf_doc story) ;;;
     output_size <- ask (getsize output_path) ;;
     ret (JDict [ ("success", JBool true);
                  ("paragraphs", JInt (Z.of_nat (List.length (paragraphs doc))));
                  ("tables", JInt (Z.of_nat (List.length (tables doc))));
                  ("output_size", JInt output_size);
                  ("format", JStr "pdf") ]))
    (fun e => ret (JDict [ ("success", JBool false); ("error", JStr e) ])).

(** **** main *)

Definition argv_at (argv : list string) (i : nat) : string := nth i argv "".

Definition main (argv : list string) : M unit :=
  if (List.length argv <? 3)%nat then
    print (JDict [ ("success", JBool false);
                   ("error", JStr "Usage: python docx_to_pdf.py <input.docx> <output.pdf>") ]) ;;;
    sys_exit 1
  else
    let input_path := argv_at argv 1 in
    let output_path := argv_at argv 2 in
    path_exists <- look (exists_ input_path) ;;
    if negb path_exists then
      print (JDict [ ("success", JBool false);
                     ("error", JStr ("Input file not found: " ++ input_path)) ]) ;;;
      sys_exit 1
    else
      result <- docx_to_pdf input_path output_path ;;
      print result ;;;
      sys_exit (if success result then 0 else 1).

Definition script (argv : list string) : M unit :=
  match import_error with
  | Some e =>
      print (JDict [ ("success", JBool false);
                     ("error", JStr ("Missing required library: " ++ e));
                     ("installed", JStr "python-docx, reportlab should be installed") ]) ;;;
      sys_exit 1
  | None => main argv
  end.

End Script.
End DocxToPdf.


(** ** Concrete environments

    Small file systems and libraries to run the scripts on: the examples
    and the instances of the theorems below are evaluated in them. *)

Module Fixtures.
Import Py.

Definition is_number (j : json) : bool :=
  match j with
  | JInt _ | JFloat _ => true
  | _ => false
  end.

(** A double quote, to spell JSON texts. *)
Definition dq : string := String (ascii_of_nat 34) EmptyString.
Definition quoted (s : string) : string := dq ++ s ++ dq.

(** *** For the PDF helper *)

Module Pdf.
Import PdfHelper.

(** A file is its size in bytes and, when it is a PDF, its pages. *)
Record file : Type := mkFile { size : Z; pdf_pages : option (list page) }.

Definition fs : Type := list (string * file).

(** pikepdf here writes three quarters of the input when it recompresses
    flate streams and one and a half times the input when it does not. *)
Definition saved_size (input : Z) (opts : save_kwargs) : Z :=
  if recompress_flate opts then (input * 3 / 4)%Z else (input * 3 / 2)%Z.

(** An open document remembers the path it was read from. *)
Record opened : Type := mkOpened { source : string; document : file }.

Definition open_pdf (path : string) (w : fs) : string + opened :=
  match assoc path w with
  | Some f =>
      match pdf_pages f with
      | Some _ => inr (mkOpened path f)
      | None => inl ("unable to find PDF header: " ++ path)
      end
  | None => inl ("No such file or directory: " ++ path)
  end.

(** pikepdf does not save over the file it has open. *)
Definition save_pdf (pdf : opened) (path : string) (opts : save_kwargs) (w : fs)
  : (string + unit) * fs :=
  if String.eqb path (source pdf) then (inl "Cannot overwrite input file", w)
  else (inr tt,
        (path, mkFile (saved_size (size (document pdf)) opts) (pdf_pages (document pdf)))
          :: w).

(** The same for a document pikepdf cannot make smaller: what it writes
    is as large as what it read. *)
Definition save_as_it_is (pdf : opened) (path : string) (opts : save_kwargs) (w : fs)
  : (string + unit) * fs :=
  if String.eqb path (source pdf) then (inl "Cannot overwrite input file", w)
  else (inr tt, (path, document pdf) :: w).

Definition size_of (path : string) (w : fs) : string + Z :=
  match assoc path w with
  | Some f => inr (size f)
  | None => inl ("No such file or directory: " ++ path)
  end.

Definition read_pages (path : string) (w : fs) : string + list page :=
  match open_pdf path w with
  | inr pdf => inr (match pdf_pages (document pdf) with Some ps => ps | None => [] end)
  | inl msg => inl msg
  end.

Definition write (path : string) (ps : list page) (w : fs) : (string + unit) * fs :=
  (inr tt, (path, mkFile (1000 * Z.of_nat (List.length ps)) (Some ps)) :: w).

(** The option texts this loader knows. *)
Definition sideways_options : string :=
  "{" ++ quoted "position" ++ ": " ++ quoted "sideways" ++ "}".

Definition loads (s : string) : string + json :=
  if String.eqb s "{}" then inr (JDict [])
  else if String.eqb s sideways_options then inr (JDict [("position", JStr "sideways")])
  else if String.eqb s "[]" then inr (JList [])
  else inl "Expecting value: line 1 column 1 (char 0)".

(** A canvas that wants numbers where numbers belong. *)
Definition refuses_op (can : Canvas) (op : canvas_op) : option string :=
  match op with
  | setFillColor r g b alpha =>
      if is_number r && is_number g && is_number b && is_number alpha then None
      else Some "bad colour"
  | setFont _ size => if is_number size then None else Some "bad font size"
  | rotate theta => if is_number theta then None else Some "bad angle"
  | _ => None
  end.

Definition width_of (text face : string) (size : json) : string + Q :=
  match size with
  | JInt z => inr (inject_Z (Z.of_nat (String.length text) * z) * (3#5))
  | JFloat q => inr (inject_Z (Z.of_nat (String.length text)) * q * (3#5))
  | _ => inl "unsupported operand type(s)"
  end.

#[export] Instance env : PdfEnv := {|
  world := fs;
  PdfHelper.import_error := None;
  pikepdf_Pdf := opened;
  Pdf_open := open_pdf;
  Pdf_save := save_pdf;
  PdfHelper.getsize := size_of;
  json_loads := loads;
  PdfReader := read_pages;
  write_pages := write;
  refuses := refuses_op;
  stringWidth := width_of
|}.

(** The same environment with documents that are as small as they get. *)
Definition steady : PdfEnv := {|
  world := fs;
  PdfHelper.import_error := None;
  pikepdf_Pdf := opened;
  Pdf_open := open_pdf;
  Pdf_save := save_as_it_is;
  PdfHelper.getsize := size_of;
  json_loads := loads;
  PdfReader := read_pages;
  write_pages := write;
  refuses := refuses_op;
  stringWidth := width_of
|}.

Definition a4_page (stream : string) : page := mkPage 595 842 [Original stream].

(** A page of the same size cut out of a larger sheet: its media box is
    [[100 100 695 942]]. *)
Definition offset_page (stream : string) : page :=
  mkPageAt 100 100 595 842 [Original stream].

(** A disk with a two-page PDF of 100 bytes, an empty file that still
    opens, a PDF without pages and a text file. *)
Definition disk : fs :=
  [ ("in.pdf", mkFile 100 (Some [a4_page "one"; a4_page "two"]));
    ("empty.pdf", mkFile 0 (Some []));
    ("nopages.pdf", mkFile 300 (Some []));
    ("notes.txt", mkFile 12 None) ].

End Pdf.

(** *** For the DOCX converter *)

Module Docx.
Import DocxToPdf.

Inductive file : Type :=
| Docx (doc : Document)
| Pdf (size : Z)
| Other (size : Z).

Definition fs : Type := list (string * file).

Definition load (path : string) (w : fs) : string + Document :=
  match assoc path w with
  | Some (Docx doc) => inr doc
  | Some _ => inl "File is not a zip file"
  | None => inl ("Package not found at '" ++ path ++ "'")
  end.

Definition present (path : string) (w : fs) : bool :=
  match assoc path w with
  | Some _ => true
  | None => false
  end.

Definition size_of (path : string) (w : fs) : string + Z :=
  match assoc path w with
  | Some (Pdf n) | Some (Other n) => inr n
  | Some (Docx _) => inr 4096%Z
  | None => inl ("No such file or directory: " ++ path)
  end.

(** A markup parser that knows the tags [b], [i] and [u] and wants them
    nested: a [<] that starts none of the six markers, a closing marker
    that does not close the tag opened last and a tag left open are
    errors.  [skip] counts the characters of a marker still to pass
    over; [pending] holds the open tags, innermost first. *)
Definition marker_at (s : string) : option (bool * string) :=
  if String.prefix "<b>" s then Some (true, "b")
  else if String.prefix "<i>" s then Some (true, "i")
  else if String.prefix "<u>" s then Some (true, "u")
  else if String.prefix "</b>" s then Some (false, "b")
  else if String.prefix "</i>" s then Some (false, "i")
  else if String.prefix "</u>" s then Some (false, "u")
  else None.

Fixpoint check_markup (skip : nat) (pending : list string) (s : string) : option string :=
  match s with
  | EmptyString =>
      match pending with
      | [] => None
      | _ :: _ => Some "paraparser: unclosed tag"
      end
  | String c rest =>
      match skip with
      | S k => check_markup k pending rest
      | O =>
          if Ascii.eqb c "<" then
            match marker_at s with
            | Some (true, t) => check_markup 2 (t :: pending) rest
            | Some (false, t) =>
                match pending with
                | t' :: older =>
                    if String.eqb t t' then check_markup 3 older rest
                    else Some "paraparser: unexpected closing tag"
                | [] => Some "paraparser: unexpected closing tag"
                end
            | None => Some "paraparser: malformed tag"
            end
          else check_markup 0 pending rest
      end
  end.

Definition paragraph_error (markup : string) (style : ParagraphStyle) : option string :=
  check_markup 0 [] markup.

Definition table_error (data : list (list string)) : option string := None.

Definition build_pdf (t : SimpleDocTemplate) (story : list flowable) (w : fs)
  : (string + unit) * fs :=
  (inr tt, (filename t, Pdf (1000 + 100 * Z.of_nat (List.length story))) :: w).

#[export] Instance env : DocxEnv := {|
  world := fs;
  DocxToPdf.import_error := None;
  exists_ := present;
  DocxToPdf.getsize := size_of;
  load_document := load;
  enum_importable := true;
  Paragraph_error := paragraph_error;
  Table_error := table_error;
  build := build_pdf
|}.

Definition plain (s : string) : Run := mkRun s None None UnderlineInherited.

(** Bold, italic and underlined words, an empty paragraph, a heading and a
    one-row table. *)
Definition report : Document :=
  mkDoc
    [ mkPara [plain "Summary"] "Heading 1" (Some CENTER);
      mkPara [] "Normal" None;
      mkPara [plain "A "; mkRun "bold" (Some true) None UnderlineInherited;
              plain " and "; mkRun "both" None (Some true) (UnderlineBool true)]
             "Normal" None ]
    [ [["a "; " b"]] ].

Definition disk : fs :=
  [ ("report.docx", Docx report); ("notes.txt", Other 12) ].

End Docx.
End Fixtures.

(** ** The properties under study, as the specification words them *)

Module Claims.
Import Py.

(** *** Markup of a run *)

Definition wrap_if (flag : bool) (tag body : string) : string :=
  if flag then DocxToPdf.wrap tag body else body.

(** Bold outermost, then italic, then underline. *)
Definition markup_bold_outermost (run : DocxToPdf.Run) : string :=
  wrap_if (DocxToPdf.truthy (DocxToPdf.bold run)) "b"
    (wrap_if (DocxToPdf.truthy (DocxToPdf.italic run)) "i"
       (wrap_if (DocxToPdf.underlined (DocxToPdf.underline run)) "u"
          (DocxToPdf.text run))).

(** Underline outermost, then italic, bold innermost. *)
Definition markup_underline_outermost (run : DocxToPdf.Run) : string :=
  wrap_if (DocxToPdf.underlined (DocxToPdf.underline run)) "u"
    (wrap_if (DocxToPdf.truthy (DocxToPdf.italic run)) "i"
       (wrap_if (DocxToPdf.truthy (DocxToPdf.bold run)) "b"
          (DocxToPdf.text run))).

Definition has_text (run : DocxToPdf.Run) : bool :=
  negb (String.eqb (DocxToPdf.text run) "").

(** Every run with text marked up by [markup] on its own, the pieces
    concatenated in order. *)
Definition paragraph_markup (markup : DocxToPdf.Run -> string)
           (para : DocxToPdf.DocxParagraph) : string :=
  String.concat "" (map markup (filter has_text (DocxToPdf.runs para))).

(** *** Compression levels *)

Definition known_levels : list string := ["low"; "medium"; "high"; "extreme"].

(** A report with its [level] entry, if it has one, set to [level]. *)
Definition with_level (level : string) (report : json) : json :=
  match report with
  | JDict kv =>
      JDict (map (fun kv => if String.eqb (fst kv) "level"
                            then (fst kv, JStr level) else kv) kv)
  | _ => report
  end.

Definition relabel {W A : Type} (level : string) (r : (A + json) * W) : (A + json) * W :=
  match r with
  | (inr report, w) => (inr (with_level level report), w)
  | _ => r
  end.

(** [compress] at [level] is indistinguishable from [compress] at
    [medium]: same settings, same report, same files. *)
Definition behaves_as_medium {E : PdfHelper.PdfEnv} (input_path output_path level : string)
           (p : proc PdfHelper.world) : Prop :=
  dict_get PdfHelper.save_options level PdfHelper.save_options_medium
  = dict_get PdfHelper.save_options "medium" PdfHelper.save_options_medium
  /\ PdfHelper.compress_pdf input_path output_path level p
     = PdfHelper.compress_pdf input_path output_path "medium" p.

(** *** The compression ratio *)

(** [(original - compressed) / original * 100] in binary64. *)
Definition percentage_saved (original compressed : Z) : float :=
  SFmul prec emax
    (SFdiv prec emax (exact_int (original - compressed)) (exact_int original))
    (float_of_int 100).

(** The ratio as the report words it: two decimals and a percent sign,
    [0.00%] for an empty input. *)
Definition ratio_text (original compressed : Z) : string :=
  if (original =? 0)%Z then "0.00%"
  else format_2f_float (percentage_saved original compressed) ++ "%".

Definition is_digit (c : ascii) : bool :=
  ((48 <=? nat_of_ascii c) && (nat_of_ascii c <=? 57))%nat.

(** Two digits and a percent sign, nothing after. *)
Definition two_digits_percent (s : string) : bool :=
  match s with
  | String d1 (String d2 (String p EmptyString)) =>
      is_digit d1 && is_digit d2 && Ascii.eqb p "%"
  | _ => false
  end.

(** One digit or more, a point, two digits, a percent sign; [seen] says
    that a digit has been read. *)
Fixpoint digits_point (seen : bool) (s : string) : bool :=
  match s with
  | EmptyString => false
  | String c s' =>
      if is_digit c then digits_point true s'
      else Ascii.eqb c "." && seen && two_digits_percent s'
  end.

(** The text starts with a minus sign. *)
Definition negative (s : string) : bool :=
  match s with
  | String c _ => Ascii.eqb c "-"
  | EmptyString => false
  end.

(** A percentage with exactly two decimal digits, with or without a minus
    sign: [12.50%], [-0.25%]. *)
Definition two_decimal_percentage (s : string) : bool :=
  match s with
  | String c s' =>
      if Ascii.eqb c "-" then digits_point false s' else digits_point false s
  | EmptyString => false
  end.

Fixpoint all_digits (s : string) : bool :=
  match s with
  | EmptyString => true
  | String c s' => is_digit c && all_digits s'
  end.

(** Whenever [compress] succeeds, its ratio is a percentage with two
    decimals that is not negative. *)
Definition ratio_never_negative {E : PdfHelper.PdfEnv} (input_path output_path level : string)
           (p : proc PdfHelper.world) : Prop :=
  forall report p',
    PdfHelper.compress_pdf input_path output_path level p = (inr report, p') ->
    success report = true ->
    exists s, field report "compression_ratio" = Some (JStr s)
              /\ two_decimal_percentage s = true
              /\ negative s = false.

(** A float that is a signed zero or finite, of sign [s], below [2 ^ B]
    in magnitude. *)
Definition within (s : bool) (B : Z) (x : float) : Prop :=
  x = S754_zero s
  \/ exists m e, x = S754_finite s m e
                 /\ (Zdigits2 (Z.pos m) + e <= B)%Z /\ (e <= B)%Z.

(** *** Watermark positions *)

Definition known_positions : list string := ["diagonal"; "center"; "top"; "bottom"].

(** The operator puts text on the canvas. *)
Definition draws_text (op : PdfHelper.canvas_op) : bool :=
  match op with
  | PdfHelper.drawCentredString _ _ _ => true
  | _ => false
  end.

(** *** Markup and plain text *)

Import DocxToPdf.

(** The six markers the converter writes. *)
Inductive marker : Type :=
| open_b | close_b | open_i | close_i | open_u | close_u.

Definition marker_text (m : marker) : string :=
  match m with
  | open_b => "<b>" | close_b => "</b>"
  | open_i => "<i>" | close_i => "</i>"
  | open_u => "<u>" | close_u => "</u>"
  end.

Definition marker_eqb (m m' : marker) : bool :=
  match m, m' with
  | open_b, open_b | close_b, close_b | open_i, open_i
  | close_i, close_i | open_u, open_u | close_u, close_u => true
  | _, _ => false
  end.

(** A marked-up string cut into markers and stretches of text. *)
Inductive piece : Type :=
| Marker (m : marker)
| Plain (s : string).

Definition piece_text (pc : piece) : string :=
  match pc with
  | Marker m => marker_text m
  | Plain s => s
  end.

Definition flatten (pieces : list piece) : string :=
  String.concat "" (map piece_text pieces).

Definition is_marker (m : marker) (pc : piece) : bool :=
  match pc with
  | Marker m' => marker_eqb m m'
  | Plain _ => false
  end.

(** No [<] in the text. *)
Fixpoint tag_free (s : string) : bool :=
  match s with
  | EmptyString => true
  | String c s' => negb (Ascii.eqb c "<") && tag_free s'
  end.


(** The text of a paragraph without any markup. *)
Definition plain_text (para : DocxToPdf.DocxParagraph) : string :=
  String.concat "" (map text (runs para)).


(** The pieces [parse_docx_paragraph] writes for one run. *)
Definition run_pieces (run : DocxToPdf.Run) : list piece :=
  ((if underlined (underline run) then [Marker open_u] else [])
   ++ (if truthy (italic run) then [Marker open_i] else [])
   ++ (if truthy (bold run) then [Marker open_b] else [])
   ++ [Plain (text run)]
   ++ (if truthy (bold run) then [Marker close_b] else [])
   ++ (if truthy (italic run) then [Marker close_i] else [])
   ++ (if underlined (underline run) then [Marker close_u] else []))%list.

Definition para_pieces (para : DocxToPdf.DocxParagraph) : list piece :=
  flat_map run_pieces (filter has_text (runs para)).

Definition is_plain (pc : piece) : bool :=
  match pc with
  | Plain _ => true
  | Marker _ => false
  end.

Definition tag_free_piece (pc : piece) : Prop :=
  match pc with
  | Plain s => tag_free s = true
  | Marker _ => True
  end.

(** *** Paragraphs that fall back to plain text *)

Section Recovery.
Context {E : DocxEnv}.

(** The paragraph has no text but white space. *)
Definition is_blank (para : DocxToPdf.DocxParagraph) : bool :=
  String.eqb (Str.strip (parse_docx_paragraph para)) "".

(** [Paragraph] accepts the marked-up text. *)
Definition styled_ok (para : DocxToPdf.DocxParagraph) : bool :=
  match Paragraph_error (parse_docx_paragraph para) (select_style para) with
  | None => true
  | Some _ => false
  end.

(** [Paragraph] accepts the text once the markers are stripped. *)
Definition plain_ok (para : DocxToPdf.DocxParagraph) : bool :=
  match Paragraph_error (strip_markup (parse_docx_paragraph para)) (select_style para) with
  | None => true
  | Some _ => false
  end.

(** The paragraph fails at the styled construction at most. *)
Definition recovers (para : DocxToPdf.DocxParagraph) : bool :=
  is_blank para || styled_ok para || plain_ok para.

(** What such a paragraph adds to the story. *)
Definition story_entry (para : DocxToPdf.DocxParagraph) : flowable :=
  if is_blank para then Spacer 1 (0.2 * inch)
  else if styled_ok para
       then Paragraph (parse_docx_paragraph para) (select_style para)
       else Paragraph (strip_markup (parse_docx_paragraph para)) (select_style para).


End Recovery.


End Claims.

(** ** Further properties: what they speak of *)

Module Properties.
Import Py.

(** *** The PDF helper's command line *)

Section PdfCommandLine.
Context {E : PdfHelper.PdfEnv}.

(** The arguments name an operation and give it what it needs: [main]
    gets as far as calling [compress_pdf] or [add_watermark]. *)
Definition operation_runs (argv : list string) : bool :=
  let operation := PdfHelper.argv_at argv 1 in
  ((2 <=? List.length argv)%nat
   && (5 <=? List.length argv)%nat
   && (String.eqb operation "compress"
       || (String.eqb operation "watermark"
           && (if (5 <? List.length argv)%nat
               then match PdfHelper.json_loads (PdfHelper.argv_at argv 5) with
                    | inr _ => true
                    | inl _ => false
                    end
               else true))))%bool.

End PdfCommandLine.

(** *** Watermark options *)

(** The keys [add_watermark] reads. *)
Definition option_keys : list string :=
  ["opacity"; "fontSize"; "rotation"; "position"; "color"].

(** Every default, written out. *)
Definition default_bindings : list (string * json) :=
  [ ("opacity", JFloat (3#10));
    ("fontSize", JInt 48);
    ("rotation", JInt 45);
    ("position", JStr "diagonal");
    ("color", PdfHelper.default_color) ].

Definition default_options : json := JDict default_bindings.

(** Where the script draws for the three upright positions, in user
    space: it reckons from the size of the media box alone. *)
Definition drawn_at (position : string) (pg : PdfHelper.page) : Geometry.point :=
  let w := Q2R (PdfHelper.mediabox_width pg) in
  let h := Q2R (PdfHelper.mediabox_height pg) in
  if String.eqb position "center" then (w / 2, h / 2)%R
  else if String.eqb position "top" then (w / 2, h - 50)%R
  else (w / 2, 50)%R.

(** Where the names of the three positions point on the page: on its
    vertical axis, at half its height, 50 units below its top edge and
    50 units above its bottom edge. *)
Definition anchor (position : string) (pg : PdfHelper.page) : Geometry.point :=
  let axis := (Q2R (PdfHelper.mediabox_left pg) + Q2R (PdfHelper.mediabox_width pg) / 2)%R in
  let bottom_edge := Q2R (PdfHelper.mediabox_bottom pg) in
  let top_edge := (bottom_edge + Q2R (PdfHelper.mediabox_height pg))%R in
  if String.eqb position "center" then (axis, (bottom_edge + top_edge) / 2)%R
  else if String.eqb position "top" then (axis, top_edge - 50)%R
  else (axis, bottom_edge + 50)%R.

(** *** Markup *)

Import DocxToPdf Claims.

Inductive tag : Type := tag_b | tag_i | tag_u.

Definition tag_eqb (t t' : tag) : bool :=
  match t, t' with
  | tag_b, tag_b | tag_i, tag_i | tag_u, tag_u => true
  | _, _ => false
  end.

Definition marker_tag (m : marker) : tag :=
  match m with
  | open_b | close_b => tag_b
  | open_i | close_i => tag_i
  | open_u | close_u => tag_u
  end.

Definition opens (m : marker) : bool :=
  match m with
  | open_b | open_i | open_u => true
  | _ => false
  end.

(** Every closing marker closes the tag opened last, and nothing stays
    open; [pending] holds the open tags, innermost first. *)
Fixpoint balanced_from (pending : list tag) (pieces : list piece) : bool :=
  match pieces with
  | [] => match pending with [] => true | _ => false end
  | Plain _ :: rest => balanced_from pending rest
  | Marker m :: rest =>
      if opens m then balanced_from (marker_tag m :: pending) rest
      else match pending with
           | t :: older => tag_eqb t (marker_tag m) && balanced_from older rest
           | [] => false
           end
  end.

Definition balanced (pieces : list piece) : bool := balanced_from [] pieces.

(** A run without bold, italic or underline. *)
Definition unformatted (run : Run) : bool :=
  negb (truthy (bold run)) && negb (truthy (italic run))
  && negb (underlined (underline run)).

Fixpoint all_space (s : string) : bool :=
  match s with
  | EmptyString => true
  | String c s' => Str.isspace c && all_space s'
  end.

(** A run that shows nothing: no text, or white space without
    formatting. *)
Definition invisible (run : Run) : bool :=
  String.eqb (text run) "" || (all_space (text run) && unformatted run).

Definition is_table (f : flowable) : bool :=
  match f with
  | Table _ _ => true
  | _ => false
  end.

Definition has_rows (table : DocxTable) : bool :=
  match table with
  | [] => false
  | _ => true
  end.

(** [sub] occurs in [s]. *)
Definition occurs_in (sub s : string) : Prop :=
  exists before after, s = before ++ sub ++ after.

Definition is_paragraph (f : flowable) : bool :=
  match f with
  | Paragraph _ _ => true
  | _ => false
  end.

(** A memo whose second paragraph the example markup parser refuses as
    it stands and after the fallback: the text holds a [<] of its own,
    and taking out [<i>] leaves an opening [<b>] that nothing closes. *)
Definition memo : Document :=
  mkDoc
    [ mkPara [Fixtures.Docx.plain "To all staff"] "Normal" None;
      mkPara [Fixtures.Docx.plain "<<i>b>x"] "Normal" None;
      mkPara [Fixtures.Docx.plain "Regards"] "Normal" None ]
    [].

Definition memo_disk : Fixtures.Docx.fs := [ ("memo.docx", Fixtures.Docx.Docx memo) ].

End Properties.

(* ================================================================== *)
(** * Part II: theorems *)
(* ================================================================== *)

(** ** Paragraph markup *)

Section ParagraphMarkup.
Import DocxToPdf Claims.

Lemma parse_run_markup (text_parts : list string) (run : Run) :
  parse_run text_parts run
  = (text_parts ++ (if has_text run then [markup_underline_outermost run] else []))%list.
Proof.
  unfold parse_run, has_text, markup_underline_outermost, wrap_if.
  destruct (String.eqb (text run) "").
  - now rewrite app_nil_r.
  - reflexivity.
Qed.

Lemma fold_parse_run (rs : list Run) (text_parts : list string) :
  fold_left parse_run rs text_parts
  = (text_parts ++ map markup_underline_outermost (filter has_text rs))%list.
Proof.
  revert text_parts.
  induction rs as [| run rs IH]; intro text_parts; simpl.
  - now rewrite app_nil_r.
  - rewrite IH, parse_run_markup.
    destruct (has_text run); simpl.
    + now rewrite <- app_assoc.
    + now rewrite app_nil_r.
Qed.

(** C2, as amended.  [parse_docx_paragraph] marks up every run with text
    on its own and concatenates the pieces in order, runs never merged;
    each of the three flags wraps independently of the others, and the
    nesting is underline outermost, then italic, bold innermost. *)
Theorem parse_docx_paragraph_nesting (para : DocxParagraph) :
  parse_docx_paragraph para = paragraph_markup markup_underline_outermost para.
Proof.
  unfold parse_docx_paragraph, paragraph_markup, Str.join.
  rewrite fold_parse_run.
  reflexivity.
Qed.

(** C2, as stated, fails on a bold italic run: the code puts the italic
    tags outside the bold ones. *)
Lemma bold_is_not_outermost :
  let para := mkPara [mkRun "x" (Some true) (Some true) UnderlineInherited] "Normal" None in
  parse_docx_paragraph para = "<i><b>x</b></i>"
  /\ paragraph_markup markup_bold_outermost para = "<b><i>x</i></b>"
  /\ parse_docx_paragraph para <> paragraph_markup markup_bold_outermost para.
Proof.
  repeat split; discriminate.
Qed.

End ParagraphMarkup.

(** ** Running a script *)

Ltac step_monad :=
  unfold Py.bind, Py.ret, Py.try_except, Py.ask, Py.look, Py.act, Py.lift, Py.raise,
    Py.print, Py.sys_exit in *; simpl in *.

(** ** The DOCX converter's command line *)

Section DocxMain.
Import Py DocxToPdf.
Context {E : DocxEnv}.

(** [docx_to_pdf] raises nothing and prints nothing: it answers with a
    report. *)
Lemma docx_to_pdf_returns (input_path output_path : string) (p : proc world) :
  exists report w',
    docx_to_pdf input_path output_path p = (inr report, mkProc w' (stdout p)).
Proof.
  unfold docx_to_pdf. step_monad. destruct p as [w out]; simpl.
  destruct (load_document input_path w) as [msg | doc]; simpl; [eauto |].
  destruct (convert_paragraphs (paragraphs doc) []) as [msg | story]; simpl; [eauto |].
  destruct (convert_tables (tables doc) story) as [msg | story']; simpl; [eauto |].
  destruct (build _ story' w) as [[msg | []] w1]; simpl; [eauto |].
  destruct (getsize output_path w1) as [msg | n]; simpl; eauto.
Qed.

(** C8.  When two arguments are given and the first names no existing
    file, [main] prints the one report
    [{success: false, error: "Input file not found: <path>"}] and exits
    with status 1; the document is never loaded and nothing is built: the
    world is left as it was found. *)
Theorem missing_input_reported (argv : list string) (w : world) :
  (3 <= List.length argv)%nat ->
  exists_ (argv_at argv 1) w = false ->
  run (main argv) w
  = mkOutcome
      [JDict [ ("success", JBool false);
               ("error", JStr ("Input file not found: " ++ argv_at argv 1)) ]]
      1 w.
Proof.
  intros Hlen Hmissing.
  unfold run, main.
  destruct (Nat.ltb_spec (List.length argv) 3) as [Hlt | _]; [lia |].
  step_monad. now rewrite Hmissing.
Qed.

(** X26.  The converter keeps the contract of the command line, the
    import guard included: one report on standard output, status 0
    exactly when the report says success. *)
Lemma docx_script_contract (argv : list string) (w : world) :
  exists report,
    printed (run (script argv) w) = [report]
    /\ (status (run (script argv) w) = 0%Z <-> success report = true).
Proof.
  unfold run, script.
  destruct import_error as [e |].
  { step_monad. eexists; split; [reflexivity |]. split; discriminate. }
  unfold main.
  destruct (List.length argv <? 3)%nat.
  { step_monad. eexists; split; [reflexivity |]. split; discriminate. }
  step_monad.
  destruct (exists_ (argv_at argv 1) w); simpl.
  - destruct (docx_to_pdf_returns (argv_at argv 1) (argv_at argv 2) (mkProc w []))
      as (report & w' & Hrun).
    rewrite Hrun; simpl.
    exists report; split; [reflexivity |].
    destruct (success report); split; congruence.
  - eexists; split; [reflexivity |]. split; discriminate.
Qed.

End DocxMain.

(** The instance of C8 on the example disk: [nope.docx] is not there. *)
Lemma missing_input_reported_witness :
  let argv := ["docx_to_pdf.py"; "nope.docx"; "out.pdf"] in
  ((3 <= List.length argv)%nat
   /\ DocxToPdf.exists_ (DocxEnv := Fixtures.Docx.env)
        (DocxToPdf.argv_at argv 1) Fixtures.Docx.disk = false)
  /\ Py.run (DocxToPdf.main (E := Fixtures.Docx.env) argv) Fixtures.Docx.disk
     = Py.mkOutcome
         [Py.JDict [ ("success", Py.JBool false);
                     ("error", Py.JStr "Input file not found: nope.docx") ]]
         1 Fixtures.Docx.disk.
Proof.
  split.
  - split; [simpl; lia | reflexivity].
  - apply (missing_input_reported (E := Fixtures.Docx.env)
             ["docx_to_pdf.py"; "nope.docx"; "out.pdf"] Fixtures.Docx.disk);
      [simpl; lia | reflexivity].
Defined.

(** ** The PDF helper's command line *)

Section PdfMain.
Import Py PdfHelper Claims.
Context {E : PdfEnv}.

(** [compress_pdf] raises nothing and prints nothing. *)
Lemma compress_pdf_returns (input_path output_path level : string) (p : proc world) :
  exists report w',
    compress_pdf input_path output_path level p = (inr report, mkProc w' (stdout p)).
Proof.
  unfold compress_pdf. step_monad. destruct p as [w out]; simpl.
  destruct (Pdf_open input_path w) as [msg | pdf]; simpl; [eauto |].
  destruct (Pdf_save pdf output_path _ w) as [[msg | []] w1]; simpl; [eauto |].
  destruct (getsize input_path w1) as [msg | isz]; simpl; [eauto |].
  destruct (getsize output_path w1) as [msg | osz]; simpl; [eauto |].
  destruct (isz >? 0)%Z; simpl; [| eauto].
  destruct (int_truediv (isz - osz) isz) as [msg | q]; simpl; eauto.
Qed.

(** So does [add_watermark]. *)
Lemma add_watermark_returns (input_path output_path text : string) (options : json)
      (p : proc world) :
  exists report w',
    add_watermark input_path output_path text options p
    = (inr report, mkProc w' (stdout p)).
Proof.
  unfold add_watermark. step_monad. destruct p as [w out]; simpl.
  set (opts := match options with JNull => JDict [] | _ => options end).
  destruct (json_get opts "opacity" _) as [msg | opacity]; simpl; [eauto |].
  destruct (json_get opts "fontSize" _) as [msg | font_size]; simpl; [eauto |].
  destruct (json_get opts "rotation" _) as [msg | rotation]; simpl; [eauto |].
  destruct (json_get opts "position" _) as [msg | position]; simpl; [eauto |].
  destruct (json_get opts "color" _) as [msg | color]; simpl; [eauto |].
  destruct (PdfReader input_path w) as [msg | ps]; simpl; [eauto |].
  destruct (watermark_pages _ _ _ _ _ text ps []) as [msg | writer]; simpl; [eauto |].
  destruct (write_pages output_path writer w) as [[msg | []] w1]; simpl; eauto.
Qed.

(** Whatever [compress_pdf] reports, [main] prints it and runs off its
    end: the status is 0 for a failed compression too. *)
Lemma compress_status_ignores_report (argv : list string) (w : world) :
  (5 <= List.length argv)%nat ->
  argv_at argv 1 = "compress" ->
  exists report,
    printed (run (main argv) w) = [report]
    /\ status (run (main argv) w) = 0%Z.
Proof.
  intros Hlen Hop. unfold run, main.
  destruct (Nat.ltb_spec (List.length argv) 2) as [Hlt | _]; [lia |].
  rewrite Hop; simpl.
  destruct (Nat.ltb_spec (List.length argv) 5) as [Hlt | _]; [lia |].
  destruct (compress_pdf_returns (argv_at argv 2) (argv_at argv 3) (argv_at argv 4)
              (mkProc w [])) as (report & w' & Hrun).
  step_monad. rewrite Hrun; simpl. eauto.
Qed.

(** Every run of the PDF helper prints one report and ends with status 0
    or 1; a report of success always comes with status 0.  The converse
    is what fails. *)
Lemma pdf_script_one_report (argv : list string) (w : world) :
  exists report,
    printed (run (script argv) w) = [report]
    /\ (success report = true -> status (run (script argv) w) = 0%Z)
    /\ (status (run (script argv) w) = 0%Z \/ status (run (script argv) w) = 1%Z).
Proof.
  assert (Hrefused : forall (kv : list (string * json)) (w1 : world),
             let o := mkOutcome [JDict (("success", JBool false) :: kv)] 1 w1 in
             exists report,
               printed o = [report]
               /\ (success report = true -> status o = 0%Z)
               /\ (status o = 0%Z \/ status o = 1%Z)).
  { intros kv w1 o. eexists. split; [reflexivity |].
    split; [intro H; discriminate H | now right]. }
  assert (Hdone : forall (report : json) (w1 : world),
             let o := mkOutcome [report] 0 w1 in
             exists report',
               printed o = [report']
               /\ (success report' = true -> status o = 0%Z)
               /\ (status o = 0%Z \/ status o = 1%Z)).
  { intros report w1 o. exists report. split; [reflexivity |]. split; [reflexivity | now left]. }
  unfold run, script.
  destruct import_error as [e |]; [apply Hrefused |].
  unfold main.
  destruct (List.length argv <? 2)%nat; [apply Hrefused |].
  destruct (String.eqb (argv_at argv 1) "compress").
  { destruct (List.length argv <? 5)%nat; [apply Hrefused |].
    destruct (compress_pdf_returns (argv_at argv 2) (argv_at argv 3) (argv_at argv 4)
                (mkProc w [])) as (report & w' & Hrun).
    unfold bind, try_except, print; cbv beta. rewrite Hrun. apply Hdone. }
  destruct (String.eqb (argv_at argv 1) "watermark"); [| apply Hrefused].
  destruct (List.length argv <? 5)%nat; [apply Hrefused |].
  destruct (5 <? List.length argv)%nat.
  - unfold bind at 1, try_except.
    destruct (json_loads (argv_at argv 5)) as [msg | options]; [apply Hrefused |].
    destruct (add_watermark_returns (argv_at argv 2) (argv_at argv 3) (argv_at argv 4)
                options (mkProc w [])) as (report & w' & Hrun).
    unfold lift, bind, ret, print; cbv beta. rewrite Hrun. apply Hdone.
  - destruct (add_watermark_returns (argv_at argv 2) (argv_at argv 3) (argv_at argv 4)
                (JDict []) (mkProc w [])) as (report & w' & Hrun).
    unfold bind, try_except, ret, print; cbv beta. rewrite Hrun. apply Hdone.
Qed.

End PdfMain.

(** C1, on the PDF helper.  Compressing a file that is not there prints a
    report whose [success] is false, and the process still ends with
    status 0: [main] prints the result of the operation and returns,
    where the converter's [main] ends in
    [sys.exit(0 if result['success'] else 1)]. *)
Theorem pdf_helper_failure_exits_zero :
  let argv := ["pdf_helper.py"; "compress"; "missing.pdf"; "out.pdf"; "medium"] in
  let o := Py.run (PdfHelper.script (E := Fixtures.Pdf.env) argv) Fixtures.Pdf.disk in
  Py.printed o
  = [Py.JDict [ ("success", Py.JBool false);
                ("error", Py.JStr "No such file or directory: missing.pdf") ]]
  /\ Py.status o = 0%Z.
Proof.
  split; reflexivity.
Qed.

(** ** Compression levels *)

Section Levels.
Import Py PdfHelper Claims.
Context {E : PdfEnv}.

Lemma unknown_level_options (level : string) :
  ~ In level known_levels ->
  dict_get save_options level save_options_medium = save_options_medium.
Proof.
  intro Hunknown. unfold dict_get, save_options; simpl.
  repeat match goal with
         | |- context [String.eqb level ?s] =>
             destruct (String.eqb_spec level s) as [-> | _];
             [exfalso; apply Hunknown; simpl; tauto |]
         end.
  reflexivity.
Qed.

(** C3, as amended.  A level outside the four names selects the settings
    of [medium], writes what [medium] writes and reports what [medium]
    reports, up to the [level] entry of the report, which repeats the
    string that was passed. *)
Theorem unknown_level_is_medium (input_path output_path level : string) (p : proc world) :
  ~ In level known_levels ->
  dict_get save_options level save_options_medium
  = dict_get save_options "medium" save_options_medium
  /\ compress_pdf input_path output_path level p
     = relabel level (compress_pdf input_path output_path "medium" p).
Proof.
  intro Hunknown. split.
  - now rewrite unknown_level_options.
  - unfold compress_pdf. rewrite (unknown_level_options level Hunknown).
    change (dict_get save_options "medium" save_options_medium) with save_options_medium.
    step_monad. destruct p as [w out]; simpl.
    destruct (Pdf_open input_path w) as [msg | pdf]; simpl; [reflexivity |].
    destruct (Pdf_save pdf output_path _ w) as [[msg | []] w1]; simpl; [reflexivity |].
    destruct (getsize input_path w1) as [msg | isz]; simpl; [reflexivity |].
    destruct (getsize output_path w1) as [msg | osz]; simpl; [reflexivity |].
    destruct (isz >? 0)%Z; simpl; [| reflexivity].
    destruct (int_truediv (isz - osz) isz) as [msg | q]; simpl; reflexivity.
Qed.

End Levels.

(** C3, as stated, fails on the level [turbo]: the settings are those of
    [medium], but the report says [turbo] where the report for [medium]
    says [medium]. *)
Lemma unknown_level_is_echoed :
  ~ In "turbo" Claims.known_levels
  /\ ~ Claims.behaves_as_medium (E := Fixtures.Pdf.env) "in.pdf" "out.pdf" "turbo"
         (Py.mkProc Fixtures.Pdf.disk []).
Proof.
  split.
  - simpl. intros [H | [H | [H | [H | []]]]]; discriminate H.
  - intros [_ H]. vm_compute in H. discriminate H.
Qed.

(** The instance of C3 for [turbo] on the example disk. *)
Lemma unknown_level_is_medium_witness :
  ~ In "turbo" Claims.known_levels
  /\ (Py.dict_get PdfHelper.save_options "turbo" PdfHelper.save_options_medium
      = Py.dict_get PdfHelper.save_options "medium" PdfHelper.save_options_medium
      /\ PdfHelper.compress_pdf (E := Fixtures.Pdf.env) "in.pdf" "out.pdf" "turbo"
           (Py.mkProc Fixtures.Pdf.disk [])
         = Claims.relabel "turbo"
             (PdfHelper.compress_pdf (E := Fixtures.Pdf.env) "in.pdf" "out.pdf" "medium"
                (Py.mkProc Fixtures.Pdf.disk []))).
Proof.
  assert (Hunknown : ~ In "turbo" Claims.known_levels).
  { simpl. intros [H | [H | [H | [H | []]]]]; discriminate H. }
  split; [exact Hunknown |].
  exact (unknown_level_is_medium (E := Fixtures.Pdf.env) "in.pdf" "out.pdf" "turbo"
           (Py.mkProc Fixtures.Pdf.disk []) Hunknown).
Defined.

(** ** Binary64 arithmetic on file sizes *)

Section FloatBounds.
Import Py Claims.
Local Open Scope Z_scope.

Local Abbreviation fexp := (SpecFloat.fexp prec emax).
Local Abbreviation emin := (SpecFloat.emin prec emax).

Lemma digits2_pos_size (p : positive) : digits2_pos p = Pos.size p.
Proof. induction p; simpl; congruence. Qed.

Lemma Zdigits2_nonneg (m : Z) : 0 <= Zdigits2 m.
Proof. destruct m; simpl; lia. Qed.

Lemma Zdigits2_gt (m : Z) : 0 <= m -> m < 2 ^ Zdigits2 m.
Proof.
  destruct m as [| p | p]; simpl Zdigits2; intros Hm; [reflexivity | | lia].
  rewrite digits2_pos_size.
  pose proof (Pos.size_gt p) as H.
  apply Pos2Z.pos_lt_pos in H. now rewrite Pos2Z.inj_pow in H.
Qed.

Lemma Zdigits2_le (m k : Z) : 0 <= m -> 0 <= k -> m < 2 ^ k -> Zdigits2 m <= k.
Proof.
  destruct m as [| p | p]; cbn [Zdigits2]; intros Hm Hk Hlt; [lia | | lia].
  rewrite digits2_pos_size.
  pose proof (Pos.size_le p) as H.
  apply Pos2Z.pos_le_pos in H. rewrite Pos2Z.inj_pow in H.
  change (Z.pos p~0) with (2 * Z.pos p) in H.
  assert (Hpow : 2 ^ Z.pos (Pos.size p) < 2 ^ (k + 1)).
  { rewrite Z.pow_add_r by lia. change (2 ^ 1) with 2. lia. }
  apply Z.pow_lt_mono_r_iff in Hpow; lia.
Qed.


Lemma shr_1_m (mrs : shr_record) :
  0 <= shr_m mrs -> shr_m (shr_1 mrs) = shr_m mrs / 2.
Proof.
  destruct mrs as [m r s]; simpl. intro Hm.
  destruct m as [| [p | p |] | p]; simpl; try reflexivity; try lia.
  - apply Z.div_unique with (r := 1); lia.
  - apply Z.div_unique with (r := 0); lia.
Qed.

Lemma iter_shr_1_m (n : positive) (mrs : shr_record) :
  0 <= shr_m mrs -> shr_m (SpecFloat.iter_pos shr_1 n mrs) = shr_m mrs / 2 ^ Z.pos n.
Proof.
  revert mrs.
  induction n as [n IH | n IH |]; intros mrs Hm; simpl SpecFloat.iter_pos.
  - assert (H1 : 0 <= shr_m (shr_1 mrs)).
    { rewrite shr_1_m by assumption. apply Z.div_pos; lia. }
    assert (H2 : 0 <= shr_m (SpecFloat.iter_pos shr_1 n (shr_1 mrs))).
    { rewrite IH by assumption. apply Z.div_pos; [lia | apply Z.pow_pos_nonneg; lia]. }
    rewrite IH, IH, shr_1_m by assumption.
    assert (Hpow : 0 < 2 ^ Z.pos n) by (apply Z.pow_pos_nonneg; lia).
    rewrite !Z.div_div by lia.
    f_equal. change (Z.pos n~1) with (2 * Z.pos n + 1).
    replace (2 * Z.pos n + 1) with (1 + Z.pos n + Z.pos n) by lia.
    rewrite !Z.pow_add_r by lia. change (2 ^ 1) with 2. lia.
  - assert (H2 : 0 <= shr_m (SpecFloat.iter_pos shr_1 n mrs)).
    { rewrite IH by assumption. apply Z.div_pos; [lia | apply Z.pow_pos_nonneg; lia]. }
    rewrite IH, IH by assumption.
    assert (Hpow : 0 < 2 ^ Z.pos n) by (apply Z.pow_pos_nonneg; lia).
    rewrite !Z.div_div by lia.
    f_equal. change (Z.pos n~0) with (2 * Z.pos n).
    replace (2 * Z.pos n) with (Z.pos n + Z.pos n) by lia.
    now rewrite Z.pow_add_r by lia.
  - now rewrite shr_1_m.
Qed.

Lemma shr_record_of_loc_m (m : Z) (l : location) : shr_m (shr_record_of_loc m l) = m.
Proof. destruct l as [| []]; reflexivity. Qed.

(** A right shift to the canonical exponent: the mantissa fits the
    precision, the exponent is the larger of the old one and the canonical
    one, the magnitude does not grow. *)
Lemma shr_fexp_bounds (m e : Z) (l : location) (mrs' : shr_record) (e' : Z) :
  0 <= m ->
  shr_fexp prec emax m e l = (mrs', e') ->
  0 <= shr_m mrs' < 2 ^ prec
  /\ e' = Z.max e (fexp (Zdigits2 m + e))
  /\ Zdigits2 (shr_m mrs') + e' <= Z.max (Zdigits2 m + e) emin.
Proof.
  intros Hm Hshr. unfold shr_fexp, shr in Hshr.
  pose proof (Zdigits2_gt m Hm) as Hlt.
  pose proof (Zdigits2_nonneg m) as Hd.
  set (d := Zdigits2 m) in *.
  set (fe := fexp (d + e)) in *.
  assert (Hfexp : fe = Z.max (d + e - 53) (-1074)) by reflexivity.
  clearbody fe.
  change (SpecFloat.emin prec emax) with (-1074). change prec with 53.
  destruct (fe - e) as [| n | n] eqn:Hn.
  - injection Hshr as <- <-. rewrite shr_record_of_loc_m.
    assert (Hd53 : d <= 53) by lia.
    repeat split; try lia.
    apply Z.lt_le_trans with (1 := Hlt). apply Z.pow_le_mono_r; lia.
  - injection Hshr as <- <-.
    rewrite iter_shr_1_m by (rewrite shr_record_of_loc_m; lia).
    rewrite shr_record_of_loc_m.
    assert (Hpow : 0 < 2 ^ Z.pos n) by (apply Z.pow_pos_nonneg; lia).
    assert (Hq : 0 <= m / 2 ^ Z.pos n) by (apply Z.div_pos; lia).
    assert (Hk : forall k, 0 <= k -> d <= Z.pos n + k -> m / 2 ^ Z.pos n < 2 ^ k).
    { intros k Hk Hdk. apply Z.div_lt_upper_bound; [lia |].
      rewrite <- Z.pow_add_r by lia.
      apply Z.lt_le_trans with (1 := Hlt). apply Z.pow_le_mono_r; lia. }
    repeat split; try lia.
    + apply Hk; lia.
    + assert (Hk0 : 0 <= Z.max (d - Z.pos n) 0) by lia.
      pose proof (Zdigits2_le _ _ Hq Hk0 (Hk _ Hk0 ltac:(lia))).
      lia.
  - injection Hshr as <- <-. rewrite shr_record_of_loc_m.
    assert (Hd53 : d <= 53) by lia.
    repeat split; try lia.
    apply Z.lt_le_trans with (1 := Hlt). apply Z.pow_le_mono_r; lia.
Qed.

Lemma round_nearest_even_bounds (m : Z) (l : location) :
  m <= round_nearest_even m l <= m + 1.
Proof.
  unfold round_nearest_even. destruct l as [| []]; try destruct (Z.even m); lia.
Qed.


(** Rounding does not overflow far below the largest exponent, and keeps
    the sign. *)
Lemma binary_round_aux_within (s : bool) (m e : Z) (l : location) (B : Z) :
  0 <= m -> Zdigits2 m + e <= B -> e <= B -> -1074 <= B -> B <= 970 ->
  within s (B + 1) (binary_round_aux prec emax s m e l).
Proof.
  intros Hm Hmag He Hlo Hhi. unfold binary_round_aux.
  destruct (shr_fexp prec emax m e l) as [mrs1 e1] eqn:H1.
  apply shr_fexp_bounds in H1; [| assumption].
  destruct H1 as ((Hm1 & Hm1') & He1 & Hmag1).
  set (m2 := round_nearest_even (shr_m mrs1) (loc_of_shr_record mrs1)).
  pose proof (round_nearest_even_bounds (shr_m mrs1) (loc_of_shr_record mrs1)) as Hm2.
  fold m2 in Hm2.
  destruct (shr_fexp prec emax m2 e1 loc_Exact) as [mrs3 e3] eqn:H3.
  apply shr_fexp_bounds in H3; [| lia].
  destruct H3 as ((Hm3 & _) & He3 & Hmag3).
  assert (Hd2 : Zdigits2 m2 <= Zdigits2 (shr_m mrs1) + 1).
  { pose proof (Zdigits2_nonneg (shr_m mrs1)).
    pose proof (Zdigits2_gt (shr_m mrs1) Hm1).
    apply Zdigits2_le; [lia | lia |].
    rewrite Z.pow_add_r by lia. change (2 ^ 1) with 2. lia. }
  assert (Hd1 : Zdigits2 (shr_m mrs1) <= 53).
  { apply Zdigits2_le; [lia | lia | exact Hm1']. }
  assert (Hf1 : fexp (Zdigits2 m + e) = Z.max (Zdigits2 m + e - 53) (-1074)) by reflexivity.
  assert (Hf2 : fexp (Zdigits2 m2 + e1) = Z.max (Zdigits2 m2 + e1 - 53) (-1074)) by reflexivity.
  change (SpecFloat.emin prec emax) with (-1074) in *.
  destruct (shr_m mrs3) as [| m3 | m3] eqn:Hm3eq.
  - now left.
  - cbn [Zdigits2] in Hmag3.
    assert (He3' : e3 <= B + 1) by lia.
    change (emax - prec) with 971.
    destruct (Z.leb_spec e3 971) as [_ | Hbad]; [| lia].
    right. exists m3, e3. repeat split; [| assumption].
    cbn [Zdigits2]. lia.
  - lia.
Qed.

Lemma div_eucl_div (a b q r : Z) : Z.div_eucl a b = (q, r) -> q = a / b.
Proof. intro H. unfold Z.div. now rewrite H. Qed.

(** The core of the division of two positive sizes: a non-negative
    mantissa at a non-positive exponent, below [2 ^ 63] in all. *)
Lemma SFdiv_core_binary_sizes (pa pb : positive) (mz ez : Z) (lz : location) :
  Z.pos pa < 2 ^ 63 -> Z.pos pb < 2 ^ 63 ->
  SFdiv_core_binary prec emax (Z.pos pa) 0 (Z.pos pb) 0 = (mz, ez, lz) ->
  0 <= mz /\ Zdigits2 mz + ez <= 63 /\ ez <= 63.
Proof.
  intros Ha Hb Hcore. unfold SFdiv_core_binary in Hcore.
  pose proof (Zdigits2_gt (Z.pos pa) ltac:(lia)) as Hlt.
  set (d1 := Zdigits2 (Z.pos pa)) in *. set (d2 := Zdigits2 (Z.pos pb)) in *.
  assert (Hd1 : 0 <= d1 <= 63)
    by (split; [apply Zdigits2_nonneg | apply Zdigits2_le; lia]).
  assert (Hd2 : 0 <= d2 <= 63)
    by (split; [apply Zdigits2_nonneg | apply Zdigits2_le; lia]).
  assert (Hf : fexp (d1 + 0 - (d2 + 0)) = Z.max (d1 + 0 - (d2 + 0) - 53) (-1074))
    by reflexivity.
  set (fe := fexp (d1 + 0 - (d2 + 0))) in *. clearbody fe.
  set (e' := Z.min fe (0 - 0)) in *.
  assert (He' : -1074 <= e' <= 0) by lia.
  set (m' := match 0 - 0 - e' with
             | Z.pos _ => Z.shiftl (Z.pos pa) (0 - 0 - e')
             | 0 => Z.pos pa
             | Z.neg _ => 0
             end) in *.
  assert (Hm' : m' = Z.pos pa * 2 ^ (- e')).
  { subst m'. destruct (0 - 0 - e') as [| s | s] eqn:Hs.
    - replace (- e') with 0 by lia. simpl. lia.
    - rewrite Z.shiftl_mul_pow2 by lia. f_equal. f_equal. lia.
    - lia. }
  destruct (Z.div_eucl m' (Z.pos pb)) as [q r] eqn:Hdiv.
  injection Hcore as <- <- <-.
  apply div_eucl_div in Hdiv.
  assert (Hpow : 0 < 2 ^ (- e')) by (apply Z.pow_pos_nonneg; lia).
  assert (Hq : 0 <= q <= m').
  { subst q. split; [apply Z.div_pos; lia | apply Z.div_le_upper_bound; nia]. }
  assert (Hbound : m' < 2 ^ (d1 - e')).
  { rewrite Hm'. replace (d1 - e') with (d1 + - e') by lia.
    rewrite Z.pow_add_r by lia. nia. }
  assert (Hdq : Zdigits2 q <= d1 - e') by (apply Zdigits2_le; lia).
  lia.
Qed.

(** The quotient of two file sizes is a float of the dividend's sign, far
    from overflow. *)
Lemma SFdiv_exact_int_within (a b : Z) :
  Z.abs a < 2 ^ 63 -> 0 < b < 2 ^ 63 ->
  within (a <? 0) 64 (SFdiv prec emax (exact_int a) (exact_int b)).
Proof.
  intros Ha Hb.
  destruct b as [| pb | pb]; [lia | | lia].
  destruct a as [| pa | pa]; [now left | |];
    cbn [exact_int SFdiv Z.ltb Z.compare xorb];
    destruct (SFdiv_core_binary prec emax (Z.pos pa) 0 (Z.pos pb) 0)
      as [[mz ez] lz] eqn:Hcore;
    apply SFdiv_core_binary_sizes in Hcore as (Hmz & Hmag & Hez); try lia;
    change 64 with (63 + 1);
    apply binary_round_aux_within; lia.
Qed.

Lemma float_of_int_100 : float_of_int 100 = S754_finite false 7036874417766400 (-46).
Proof. vm_compute. reflexivity. Qed.

(** Multiplying by 100 keeps a bounded float bounded, and its sign. *)
Lemma float_mul_int_100_within (s : bool) (x : float) :
  within s 64 x -> within s 72 (float_mul_int x 100).
Proof.
  unfold float_mul_int. rewrite float_of_int_100.
  intros [-> | (m & e & -> & Hmag & He)]; [now left; destruct s |].
  cbn [SFmul]. rewrite xorb_false_r.
  change 72 with (71 + 1).
  cbn [Zdigits2] in Hmag.
  apply binary_round_aux_within; try lia.
  assert (Hd : Zdigits2 (Z.pos (m * 7036874417766400)) <= Z.pos (digits2_pos m) + 53).
  { apply Zdigits2_le; [lia | lia |].
    rewrite Pos2Z.inj_mul, Z.pow_add_r by lia.
    pose proof (Zdigits2_gt (Z.pos m) ltac:(lia)) as Hm. cbn [Zdigits2] in Hm.
    assert (7036874417766400 < 2 ^ 53) by reflexivity.
    nia. }
  lia.
Qed.

(** The ratio computed from two file sizes: the division does not raise,
    and the product is zero or finite, negative exactly when the output
    is the larger file. *)
Lemma ratio_within (input_size output_size : Z) :
  0 < input_size < 2 ^ 63 -> 0 <= output_size < 2 ^ 63 ->
  exists q,
    int_truediv (input_size - output_size) input_size = inr q
    /\ within (input_size <? output_size) 72 (float_mul_int q 100).
Proof.
  intros Hin Hout.
  pose proof (SFdiv_exact_int_within (input_size - output_size) input_size
                ltac:(lia) Hin) as Hq.
  replace (input_size - output_size <? 0) with (input_size <? output_size) in Hq
    by (destruct (Z.ltb_spec input_size output_size),
                 (Z.ltb_spec (input_size - output_size) 0); lia).
  unfold int_truediv.
  destruct (Z.eqb_spec input_size 0) as [-> | _]; [lia |].
  exists (SFdiv prec emax (exact_int (input_size - output_size)) (exact_int input_size)).
  split; [| now apply float_mul_int_100_within].
  destruct Hq as [-> | (m & e & -> & _)]; reflexivity.
Qed.

End FloatBounds.

Section Formatting.
Import Py Claims.
Local Open Scope Z_scope.

Lemma is_digit_digit (d : Z) : 0 <= d <= 9 -> is_digit (digit d) = true.
Proof.
  intro Hd. unfold is_digit, digit.
  rewrite nat_ascii_embedding by lia.
  apply andb_true_intro; split; apply Nat.leb_le; lia.
Qed.

Lemma string_of_uint_digits (u : Decimal.uint) :
  all_digits (NilEmpty.string_of_uint u) = true.
Proof. induction u; simpl; auto. Qed.

Lemma decimal_digits (z : Z) :
  all_digits (decimal z) = true /\ decimal z <> EmptyString.
Proof.
  unfold decimal, NilZero.string_of_uint.
  pose proof (string_of_uint_digits (N.to_uint (Z.to_N z))) as H.
  destruct (N.to_uint (Z.to_N z)); simpl in *; split; try assumption; discriminate.
Qed.

Lemma digits_point_app (ds rest : string) (seen : bool) :
  all_digits ds = true -> (ds <> EmptyString \/ seen = true) ->
  digits_point seen (ds ++ String "." rest) = two_digits_percent rest.
Proof.
  revert seen. induction ds as [| c ds IH]; intros seen Hds Hne.
  - destruct Hne as [Hne | ->]; [congruence |]. reflexivity.
  - simpl in *. apply andb_prop in Hds as [Hc Hds].
    rewrite Hc. apply IH; auto.
Qed.

Lemma string_app_assoc (a b c : string) : ((a ++ b) ++ c = a ++ (b ++ c))%string.
Proof. induction a as [| x a IH]; simpl; [reflexivity | now rewrite IH]. Qed.

Lemma fixed2_shape (s : bool) (h : Z) :
  0 <= h ->
  two_decimal_percentage (fixed2 s h ++ "%") = true
  /\ negative (fixed2 s h ++ "%") = s.
Proof.
  intro Hh. unfold fixed2.
  destruct (decimal_digits (h / 100)) as [Hds Hne].
  assert (Hd1 : is_digit (digit (h / 10 mod 10)) = true).
  { apply is_digit_digit. pose proof (Z.mod_pos_bound (h / 10) 10 ltac:(lia)). lia. }
  assert (Hd2 : is_digit (digit (h mod 10)) = true).
  { apply is_digit_digit. pose proof (Z.mod_pos_bound h 10 ltac:(lia)). lia. }
  set (d1 := digit (h / 10 mod 10)) in *. set (d2 := digit (h mod 10)) in *.
  set (ds := decimal (h / 100)) in *. clearbody d1 d2 ds.
  rewrite !string_app_assoc.
  change (("." ++ String d1 (String d2 "")) ++ "%")%string
    with (String "." (String d1 (String d2 "%"))).
  assert (Hpoint : digits_point false (ds ++ String "." (String d1 (String d2 "%"))) = true).
  { rewrite digits_point_app by auto. simpl. now rewrite Hd1, Hd2. }
  destruct s; cbn [append two_decimal_percentage negative].
  - split; [exact Hpoint | reflexivity].
  - destruct ds as [| c ds]; [congruence |].
    simpl in Hds. apply andb_prop in Hds as [Hc _].
    assert (Hminus : Ascii.eqb c "-" = false).
    { destruct (Ascii.eqb_spec c "-") as [-> |]; [discriminate Hc | reflexivity]. }
    cbn [append two_decimal_percentage negative]. rewrite Hminus.
    split; [exact Hpoint | reflexivity].
Qed.

Lemma round_half_even_nonneg (num den : Z) :
  0 <= num -> 0 < den -> 0 <= round_half_even num den.
Proof.
  intros Hn Hd. unfold round_half_even.
  assert (0 <= num / den) by (apply Z.div_pos; lia).
  destruct (2 * (num mod den) ?= den); try destruct (Z.even (num / den)); lia.
Qed.

Lemma hundredths_nonneg (m : positive) (e : Z) : 0 <= hundredths m e.
Proof.
  unfold hundredths. destruct e as [| p | p].
  - simpl. lia.
  - assert (0 < 2 ^ Z.pos p) by (apply Z.pow_pos_nonneg; lia). nia.
  - apply round_half_even_nonneg; [lia | apply Z.pow_pos_nonneg; lia].
Qed.

(** A zero or finite float prints as a percentage with two decimals,
    with a minus sign exactly when its sign bit is set. *)
Lemma format_2f_float_shape (s : bool) (B : Z) (x : float) :
  within s B x ->
  two_decimal_percentage (format_2f_float x ++ "%") = true
  /\ negative (format_2f_float x ++ "%") = s.
Proof.
  intros [-> | (m & e & -> & _)]; simpl.
  - now apply fixed2_shape.
  - apply fixed2_shape, hundredths_nonneg.
Qed.

End Formatting.

(** ** The compression report *)

Section CompressionReport.
Import Py PdfHelper Claims.
Context {E : PdfEnv}.
Local Open Scope Z_scope.

(** The report of a compression whose library calls all succeed, on files
    of sizes the operating system can report. *)
Lemma compress_pdf_report (input_path output_path level : string) (p : proc world)
      (pdf : pikepdf_Pdf) (w' : world) (input_size output_size : Z) :
  Pdf_open input_path (env p) = inr pdf ->
  Pdf_save pdf output_path (dict_get save_options level save_options_medium) (env p)
  = (inr tt, w') ->
  getsize input_path w' = inr input_size ->
  getsize output_path w' = inr output_size ->
  0 <= input_size < 2 ^ 63 ->
  0 <= output_size < 2 ^ 63 ->
  compress_pdf input_path output_path level p
  = (inr (JDict [ ("success", JBool true);
                  ("original_size", JInt input_size);
                  ("compressed_size", JInt output_size);
                  ("saved_bytes", JInt (input_size - output_size));
                  ("compression_ratio", JStr (ratio_text input_size output_size));
                  ("level", JStr level) ]),
     mkProc w' (stdout p)).
Proof.
  intros Hopen Hsave Hin Hout Hisz Hosz.
  unfold compress_pdf. step_monad.
  rewrite Hopen; simpl. rewrite Hsave; simpl. rewrite Hin; simpl. rewrite Hout; simpl.
  unfold ratio_text.
  destruct (Z.eqb_spec input_size 0) as [-> | Hpos].
  - reflexivity.
  - destruct (Z.gtb_spec input_size 0) as [_ | Hle]; [| lia].
    destruct (ratio_within input_size output_size ltac:(lia) Hosz) as (q & Hq & _).
    simpl. rewrite Hq; simpl.
    unfold int_truediv in Hq.
    destruct (Z.eqb_spec input_size 0) as [| _]; [lia |].
    unfold percentage_saved, float_mul_int.
    destruct (SFdiv prec emax (exact_int (input_size - output_size)) (exact_int input_size));
      try discriminate Hq; injection Hq as <-; reflexivity.
Qed.

Lemma ratio_text_shape (input_size output_size : Z) :
  0 < input_size < 2 ^ 63 ->
  0 <= output_size < 2 ^ 63 ->
  two_decimal_percentage (ratio_text input_size output_size) = true
  /\ negative (ratio_text input_size output_size) = (input_size <? output_size).
Proof.
  intros Hisz Hosz. unfold ratio_text.
  destruct (Z.eqb_spec input_size 0) as [| _]; [lia |].
  destruct (ratio_within input_size output_size Hisz Hosz) as (q & Hq & Hwithin).
  unfold int_truediv in Hq.
  destruct (Z.eqb_spec input_size 0) as [| _]; [lia |].
  unfold percentage_saved. unfold float_mul_int in Hwithin.
  destruct (SFdiv prec emax (exact_int (input_size - output_size)) (exact_int input_size));
    try discriminate Hq; injection Hq as <-;
    exact (format_2f_float_shape _ _ _ Hwithin).
Qed.

(** C4.  When the library calls of [compress_pdf] succeed, the report
    says success and its [compression_ratio] is
    [(original_size - compressed_size) / original_size * 100], computed in
    binary64 and printed with exactly two decimal digits and a percent
    sign; for an input of size 0 the guard answers [0.00%] and no division
    is attempted. *)
Theorem compress_reports_ratio (input_path output_path level : string) (p : proc world)
        (pdf : pikepdf_Pdf) (w' : world) (input_size output_size : Z) :
  Pdf_open input_path (env p) = inr pdf ->
  Pdf_save pdf output_path (dict_get save_options level save_options_medium) (env p)
  = (inr tt, w') ->
  getsize input_path w' = inr input_size ->
  getsize output_path w' = inr output_size ->
  0 <= input_size < 2 ^ 63 ->
  0 <= output_size < 2 ^ 63 ->
  exists report,
    compress_pdf input_path output_path level p = (inr report, mkProc w' (stdout p))
    /\ success report = true
    /\ field report "compression_ratio" = Some (JStr (ratio_text input_size output_size))
    /\ two_decimal_percentage (ratio_text input_size output_size) = true
    /\ (input_size = 0 -> ratio_text input_size output_size = "0.00%").
Proof.
  intros Hopen Hsave Hin Hout Hisz Hosz.
  eexists. split; [eapply compress_pdf_report; eassumption |].
  repeat split.
  - destruct (Z.eq_dec input_size 0) as [-> | Hpos]; [reflexivity |].
    apply ratio_text_shape; lia.
  - intros ->. reflexivity.
Qed.

(** C5, as amended.  At every level, when the library calls succeed on a
    non-empty input, the report says success, [compressed_size] is the
    size of the output and not negative, and [compression_ratio] is a
    percentage with exactly two decimal digits; it carries a minus sign
    exactly when the output is larger than the input. *)
Theorem compress_ratio_sign (input_path output_path level : string) (p : proc world)
        (pdf : pikepdf_Pdf) (w' : world) (input_size output_size : Z) :
  Pdf_open input_path (env p) = inr pdf ->
  Pdf_save pdf output_path (dict_get save_options level save_options_medium) (env p)
  = (inr tt, w') ->
  getsize input_path w' = inr input_size ->
  getsize output_path w' = inr output_size ->
  0 < input_size < 2 ^ 63 ->
  0 <= output_size < 2 ^ 63 ->
  exists report ratio,
    compress_pdf input_path output_path level p = (inr report, mkProc w' (stdout p))
    /\ success report = true
    /\ field report "compressed_size" = Some (JInt output_size)
    /\ 0 <= output_size
    /\ field report "compression_ratio" = Some (JStr ratio)
    /\ two_decimal_percentage ratio = true
    /\ negative ratio = (input_size <? output_size).
Proof.
  intros Hopen Hsave Hin Hout Hisz Hosz.
  destruct (ratio_text_shape input_size output_size Hisz Hosz) as [Hshape Hsign].
  eexists. exists (ratio_text input_size output_size).
  split; [eapply compress_pdf_report; try eassumption; lia |].
  repeat split; auto; lia.
Qed.

End CompressionReport.

(** The instance of C4 on the example disk: 100 bytes in, 75 out at
    [medium]. *)
Lemma compress_reports_ratio_witness :
  exists report,
    PdfHelper.compress_pdf (E := Fixtures.Pdf.env) "in.pdf" "out.pdf" "medium"
      (Py.mkProc Fixtures.Pdf.disk [])
    = (inr report,
       Py.mkProc (("out.pdf", Fixtures.Pdf.mkFile 75
                                (Some [Fixtures.Pdf.a4_page "one"; Fixtures.Pdf.a4_page "two"]))
                    :: Fixtures.Pdf.disk) [])
    /\ Py.success report = true
    /\ Py.field report "compression_ratio" = Some (Py.JStr (Claims.ratio_text 100 75))
    /\ Claims.two_decimal_percentage (Claims.ratio_text 100 75) = true
    /\ (100%Z = 0%Z -> Claims.ratio_text 100 75 = "0.00%").
Proof.
  apply (compress_reports_ratio (E := Fixtures.Pdf.env) "in.pdf" "out.pdf" "medium"
           (Py.mkProc Fixtures.Pdf.disk [])
           (Fixtures.Pdf.mkOpened "in.pdf"
              (Fixtures.Pdf.mkFile 100
                 (Some [Fixtures.Pdf.a4_page "one"; Fixtures.Pdf.a4_page "two"]))));
    try reflexivity; split; (discriminate || reflexivity).
Defined.

(** The guard of C4 at work: an empty file that opens reports [0.00%]. *)
Example compress_empty_input :
  Py.printed (Py.run (PdfHelper.script (E := Fixtures.Pdf.env)
                        ["pdf_helper.py"; "compress"; "empty.pdf"; "out.pdf"; "high"])
                     Fixtures.Pdf.disk)
  = [Py.JDict [ ("success", Py.JBool true);
                ("original_size", Py.JInt 0);
                ("compressed_size", Py.JInt 0);
                ("saved_bytes", Py.JInt 0);
                ("compression_ratio", Py.JStr "0.00%");
                ("level", Py.JStr "high") ]].
Proof. reflexivity. Qed.

(** C5, as stated, fails at level [low] on the example disk: the output
    has 150 bytes for 100 in, and the ratio reads [-50.00%]. *)
Lemma ratio_can_be_negative :
  ~ Claims.ratio_never_negative (E := Fixtures.Pdf.env) "in.pdf" "out.pdf" "low"
      (Py.mkProc Fixtures.Pdf.disk []).
Proof.
  intro Hclaim.
  destruct (Hclaim _ _ eq_refl eq_refl) as (s & Hfield & _ & Hsign).
  vm_compute in Hfield. injection Hfield as <-.
  discriminate Hsign.
Qed.

(** The instance of C5 for the same run. *)
Lemma compress_ratio_sign_witness :
  exists report ratio,
    PdfHelper.compress_pdf (E := Fixtures.Pdf.env) "in.pdf" "out.pdf" "low"
      (Py.mkProc Fixtures.Pdf.disk [])
    = (inr report,
       Py.mkProc (("out.pdf", Fixtures.Pdf.mkFile 150
                                (Some [Fixtures.Pdf.a4_page "one"; Fixtures.Pdf.a4_page "two"]))
                    :: Fixtures.Pdf.disk) [])
    /\ Py.success report = true
    /\ Py.field report "compressed_size" = Some (Py.JInt 150)
    /\ (0 <= 150)%Z
    /\ Py.field report "compression_ratio" = Some (Py.JStr ratio)
    /\ Claims.two_decimal_percentage ratio = true
    /\ Claims.negative ratio = (100 <? 150)%Z.
Proof.
  apply (compress_ratio_sign (E := Fixtures.Pdf.env) "in.pdf" "out.pdf" "low"
           (Py.mkProc Fixtures.Pdf.disk [])
           (Fixtures.Pdf.mkOpened "in.pdf"
              (Fixtures.Pdf.mkFile 100
                 (Some [Fixtures.Pdf.a4_page "one"; Fixtures.Pdf.a4_page "two"]))));
    try reflexivity; split; (discriminate || reflexivity).
Defined.

(** ** Watermarks *)

Section Watermark.
Import Py PdfHelper Claims Geometry.
Context {E : PdfEnv}.

Lemma emit_code (can can' : Canvas) (op : canvas_op) :
  emit can op = inr can' ->
  code can' = (code can ++ [op])%list /\ pagesize can' = pagesize can.
Proof.
  unfold emit. destruct (refuses can op); [discriminate |].
  intro H. injection H as <-. now split.
Qed.

Ltac emit_steps :=
  repeat match goal with
         | H : and_then (emit ?c ?op) _ = inr _ |- _ =>
             let c' := fresh "can" in
             let Hc := fresh "Hemit" in
             destruct (emit c op) as [? | c'] eqn:Hc; [discriminate H |];
             apply emit_code in Hc; destruct Hc as [? ?]; cbn [and_then] in H
         | H : emit ?c ?op = inr _ |- _ =>
             apply emit_code in H; destruct H as [? ?]
         end.

Lemma place_text_diagonal (can can' : Canvas) (rotation : json) (text : string)
      (page_width page_height : Q) :
  place_text can (JStr "diagonal") rotation text page_width page_height = inr can' ->
  code can'
  = (code can ++ [ saveState;
                  translate (page_width / 2) (page_height / 2);
                  rotate rotation;
                  drawCentredString 0 0 text;
                  restoreState ])%list.
Proof.
  unfold place_text. cbn [eq_str String.eqb Ascii.eqb Bool.eqb].
  intro H. emit_steps.
  repeat match goal with Hc : code _ = _ |- _ => rewrite Hc; clear Hc end.
  now rewrite <- !app_assoc.
Qed.

Lemma place_text_elsewhere (can : Canvas) (position : string) (rotation : json)
      (text : string) (page_width page_height : Q) :
  ~ In position known_positions ->
  place_text can (JStr position) rotation text page_width page_height = inr can.
Proof.
  intro Hunknown. unfold place_text, eq_str.
  repeat match goal with
         | |- context [String.eqb position ?s] =>
             destruct (String.eqb_spec position s) as [-> | _];
             [exfalso; apply Hunknown; simpl; tauto |]
         end.
  reflexivity.
Qed.

(** The operators of an overlay before the text is placed. *)
Lemma draw_overlay_code (opacity font_size rotation position color : json)
      (text : string) (pg : page) (can : Canvas) :
  draw_overlay opacity font_size rotation position color text pg = inr can ->
  exists r g b can0,
    code can0 = [setFillColor r g b opacity; setFont "Helvetica-Bold" font_size]
    /\ pagesize can0 = (mediabox_width pg, mediabox_height pg)
    /\ place_text can0 position rotation text (mediabox_width pg) (mediabox_height pg)
       = inr can.
Proof.
  unfold draw_overlay.
  destruct (json_getitem color "r") as [? | r]; [discriminate |].
  destruct (json_getitem color "g") as [? | g]; [discriminate |].
  destruct (json_getitem color "b") as [? | b]; [discriminate |].
  cbn [and_then]. intro H.
  destruct (emit _ (setFillColor r g b opacity)) as [? | can1] eqn:H1; [discriminate H |].
  cbn [and_then] in H.
  destruct (emit can1 (setFont "Helvetica-Bold" font_size)) as [? | can2] eqn:H2;
    [discriminate H |].
  cbn [and_then] in H.
  destruct (stringWidth text "Helvetica-Bold" font_size) as [? | text_width];
    [discriminate H |].
  cbn [and_then] in H.
  apply emit_code in H1, H2. destruct H1 as [Hc1 Hp1], H2 as [Hc2 Hp2].
  exists r, g, b, can2. repeat split.
  - now rewrite Hc2, Hc1.
  - now rewrite Hp2, Hp1.
  - exact H.
Qed.


Lemma Q2R_half (q : Q) : Q2R (q / 2) = (Q2R q / 2)%R.
Proof.
  rewrite Q2R_div by discriminate.
  f_equal. unfold Q2R; simpl. lra.
Qed.

Lemma Q2R_zero : Q2R 0 = 0%R.
Proof. unfold Q2R; simpl. lra. Qed.

(** The media box starts at the origin exactly when the middle of the
    overlay canvas is the centre of the page. *)
Lemma canvas_centre_page_centre (pg : page) :
  canvas_centre pg = page_centre pg <-> at_origin pg.
Proof.
  unfold canvas_centre, page_centre, at_origin. split.
  - intro H. injection H as Hx Hy. split; apply eqR_Qeq; rewrite Q2R_zero; lra.
  - intros [Hl Hb]. apply Qeq_eqR in Hl, Hb. rewrite Q2R_zero in Hl, Hb.
    rewrite Hl, Hb. f_equal; lra.
Qed.

(** The operators of a diagonal overlay and what they show: the rotation
    turns about the middle of the canvas, and the middle of the string's
    baseline is that point too. *)
Lemma diagonal_overlay_marks (opacity font_size rotation color : json) (text : string)
      (pg : page) (can : Canvas) (width : string -> R) :
  draw_overlay opacity font_size rotation (JStr "diagonal") color text pg = inr can ->
  (exists r g b,
      code can = [ setFillColor r g b opacity;
                   setFont "Helvetica-Bold" font_size;
                   saveState;
                   translate (mediabox_width pg / 2) (mediabox_height pg / 2);
                   rotate rotation;
                   drawCentredString 0 0 text;
                   restoreState ])
  /\ exists start stop,
      render width initial (code can) = [Pivot (canvas_centre pg); TextRun start stop]
      /\ midpoint start stop = canvas_centre pg.
Proof.
  intro Hdraw.
  apply draw_overlay_code in Hdraw as (r & g & b & can0 & Hcode0 & _ & Hplace).
  apply place_text_diagonal in Hplace. rewrite Hcode0 in Hplace. simpl in Hplace.
  split; [now exists r, g, b |].
  rewrite Hplace. cbn [render initial ctm saved].
  unfold translated, rotated, midpoint, canvas_centre; cbn [fst snd].
  rewrite !Q2R_half, Q2R_zero.
  eexists _, _. split.
  - rewrite !Rplus_0_l at 1. reflexivity.
  - cbn [fst snd]. f_equal; field.
Qed.

(** X27.  With position [diagonal], the overlay of a page saves the
    graphics state, moves the origin to half the width and half the
    height of the media box, turns the axes by [rotation] degrees and
    draws the string centred on the new origin.  Read as PDF reads them,
    for every rotation and every width of the text: the point the
    rotation turns about and the middle of the string's baseline are the
    same point, the middle of the overlay canvas.  The centre of the
    page is that point moved by the lower left corner of the media box:
    the two coincide exactly when the media box starts at the origin. *)
Theorem diagonal_text_centred (opacity font_size rotation color : json) (text : string)
        (pg : page) (can : Canvas) (width : string -> R) :
  draw_overlay opacity font_size rotation (JStr "diagonal") color text pg = inr can ->
  (exists r g b,
      code can = [ setFillColor r g b opacity;
                   setFont "Helvetica-Bold" font_size;
                   saveState;
                   translate (mediabox_width pg / 2) (mediabox_height pg / 2);
                   rotate rotation;
                   drawCentredString 0 0 text;
                   restoreState ])
  /\ exists start stop,
      render width initial (code can) = [Pivot (canvas_centre pg); TextRun start stop]
      /\ midpoint start stop = canvas_centre pg
      /\ page_centre pg
         = translated (Q2R (mediabox_left pg)) (Q2R (mediabox_bottom pg))
                      (midpoint start stop)
      /\ (midpoint start stop = page_centre pg <-> at_origin pg).
Proof.
  intro Hdraw.
  destruct (diagonal_overlay_marks _ _ _ _ _ _ _ width Hdraw)
    as [Hcode (start & stop & Hrender & Hmid)].
  split; [exact Hcode |].
  exists start, stop. split; [exact Hrender |]. split; [exact Hmid |].
  rewrite Hmid. split; [| apply canvas_centre_page_centre].
  unfold page_centre, canvas_centre, translated; cbn [fst snd]. f_equal; lra.
Qed.

(** The loop over the pages: when every page can be watermarked, the
    writer receives the watermarked pages, one per page, in order. *)
Lemma watermark_pages_all (opacity font_size rotation position color : json)
      (text : string) (ps writer : list page) :
  (forall pg, In pg ps ->
     exists pg', watermark_page opacity font_size rotation position color text pg = inr pg') ->
  exists added,
    watermark_pages opacity font_size rotation position color text ps writer
    = inr (writer ++ added)%list
    /\ Forall2 (fun pg pg' =>
                  watermark_page opacity font_size rotation position color text pg = inr pg')
               ps added.
Proof.
  revert writer. induction ps as [| pg ps IH]; intros writer Hall.
  - exists []. split; [simpl; now rewrite app_nil_r | constructor].
  - destruct (Hall pg (or_introl eq_refl)) as [pg' Hpg].
    destruct (IH (writer ++ [pg'])%list (fun q Hq => Hall q (or_intror Hq)))
      as (added & Hrun & Hadded).
    exists (pg' :: added). split.
    + simpl. rewrite Hpg. cbn [and_then]. rewrite Hrun. now rewrite <- app_assoc.
    + now constructor.
Qed.

(** The report of a watermarking whose library calls all succeed. *)
Lemma add_watermark_report (input_path output_path text : string)
      (kv : list (string * json)) (p : proc world) (ps : list page) :
  let opacity := dict_get kv "opacity" (JFloat (3#10)) in
  let font_size := dict_get kv "fontSize" (JInt 48) in
  let rotation := dict_get kv "rotation" (JInt 45) in
  let position := dict_get kv "position" (JStr "diagonal") in
  let color := dict_get kv "color" default_color in
  PdfReader input_path (env p) = inr ps ->
  (forall pg, In pg ps ->
     exists pg', watermark_page opacity font_size rotation position color text pg = inr pg') ->
  exists writer,
    Forall2 (fun pg pg' =>
               watermark_page opacity font_size rotation position color text pg = inr pg')
            ps writer
    /\ forall w',
        write_pages output_path writer (env p) = (inr tt, w') ->
        add_watermark input_path output_path text (JDict kv) p
        = (inr (JDict [ ("success", JBool true);
                        ("pages", JInt (Z.of_nat (List.length ps)));
                        ("watermark", JStr text);
                        ("position", position) ]),
           mkProc w' (stdout p)).
Proof.
  intros opacity font_size rotation position color Hread Hall.
  destruct (watermark_pages_all opacity font_size rotation position color text ps [] Hall)
    as (writer & Hrun & Hwriter).
  exists writer. split; [exact Hwriter |].
  intros w' Hwrite. unfold add_watermark. step_monad.
  rewrite Hread; simpl.
  fold opacity font_size rotation position color.
  rewrite Hrun; simpl. rewrite Hwrite; simpl. reflexivity.
Qed.

(** C7.  When the file opens with [N] pages, each page can be
    watermarked and the output can be written, [add_watermark] reports
    success with [pages] equal to [N].  The pages written are the
    watermarked input pages, each made from its own page alone, in the
    order of the input; with no page at all nothing is drawn, an empty
    document is written and the report says 0 pages. *)
Theorem watermark_reports_page_count (input_path output_path text : string)
        (kv : list (string * json)) (p : proc world) (ps : list page) :
  let opacity := dict_get kv "opacity" (JFloat (3#10)) in
  let font_size := dict_get kv "fontSize" (JInt 48) in
  let rotation := dict_get kv "rotation" (JInt 45) in
  let position := dict_get kv "position" (JStr "diagonal") in
  let color := dict_get kv "color" default_color in
  PdfReader input_path (env p) = inr ps ->
  (forall pg, In pg ps ->
     exists pg', watermark_page opacity font_size rotation position color text pg = inr pg') ->
  exists writer,
    Forall2 (fun pg pg' =>
               watermark_page opacity font_size rotation position color text pg = inr pg')
            ps writer
    /\ (ps = [] -> writer = [])
    /\ forall w',
        write_pages output_path writer (env p) = (inr tt, w') ->
        exists report,
          add_watermark input_path output_path text (JDict kv) p
          = (inr report, mkProc w' (stdout p))
          /\ success report = true
          /\ field report "pages" = Some (JInt (Z.of_nat (List.length ps))).
Proof.
  intros opacity font_size rotation position color Hread Hall.
  destruct (add_watermark_report input_path output_path text kv p ps Hread Hall)
    as (writer & Hwriter & Hreport).
  exists writer. repeat split.
  - exact Hwriter.
  - intros ->. now inversion Hwriter.
  - intros w' Hwrite. eexists. split; [exact (Hreport w' Hwrite) |]. now split.
Qed.

(** C10.  With a position string outside the four names, and the library
    calls succeeding, every page is still merged with an overlay; the
    overlay holds the colour and the font and no text; the report says
    success and repeats the position string as it was given. *)
Theorem unknown_position_blank_overlay (input_path output_path text position : string)
        (kv : list (string * json)) (p : proc world) (ps : list page) :
  let opacity := dict_get kv "opacity" (JFloat (3#10)) in
  let font_size := dict_get kv "fontSize" (JInt 48) in
  let rotation := dict_get kv "rotation" (JInt 45) in
  let color := dict_get kv "color" default_color in
  dict_get kv "position" (JStr "diagonal") = JStr position ->
  ~ In position known_positions ->
  PdfReader input_path (env p) = inr ps ->
  (forall pg, In pg ps ->
     exists pg', watermark_page opacity font_size rotation (JStr position) color text pg
                 = inr pg') ->
  exists writer,
    Forall2 (fun pg pg' =>
               exists ops,
                 pg' = merge_page pg (mkPage (mediabox_width pg) (mediabox_height pg)
                                             [Overlay ops])
                 /\ existsb draws_text ops = false)
            ps writer
    /\ forall w',
        write_pages output_path writer (env p) = (inr tt, w') ->
        add_watermark input_path output_path text (JDict kv) p
        = (inr (JDict [ ("success", JBool true);
                        ("pages", JInt (Z.of_nat (List.length ps)));
                        ("watermark", JStr text);
                        ("position", JStr position) ]),
           mkProc w' (stdout p)).
Proof.
  intros opacity font_size rotation color Hposition Hunknown Hread Hall.
  rewrite <- Hposition in Hall.
  destruct (add_watermark_report input_path output_path text kv p ps Hread Hall)
    as (writer & Hwriter & Hreport).
  rewrite Hposition in Hwriter, Hreport.
  exists writer. split; [| exact Hreport].
  clear Hreport Hall Hread.
  induction Hwriter as [| pg pg' ps' writer' Hpage _ IH]; constructor; [| exact IH].
  unfold watermark_page in Hpage.
  destruct (draw_overlay _ _ _ _ _ text pg) as [? | can] eqn:Hdraw; [discriminate Hpage |].
  cbn [and_then] in Hpage. injection Hpage as <-.
  apply draw_overlay_code in Hdraw as (r & g & b & can0 & Hcode0 & Hsize0 & Hplace).
  rewrite place_text_elsewhere in Hplace by assumption. injection Hplace as <-.
  exists (code can0). unfold saved_page. rewrite Hsize0. split; [reflexivity |].
  now rewrite Hcode0.
Qed.

End Watermark.

(** The instance of X27 for the first page of the example file, with the
    default options and a string 200 units wide. *)
Lemma diagonal_text_centred_witness :
  let pg := Fixtures.Pdf.a4_page "one" in
  let can :=
    PdfHelper.mkCanvas (595, 842)
      [ PdfHelper.setFillColor (Py.JFloat (1#2)) (Py.JFloat (1#2)) (Py.JFloat (1#2))
                               (Py.JFloat (3#10));
        PdfHelper.setFont "Helvetica-Bold" (Py.JInt 48);
        PdfHelper.saveState;
        PdfHelper.translate (595 / 2) (842 / 2);
        PdfHelper.rotate (Py.JInt 45);
        PdfHelper.drawCentredString 0 0 "DRAFT";
        PdfHelper.restoreState ] in
  PdfHelper.draw_overlay (E := Fixtures.Pdf.env)
    (Py.JFloat (3#10)) (Py.JInt 48) (Py.JInt 45) (Py.JStr "diagonal")
    PdfHelper.default_color "DRAFT" pg = inr can
  /\ exists start stop,
      Geometry.render (fun _ => 200%R) Geometry.initial (PdfHelper.code can)
      = [Geometry.Pivot (Geometry.canvas_centre pg); Geometry.TextRun start stop]
      /\ Geometry.midpoint start stop = Geometry.canvas_centre pg
      /\ Geometry.page_centre pg
         = Geometry.translated (Q2R (PdfHelper.mediabox_left pg))
                               (Q2R (PdfHelper.mediabox_bottom pg))
                               (Geometry.midpoint start stop)
      /\ (Geometry.midpoint start stop = Geometry.page_centre pg
          <-> Geometry.at_origin pg).
Proof.
  intros pg can.
  assert (Hdraw : PdfHelper.draw_overlay (E := Fixtures.Pdf.env)
                    (Py.JFloat (3#10)) (Py.JInt 48) (Py.JInt 45) (Py.JStr "diagonal")
                    PdfHelper.default_color "DRAFT" pg = inr can) by reflexivity.
  split; [exact Hdraw |].
  exact (proj2 (diagonal_text_centred (E := Fixtures.Pdf.env) _ _ _ _ _ _ _
                  (fun _ => 200%R) Hdraw)).
Defined.

(** C6.  The diagonal watermark misses the centre of a page cut out of
    a larger sheet.  The media box of [offset_page] is
    [[100 100 695 942]]: with the default options the rotation turns
    about (297.5, 421) and the text is centred there, as on a page that
    starts at the origin, while the centre of the page is
    (397.5, 521), 100 units to the right and 100 units up: farther than
    a glyph of the 48 point font reaches from its baseline. *)
Lemma diagonal_text_off_centre :
  let pg := Fixtures.Pdf.offset_page "one" in
  exists can start stop,
    PdfHelper.draw_overlay (E := Fixtures.Pdf.env)
      (Py.JFloat (3#10)) (Py.JInt 48) (Py.JInt 45) (Py.JStr "diagonal")
      PdfHelper.default_color "DRAFT" pg = inr can
    /\ PdfHelper.watermark_page (E := Fixtures.Pdf.env)
         (Py.JFloat (3#10)) (Py.JInt 48) (Py.JInt 45) (Py.JStr "diagonal")
         PdfHelper.default_color "DRAFT" pg
       = inr (PdfHelper.mkPageAt 100 100 595 842
                [PdfHelper.Original "one"; PdfHelper.Overlay (PdfHelper.code can)])
    /\ Geometry.render (fun _ => 200%R) Geometry.initial (PdfHelper.code can)
       = [Geometry.Pivot (595 / 2, 421)%R; Geometry.TextRun start stop]
    /\ Geometry.midpoint start stop = (595 / 2, 421)%R
    /\ Geometry.page_centre pg = (100 + 595 / 2, 100 + 421)%R
    /\ (fst (Geometry.page_centre pg) - fst (Geometry.midpoint start stop) = 100)%R
    /\ (snd (Geometry.page_centre pg) - snd (Geometry.midpoint start stop) = 100)%R
    /\ Geometry.midpoint start stop <> Geometry.page_centre pg.
Proof.
  intro pg.
  assert (Hcanvas : Geometry.canvas_centre pg = (595 / 2, 421)%R).
  { unfold Geometry.canvas_centre, Q2R; simpl. f_equal; lra. }
  assert (Hpage : Geometry.page_centre pg = (100 + 595 / 2, 100 + 421)%R).
  { unfold Geometry.page_centre, Q2R; simpl. f_equal; lra. }
  eexists.
  assert (Hdraw : PdfHelper.draw_overlay (E := Fixtures.Pdf.env)
                    (Py.JFloat (3#10)) (Py.JInt 48) (Py.JInt 45) (Py.JStr "diagonal")
                    PdfHelper.default_color "DRAFT" pg = inr _) by reflexivity.
  destruct (diagonal_overlay_marks (E := Fixtures.Pdf.env) _ _ _ _ _ _ _
              (fun _ => 200%R) Hdraw) as [_ (start & stop & Hrender & Hmid)].
  exists start, stop. rewrite <- Hcanvas, Hpage.
  split; [exact Hdraw |]. split; [reflexivity |].
  split; [exact Hrender |]. split; [exact Hmid |].
  split; [reflexivity |].
  rewrite Hmid, Hcanvas; cbn [fst snd].
  split; [lra |]. split; [lra |].
  intro H. injection H as Hx _. lra.
Qed.

(** The instance of C7 for the two-page example file and no options. *)
Lemma watermark_reports_page_count_witness :
  let ps := [Fixtures.Pdf.a4_page "one"; Fixtures.Pdf.a4_page "two"] in
  let p := Py.mkProc Fixtures.Pdf.disk [] in
  exists writer,
    Forall2 (fun pg pg' =>
               PdfHelper.watermark_page (E := Fixtures.Pdf.env)
                 (Py.JFloat (3#10)) (Py.JInt 48) (Py.JInt 45) (Py.JStr "diagonal")
                 PdfHelper.default_color "DRAFT" pg = inr pg')
            ps writer
    /\ (ps = [] -> writer = [])
    /\ forall w',
        PdfHelper.write_pages (PdfEnv := Fixtures.Pdf.env) "out.pdf" writer Fixtures.Pdf.disk
        = (inr tt, w') ->
        exists report,
          PdfHelper.add_watermark (E := Fixtures.Pdf.env) "in.pdf" "out.pdf" "DRAFT"
            (Py.JDict []) p
          = (inr report, Py.mkProc w' [])
          /\ Py.success report = true
          /\ Py.field report "pages" = Some (Py.JInt 2).
Proof.
  intros ps p.
  apply (watermark_reports_page_count (E := Fixtures.Pdf.env) "in.pdf" "out.pdf" "DRAFT"
           [] p ps).
  - reflexivity.
  - intros pg [<- | [<- | []]]; eexists; reflexivity.
Defined.

(** A file without pages: nothing is drawn, an empty document is written
    and the report counts 0 pages. *)
Example watermark_no_pages :
  let o := Py.run (PdfHelper.script (E := Fixtures.Pdf.env)
                     ["pdf_helper.py"; "watermark"; "nopages.pdf"; "out.pdf"; "DRAFT"])
                  Fixtures.Pdf.disk in
  Py.printed o
  = [Py.JDict [ ("success", Py.JBool true);
                ("pages", Py.JInt 0);
                ("watermark", Py.JStr "DRAFT");
                ("position", Py.JStr "diagonal") ]]
  /\ Py.final o = ("out.pdf", Fixtures.Pdf.mkFile 0 (Some [])) :: Fixtures.Pdf.disk.
Proof. split; reflexivity. Qed.

(** The instance of C10 for the position [sideways]. *)
Lemma unknown_position_blank_overlay_witness :
  let ps := [Fixtures.Pdf.a4_page "one"; Fixtures.Pdf.a4_page "two"] in
  let p := Py.mkProc Fixtures.Pdf.disk [] in
  exists writer,
    Forall2 (fun pg pg' =>
               exists ops,
                 pg' = PdfHelper.merge_page pg
                         (PdfHelper.mkPage (PdfHelper.mediabox_width pg)
                                           (PdfHelper.mediabox_height pg)
                                           [PdfHelper.Overlay ops])
                 /\ existsb Claims.draws_text ops = false)
            ps writer
    /\ forall w',
        PdfHelper.write_pages (PdfEnv := Fixtures.Pdf.env) "out.pdf" writer Fixtures.Pdf.disk
        = (inr tt, w') ->
        PdfHelper.add_watermark (E := Fixtures.Pdf.env) "in.pdf" "out.pdf" "DRAFT"
          (Py.JDict [("position", Py.JStr "sideways")]) p
        = (inr (Py.JDict [ ("success", Py.JBool true);
                           ("pages", Py.JInt 2);
                           ("watermark", Py.JStr "DRAFT");
                           ("position", Py.JStr "sideways") ]),
           Py.mkProc w' []).
Proof.
  intros ps p.
  apply (unknown_position_blank_overlay (E := Fixtures.Pdf.env) "in.pdf" "out.pdf" "DRAFT"
           "sideways" [("position", Py.JStr "sideways")] p ps).
  - reflexivity.
  - simpl. intros [H | [H | [H | [H | []]]]]; discriminate H.
  - reflexivity.
  - intros pg [<- | [<- | []]]; eexists; reflexivity.
Defined.

(** ** Stripping the markup *)

Section Stripping.
Import Py DocxToPdf Claims.

Lemma concat_cons (s : string) (l : list string) :
  String.concat "" (s :: l) = s ++ String.concat "" l.
Proof.
  destruct l as [| s' l]; simpl; [| reflexivity].
  induction s as [| c s IH]; simpl; [reflexivity | now rewrite <- IH].
Qed.

Lemma flatten_cons (pc : piece) (pieces : list piece) :
  flatten (pc :: pieces) = piece_text pc ++ flatten pieces.
Proof. apply concat_cons. Qed.

Lemma replace_plain (old_tail plain rest : string) :
  tag_free plain = true ->
  Str.replace_from (String "<" old_tail) "" 0 (plain ++ rest)
  = plain ++ Str.replace_from (String "<" old_tail) "" 0 rest.
Proof.
  induction plain as [| c plain IH]; intro Hfree; [reflexivity |].
  simpl in Hfree. apply andb_prop in Hfree as [Hc Hfree].
  cbn [append Str.replace_from String.prefix].
  destruct (Ascii.ascii_dec "<" c) as [<- | _]; [discriminate Hc |].
  now rewrite IH.
Qed.

Lemma replace_marker (m m' : marker) (rest : string) :
  Str.replace_from (marker_text m) "" 0 (marker_text m' ++ rest)
  = (if marker_eqb m m' then "" else marker_text m')
      ++ Str.replace_from (marker_text m) "" 0 rest.
Proof.
  destruct m, m'; cbn; try reflexivity; destruct rest; reflexivity.
Qed.


Lemma marker_text_lt (m : marker) : exists tail, marker_text m = String "<" tail.
Proof. destruct m; eexists; reflexivity. Qed.

(** Replacing one marker by nothing drops exactly the pieces that are
    that marker, when the stretches of text hold no [<]. *)
Lemma replace_flatten (m : marker) (pieces : list piece) :
  Forall (fun pc => match pc with Plain s => tag_free s = true | Marker _ => True end)
         pieces ->
  Str.replace (flatten pieces) (marker_text m) ""
  = flatten (filter (fun pc => negb (is_marker m pc)) pieces).
Proof.
  unfold Str.replace.
  induction 1 as [| pc pieces Hpc _ IH]; [now destruct m |].
  rewrite flatten_cons. destruct pc as [m' | s]; cbn [piece_text filter is_marker negb].
  - rewrite replace_marker, IH.
    destruct (marker_eqb m m'); cbn [negb]; [reflexivity | now rewrite flatten_cons].
  - destruct (marker_text_lt m) as [tail Htail].
    rewrite flatten_cons. cbn [piece_text]. rewrite <- IH, Htail.
    now apply replace_plain.
Qed.

Lemma flatten_app (ps qs : list piece) : flatten (ps ++ qs) = flatten ps ++ flatten qs.
Proof.
  induction ps as [| pc ps IH]; [reflexivity |].
  cbn [app]. now rewrite !flatten_cons, IH, string_app_assoc.
Qed.

Lemma string_app_nil_r (s : string) : s ++ "" = s.
Proof. induction s as [| c s IH]; simpl; [reflexivity | now rewrite IH]. Qed.

Lemma flatten_run_pieces (run : Run) :
  flatten (run_pieces run) = markup_underline_outermost run.
Proof.
  unfold run_pieces, markup_underline_outermost, wrap_if, wrap.
  destruct (underlined (underline run)), (truthy (italic run)), (truthy (bold run));
    cbn [app]; rewrite ?flatten_cons; cbn [piece_text marker_text flatten map String.concat];
    cbn [append]; rewrite ?string_app_assoc, ?string_app_nil_r; reflexivity.
Qed.


Lemma flatten_para_pieces (para : DocxParagraph) :
  flatten (para_pieces para) = parse_docx_paragraph para.
Proof.
  unfold parse_docx_paragraph, Str.join, para_pieces.
  rewrite fold_parse_run. cbn [app].
  induction (filter has_text (runs para)) as [| run rs IH]; [reflexivity |].
  cbn [flat_map map]. now rewrite flatten_app, concat_cons, flatten_run_pieces, IH.
Qed.

Lemma Forall_filter {A : Type} (P : A -> Prop) (f : A -> bool) (l : list A) :
  Forall P l -> Forall P (filter f l).
Proof.
  induction 1 as [| x l Hx _ IH]; simpl; [constructor |].
  destruct (f x); [now constructor | exact IH].
Qed.

Lemma filter_all_markers (pieces : list piece) :
  filter (fun pc => negb (is_marker close_u pc))
    (filter (fun pc => negb (is_marker open_u pc))
       (filter (fun pc => negb (is_marker close_i pc))
          (filter (fun pc => negb (is_marker open_i pc))
             (filter (fun pc => negb (is_marker close_b pc))
                (filter (fun pc => negb (is_marker open_b pc)) pieces)))))
  = filter is_plain pieces.
Proof.
  induction pieces as [| [[] | s] pieces IH]; cbn; now rewrite ?IH.
Qed.

(** The six replacements of the fallback leave the stretches of text. *)
Lemma strip_markup_flatten (pieces : list piece) :
  Forall tag_free_piece pieces ->
  strip_markup (flatten pieces) = flatten (filter is_plain pieces).
Proof.
  intro Hfree. unfold strip_markup.
  change "<b>" with (marker_text open_b). change "</b>" with (marker_text close_b).
  change "<i>" with (marker_text open_i). change "</i>" with (marker_text close_i).
  change "<u>" with (marker_text open_u). change "</u>" with (marker_text close_u).
  rewrite (replace_flatten open_b) by exact Hfree.
  rewrite (replace_flatten close_b) by (repeat apply Forall_filter; exact Hfree).
  rewrite (replace_flatten open_i) by (repeat apply Forall_filter; exact Hfree).
  rewrite (replace_flatten close_i) by (repeat apply Forall_filter; exact Hfree).
  rewrite (replace_flatten open_u) by (repeat apply Forall_filter; exact Hfree).
  rewrite (replace_flatten close_u) by (repeat apply Forall_filter; exact Hfree).
  now rewrite filter_all_markers.
Qed.



Lemma concat_has_text (rs : list Run) :
  String.concat "" (map text (filter has_text rs)) = String.concat "" (map text rs).
Proof.
  induction rs as [| run rs IH]; [reflexivity |].
  cbn [filter map]. unfold has_text at 1.
  destruct (String.eqb_spec (text run) "") as [Hempty | _]; cbn [negb map].
  - rewrite concat_cons, Hempty. exact IH.
  - now rewrite !concat_cons, IH.
Qed.


End Stripping.

(** ** The fallback to plain text *)

Section Fallback.
Import Py DocxToPdf Claims.
Context {E : DocxEnv}.

Lemma convert_paragraph_retry (para : DocxParagraph) :
  is_blank para = false -> styled_ok para = false ->
  convert_paragraph para
  = new_paragraph (strip_markup (parse_docx_paragraph para)) (select_style para).
Proof.
  unfold is_blank, styled_ok, convert_paragraph, new_paragraph.
  intros -> Hfail.
  destruct (Paragraph_error (parse_docx_paragraph para) (select_style para));
    [reflexivity | discriminate Hfail].
Qed.

Lemma convert_paragraph_recovers (para : DocxParagraph) :
  recovers para = true -> convert_paragraph para = inr (story_entry para).
Proof.
  unfold recovers, story_entry. intro Hrec.
  destruct (is_blank para) eqn:Hblank.
  { unfold convert_paragraph. unfold is_blank in Hblank. now rewrite Hblank. }
  destruct (styled_ok para) eqn:Hstyled.
  { unfold convert_paragraph, new_paragraph. unfold is_blank in Hblank.
    unfold styled_ok in Hstyled. rewrite Hblank.
    now destruct (Paragraph_error (parse_docx_paragraph para) (select_style para)). }
  rewrite convert_paragraph_retry by assumption.
  unfold new_paragraph. unfold plain_ok in Hrec. cbn [orb] in Hrec.
  now destruct (Paragraph_error (strip_markup (parse_docx_paragraph para))
                                (select_style para)).
Qed.




End Fallback.



(** Text that holds a [<] of its own can leave a marker behind: the six
    replacements run one after the other. *)
Example strip_markup_can_form_marker :
  DocxToPdf.strip_markup "<<i>b>x" = "<b>x".
Proof. reflexivity. Qed.

(** A paragraph that is refused once more ends the conversion: the inner
    handler does not catch its own failure.  Here the fallback leaves an
    opening [<b>] that nothing closes. *)
Example retry_failure_ends_conversion :
  let doc := DocxToPdf.mkDoc [DocxToPdf.mkPara [Fixtures.Docx.plain "<<i>b>x"] "Normal" None] [] in
  Py.printed (Py.run (DocxToPdf.script (E := Fixtures.Docx.env)
                        ["docx_to_pdf.py"; "rd.docx"; "out.pdf"])
                     [("rd.docx", Fixtures.Docx.Docx doc)])
  = [Py.JDict [ ("success", Py.JBool false);
                ("error", Py.JStr "paraparser: unclosed tag") ]].
Proof. reflexivity. Qed.

(* ================================================================== *)
(** * Part III: further properties of the two scripts *)
(* ================================================================== *)

(** ** The PDF helper's command line, continued *)

Section PdfCommandLine.
Import Py PdfHelper Properties.
Context {E : PdfEnv}.

(** [main] either refuses its arguments, printing a failed report with
    status 1 and touching nothing, or runs an operation, printing its
    report with status 0. *)
Lemma pdf_main_cases (argv : list string) (w : world) :
  (operation_runs argv = false
   /\ exists kv, run (main argv) w
                 = mkOutcome [JDict (("success", JBool false) :: kv)] 1 w)
  \/ (operation_runs argv = true
      /\ exists report w', run (main argv) w = mkOutcome [report] 0 w').
Proof.
  unfold run, main, operation_runs.
  destruct (Nat.ltb_spec (List.length argv) 2) as [Hlt2 | Hge2].
  { left. split; [| eexists; reflexivity].
    destruct (Nat.leb_spec 2 (List.length argv)); [lia | reflexivity]. }
  destruct (Nat.leb_spec 2 (List.length argv)) as [_ | ?]; [| lia].
  destruct (String.eqb (argv_at argv 1) "compress") eqn:Hcompress.
  { destruct (Nat.ltb_spec (List.length argv) 5) as [Hlt5 | Hge5].
    - left. split; [| eexists; reflexivity].
      destruct (Nat.leb_spec 5 (List.length argv)); [lia | reflexivity].
    - right. destruct (Nat.leb_spec 5 (List.length argv)) as [_ | ?]; [| lia].
      split; [reflexivity |].
      destruct (compress_pdf_returns (argv_at argv 2) (argv_at argv 3) (argv_at argv 4)
                  (mkProc w [])) as (report & w' & Hrun).
      unfold bind, try_except, print; cbv beta. rewrite Hrun. do 2 eexists; reflexivity. }
  destruct (String.eqb (argv_at argv 1) "watermark") eqn:Hwatermark.
  2: { left. split; [| eexists; reflexivity].
       now destruct (5 <=? List.length argv)%nat. }
  destruct (Nat.ltb_spec (List.length argv) 5) as [Hlt5 | Hge5].
  { left. split; [| eexists; reflexivity].
    destruct (Nat.leb_spec 5 (List.length argv)); [lia | reflexivity]. }
  destruct (Nat.leb_spec 5 (List.length argv)) as [_ | ?]; [| lia].
  destruct (5 <? List.length argv)%nat.
  - unfold bind at 1, try_except.
    destruct (json_loads (argv_at argv 5)) as [msg | options].
    + left. split; [reflexivity | eexists; reflexivity].
    + right. split; [reflexivity |].
      destruct (add_watermark_returns (argv_at argv 2) (argv_at argv 3) (argv_at argv 4)
                  options (mkProc w [])) as (report & w' & Hrun).
      unfold lift, bind, ret, print; cbv beta. rewrite Hrun. do 2 eexists; reflexivity.
  - right. split; [reflexivity |].
    destruct (add_watermark_returns (argv_at argv 2) (argv_at argv 3) (argv_at argv 4)
                (JDict []) (mkProc w [])) as (report & w' & Hrun).
    unfold bind, try_except, ret, print; cbv beta. rewrite Hrun. do 2 eexists; reflexivity.
Qed.

(** X1.  The exit status of the PDF helper tells whether an operation was
    run, not whether it succeeded: it is 0 when the arguments name
    [compress] or [watermark] with at least three arguments after it and,
    for [watermark], options that parse; it is 1 otherwise. *)
Theorem pdf_helper_exit_status (argv : list string) (w : world) :
  status (run (main argv) w) = if operation_runs argv then 0%Z else 1%Z.
Proof.
  destruct (pdf_main_cases argv w) as [[Hruns [kv Hrun]] | [Hruns (report & w' & Hrun)]];
    rewrite Hruns, Hrun; reflexivity.
Qed.

(** X2.  A run of the PDF helper that ends with status 1 has opened and
    written nothing: the world is as it was, and the one report printed
    says failure. *)
Theorem pdf_helper_refusal_touches_nothing (argv : list string) (w : world) :
  status (run (main argv) w) = 1%Z ->
  final (run (main argv) w) = w
  /\ exists report, printed (run (main argv) w) = [report] /\ success report = false.
Proof.
  destruct (pdf_main_cases argv w) as [[_ [kv Hrun]] | [_ (report & w' & Hrun)]];
    rewrite Hrun; cbn [status final printed].
  - intros _. split; [reflexivity |]. eexists. split; reflexivity.
  - discriminate.
Qed.

(** X3.  Options that are not JSON end a [watermark] run before the input
    is opened: the parser's message is the error of the one report, the
    status is 1 and the world is untouched. *)
Theorem malformed_options_reported (argv : list string) (w : world) (msg : string) :
  (6 <= List.length argv)%nat ->
  argv_at argv 1 = "watermark" ->
  json_loads (argv_at argv 5) = inl msg ->
  run (main argv) w
  = mkOutcome [JDict [ ("success", JBool false); ("error", JStr msg) ]] 1 w.
Proof.
  intros Hlen Hop Hloads. unfold run, main.
  destruct (Nat.ltb_spec (List.length argv) 2) as [? | _]; [lia |].
  rewrite Hop. cbn [String.eqb Ascii.eqb Bool.eqb andb].
  destruct (Nat.ltb_spec (List.length argv) 5) as [? | _]; [lia |].
  destruct (Nat.ltb_spec 5 (List.length argv)) as [_ | ?]; [| lia].
  unfold bind at 1, try_except. rewrite Hloads. reflexivity.
Qed.

End PdfCommandLine.

(** The instance of X2 for an operation the helper does not know. *)
Lemma pdf_helper_refusal_touches_nothing_witness :
  let o := Py.run (PdfHelper.main (E := Fixtures.Pdf.env) ["pdf_helper.py"; "rotate"])
                  Fixtures.Pdf.disk in
  Py.status o = 1%Z
  /\ Py.final o = Fixtures.Pdf.disk
  /\ exists report, Py.printed o = [report] /\ Py.success report = false.
Proof.
  intro o. split; [reflexivity |].
  apply (pdf_helper_refusal_touches_nothing (E := Fixtures.Pdf.env)
           ["pdf_helper.py"; "rotate"] Fixtures.Pdf.disk).
  reflexivity.
Defined.

(** The instance of X3 for an unfinished JSON object. *)
Lemma malformed_options_reported_witness :
  let argv := ["pdf_helper.py"; "watermark"; "in.pdf"; "out.pdf"; "DRAFT"; "{"] in
  Py.run (PdfHelper.main (E := Fixtures.Pdf.env) argv) Fixtures.Pdf.disk
  = Py.mkOutcome
      [Py.JDict [ ("success", Py.JBool false);
                  ("error", Py.JStr "Expecting value: line 1 column 1 (char 0)") ]]
      1 Fixtures.Pdf.disk.
Proof.
  intro argv.
  apply (malformed_options_reported (E := Fixtures.Pdf.env) argv Fixtures.Pdf.disk);
    [simpl; lia | reflexivity | reflexivity].
Defined.

(** ** Compression, continued *)

Section CompressionOutcomes.
Import Py PdfHelper Claims Properties.
Context {E : PdfEnv}.
Local Open Scope Z_scope.

(** X4.  [compress_pdf] raises nothing and prints nothing, and its report
    has one of two shapes: a failure with the message of the exception,
    or a success whose [saved_bytes] is [original_size - compressed_size]
    and whose [level] is the string it was given. *)
Theorem compress_pdf_outcomes (input_path output_path level : string) (p : proc world) :
  exists report w',
    compress_pdf input_path output_path level p = (inr report, mkProc w' (stdout p))
    /\ ((exists e, report = JDict [ ("success", JBool false); ("error", JStr e) ])
        \/ (exists original compressed ratio,
               report = JDict [ ("success", JBool true);
                                ("original_size", JInt original);
                                ("compressed_size", JInt compressed);
                                ("saved_bytes", JInt (original - compressed));
                                ("compression_ratio", JStr ratio);
                                ("level", JStr level) ])).
Proof.
  unfold compress_pdf. step_monad. destruct p as [w out]; simpl.
  destruct (Pdf_open input_path w) as [msg | pdf]; simpl; [eauto 7 |].
  destruct (Pdf_save pdf output_path _ w) as [[msg | []] w1]; simpl; [eauto 7 |].
  destruct (getsize input_path w1) as [msg | isz]; simpl; [eauto 7 |].
  destruct (getsize output_path w1) as [msg | osz]; simpl; [eauto 7 |].
  destruct (isz >? 0); simpl; [| eauto 9].
  destruct (int_truediv (isz - osz) isz) as [msg | q]; simpl; eauto 9.
Qed.

(** X5.  The error of a failed compression is the message of the first
    call that raised.  A file that cannot be opened is reported with the
    world untouched; a failed save is reported with the world as the save
    left it; so is a size that cannot be read after a save. *)
Theorem compress_reports_first_failure (input_path output_path level : string)
        (p : proc world) (msg : string) :
  let options := dict_get save_options level save_options_medium in
  let failed w := (inr (JDict [ ("success", JBool false); ("error", JStr msg) ]),
                   mkProc w (stdout p)) : (exc + json) * proc world in
  (Pdf_open input_path (env p) = inl msg ->
   compress_pdf input_path output_path level p = failed (env p))
  /\ (forall pdf w',
         Pdf_open input_path (env p) = inr pdf ->
         Pdf_save pdf output_path options (env p) = (inl msg, w') ->
         compress_pdf input_path output_path level p = failed w')
  /\ (forall pdf w',
         Pdf_open input_path (env p) = inr pdf ->
         Pdf_save pdf output_path options (env p) = (inr tt, w') ->
         getsize input_path w' = inl msg ->
         compress_pdf input_path output_path level p = failed w')
  /\ (forall pdf w' original,
         Pdf_open input_path (env p) = inr pdf ->
         Pdf_save pdf output_path options (env p) = (inr tt, w') ->
         getsize input_path w' = inr original ->
         getsize output_path w' = inl msg ->
         compress_pdf input_path output_path level p = failed w').
Proof.
  intros options failed. subst options failed. destruct p as [w out].
  unfold compress_pdf. step_monad.
  repeat split.
  - intros ->. reflexivity.
  - intros pdf w' -> Hsave. simpl. now rewrite Hsave.
  - intros pdf w' -> Hsave Hin. simpl. rewrite Hsave; simpl. now rewrite Hin.
  - intros pdf w' original -> Hsave Hin Hout. simpl. rewrite Hsave; simpl.
    rewrite Hin; simpl. now rewrite Hout.
Qed.

(** The quotient of a positive integer by itself is the float 1. *)
Lemma SFdiv_same (pa : positive) :
  SFdiv prec emax (exact_int (Z.pos pa)) (exact_int (Z.pos pa))
  = S754_finite false 4503599627370496 (-52).
Proof.
  cbn [exact_int SFdiv xorb]. unfold SFdiv_core_binary.
  replace (Zdigits2 (Z.pos pa) + 0 - (Zdigits2 (Z.pos pa) + 0)) with 0 by lia.
  change (Z.min (fexp prec emax 0) (0 - 0)) with (-53).
  change (0 - 0 - -53) with 53.
  cbv iota.
  assert (Hdiv : Z.div_eucl (Z.shiftl (Z.pos pa) 53) (Z.pos pa) = (2 ^ 53, 0)).
  { rewrite Z.shiftl_mul_pow2 by lia.
    pose proof (Z.div_eucl_eq (Z.pos pa * 2 ^ 53) (Z.pos pa) ltac:(lia)) as Heq.
    pose proof (Z.mod_pos_bound (Z.pos pa * 2 ^ 53) (Z.pos pa) ltac:(lia)) as Hmod.
    unfold Z.modulo in Hmod.
    destruct (Z.div_eucl (Z.pos pa * 2 ^ 53) (Z.pos pa)) as [q r].
    assert (Hr : r = 0).
    { assert (Hdvd : Z.pos pa * (2 ^ 53 - q) = r) by lia.
      destruct (Z.eq_dec (2 ^ 53 - q) 0) as [Hz | Hnz]; [rewrite Hz in Hdvd; lia |].
      exfalso. assert (Z.pos pa <= Z.abs r) by (rewrite <- Hdvd, Z.abs_mul; nia). lia. }
    subst r. f_equal. nia. }
  rewrite Hdiv.
  assert (Hloc : new_location (Z.pos pa) 0 = loc_Exact).
  { unfold new_location, new_location_even, new_location_odd.
    now destruct (Z.even (Z.pos pa)). }
  rewrite Hloc. reflexivity.
Qed.

(** X6.  The two ends of the ratio, for an input of any positive size and
    library calls that succeed: an output as large as the input reports
    [0.00%] with no byte saved; an empty output reports [100.00%]. *)
Theorem compress_ratio_extremes (input_path output_path level : string) (p : proc world)
        (pdf : pikepdf_Pdf) (w' : world) (input_size output_size : Z) :
  Pdf_open input_path (env p) = inr pdf ->
  Pdf_save pdf output_path (dict_get save_options level save_options_medium) (env p)
  = (inr tt, w') ->
  getsize input_path w' = inr input_size ->
  getsize output_path w' = inr output_size ->
  0 < input_size ->
  exists report,
    compress_pdf input_path output_path level p = (inr report, mkProc w' (stdout p))
    /\ (output_size = input_size ->
        field report "compression_ratio" = Some (JStr "0.00%")
        /\ field report "saved_bytes" = Some (JInt 0))
    /\ (output_size = 0 ->
        field report "compression_ratio" = Some (JStr "100.00%")
        /\ field report "saved_bytes" = Some (JInt input_size)).
Proof.
  intros Hopen Hsave Hin Hout Hpos.
  unfold compress_pdf. step_monad.
  rewrite Hopen; simpl. rewrite Hsave; simpl. rewrite Hin; simpl. rewrite Hout; simpl.
  destruct (Z.gtb_spec input_size 0) as [_ | ?]; [| lia].
  destruct input_size as [| pa | pa]; try lia.
  destruct (Z.eq_dec output_size (Z.pos pa)) as [-> | Hne].
  - unfold int_truediv. rewrite Z.sub_diag. cbn.
    eexists. split; [reflexivity |]. split.
    + intros _. split; reflexivity.
    + discriminate.
  - destruct (Z.eq_dec output_size 0) as [-> | Hnz].
    + unfold int_truediv. rewrite Z.sub_0_r.
      change (Z.pos pa =? 0) with false. cbv iota.
      rewrite SFdiv_same. cbn [lift bind ret].
      eexists. split; [reflexivity |]. split; [intros H; discriminate H |].
      intros _. split; [| reflexivity].
      vm_compute. reflexivity.
    + destruct (int_truediv (Z.pos pa - output_size) (Z.pos pa)) as [e | q]; simpl;
        eexists; (split; [reflexivity |]); split; intro; contradiction || congruence.
Qed.

End CompressionOutcomes.

(** The instance of X5 for a file that is not there. *)
Lemma compress_reports_first_failure_witness :
  PdfHelper.compress_pdf (E := Fixtures.Pdf.env) "missing.pdf" "out.pdf" "low"
    (Py.mkProc Fixtures.Pdf.disk [])
  = (inr (Py.JDict [ ("success", Py.JBool false);
                     ("error", Py.JStr "No such file or directory: missing.pdf") ]),
     Py.mkProc Fixtures.Pdf.disk []).
Proof.
  exact (proj1 (compress_reports_first_failure (E := Fixtures.Pdf.env)
                  "missing.pdf" "out.pdf" "low" (Py.mkProc Fixtures.Pdf.disk [])
                  "No such file or directory: missing.pdf")
               eq_refl).
Defined.

(** The instance of X6 for a document that cannot be made smaller: 100
    bytes in, 100 bytes out. *)
Lemma compress_ratio_extremes_witness :
  let pages := Some [Fixtures.Pdf.a4_page "one"; Fixtures.Pdf.a4_page "two"] in
  let w' := ("out.pdf", Fixtures.Pdf.mkFile 100 pages) :: Fixtures.Pdf.disk in
  exists report,
    PdfHelper.compress_pdf (E := Fixtures.Pdf.steady) "in.pdf" "out.pdf" "medium"
      (Py.mkProc Fixtures.Pdf.disk [])
    = (inr report, Py.mkProc w' [])
    /\ (100%Z = 100%Z ->
        Py.field report "compression_ratio" = Some (Py.JStr "0.00%")
        /\ Py.field report "saved_bytes" = Some (Py.JInt 0))
    /\ (100%Z = 0%Z ->
        Py.field report "compression_ratio" = Some (Py.JStr "100.00%")
        /\ Py.field report "saved_bytes" = Some (Py.JInt 100)).
Proof.
  intros pages w'.
  apply (compress_ratio_extremes (E := Fixtures.Pdf.steady) "in.pdf" "out.pdf" "medium"
           (Py.mkProc Fixtures.Pdf.disk [])
           (Fixtures.Pdf.mkOpened "in.pdf" (Fixtures.Pdf.mkFile 100 pages))
           w' 100 100); reflexivity.
Defined.

(** ** Watermarks, continued *)

Section WatermarkOptions.
Import Py PdfHelper Claims Properties Geometry.
Context {E : PdfEnv}.

Lemma dict_get_agree {A : Type} (kv kv' : list (string * A)) (k : string) (d : A) :
  assoc k kv = assoc k kv' -> dict_get kv k d = dict_get kv' k d.
Proof. unfold dict_get. now intros ->. Qed.

(** X8.  [add_watermark] reads five keys of its options and nothing
    else: two option dicts that agree on [opacity], [fontSize],
    [rotation], [position] and [color] give the same report and the same
    files, whatever other keys they hold. *)
Theorem watermark_reads_five_keys (input_path output_path text : string)
        (kv kv' : list (string * json)) (p : proc world) :
  (forall k, In k option_keys -> assoc k kv = assoc k kv') ->
  add_watermark input_path output_path text (JDict kv) p
  = add_watermark input_path output_path text (JDict kv') p.
Proof.
  intro Hagree. unfold add_watermark, json_get.
  rewrite (dict_get_agree kv kv' "opacity") by (apply Hagree; simpl; tauto).
  rewrite (dict_get_agree kv kv' "fontSize") by (apply Hagree; simpl; tauto).
  rewrite (dict_get_agree kv kv' "rotation") by (apply Hagree; simpl; tauto).
  rewrite (dict_get_agree kv kv' "position") by (apply Hagree; simpl; tauto).
  rewrite (dict_get_agree kv kv' "color") by (apply Hagree; simpl; tauto).
  reflexivity.
Qed.

(** X9.  Options left out take their defaults: no options at all
    ([None]), an empty dict and the dict that spells out opacity 0.3,
    font size 48, rotation 45, position [diagonal] and mid-grey all give
    the same run; so does any dict that gives only some of the keys, each
    at its default. *)
Theorem watermark_defaults (input_path output_path text : string) (p : proc world) :
  add_watermark input_path output_path text JNull p
  = add_watermark input_path output_path text (JDict []) p
  /\ add_watermark input_path output_path text (JDict []) p
     = add_watermark input_path output_path text default_options p
  /\ forall kv,
      (forall k v, assoc k kv = Some v -> assoc k default_bindings = Some v) ->
      add_watermark input_path output_path text (JDict kv) p
      = add_watermark input_path output_path text default_options p.
Proof.
  split; [reflexivity |]. split; [reflexivity |].
  intros kv Hsub. unfold add_watermark, json_get, default_options.
  assert (Hget : forall k d, assoc k default_bindings = Some d -> dict_get kv k d = d).
  { intros k d Hk. unfold dict_get.
    destruct (assoc k kv) as [v |] eqn:Hkv; [| reflexivity].
    specialize (Hsub k v Hkv). congruence. }
  rewrite (Hget "opacity" _ eq_refl), (Hget "fontSize" _ eq_refl),
    (Hget "rotation" _ eq_refl), (Hget "position" _ eq_refl), (Hget "color" _ eq_refl).
  reflexivity.
Qed.

(** X10.  Options that are JSON but no object (a list, a string, a
    number, a boolean) fail the watermarking at the first [options.get]:
    the report carries the [AttributeError], the input is never opened
    and nothing is written. *)
Theorem watermark_rejects_non_dict_options (input_path output_path text : string)
        (options : json) (p : proc world) :
  match options with JDict _ | JNull => False | _ => True end ->
  add_watermark input_path output_path text options p
  = (inr (JDict [ ("success", JBool false);
                  ("error", JStr ("'" ++ type_name options
                                      ++ "' object has no attribute 'get'")) ]),
     p).
Proof.
  destruct p as [w out].
  destruct options; intro H; try contradiction; reflexivity.
Qed.

End WatermarkOptions.

(** The instance of X8: a key the script does not know changes
    nothing. *)
Lemma watermark_reads_five_keys_witness :
  let kv := [("position", Py.JStr "top")] in
  let kv' := [("author", Py.JStr "me"); ("position", Py.JStr "top")] in
  (forall k, In k Properties.option_keys -> Py.assoc k kv = Py.assoc k kv')
  /\ PdfHelper.add_watermark (E := Fixtures.Pdf.env) "in.pdf" "out.pdf" "DRAFT"
       (Py.JDict kv) (Py.mkProc Fixtures.Pdf.disk [])
     = PdfHelper.add_watermark (E := Fixtures.Pdf.env) "in.pdf" "out.pdf" "DRAFT"
         (Py.JDict kv') (Py.mkProc Fixtures.Pdf.disk []).
Proof.
  intros kv kv'.
  assert (Hagree : forall k, In k Properties.option_keys -> Py.assoc k kv = Py.assoc k kv').
  { intros k [<- | [<- | [<- | [<- | [<- | []]]]]]; reflexivity. }
  split; [exact Hagree |].
  exact (watermark_reads_five_keys (E := Fixtures.Pdf.env) "in.pdf" "out.pdf" "DRAFT"
           kv kv' (Py.mkProc Fixtures.Pdf.disk []) Hagree).
Defined.

(** The instance of X10 for a list in place of the options. *)
Lemma watermark_rejects_non_dict_options_witness :
  PdfHelper.add_watermark (E := Fixtures.Pdf.env) "in.pdf" "out.pdf" "DRAFT"
    (Py.JList []) (Py.mkProc Fixtures.Pdf.disk [])
  = (inr (Py.JDict [ ("success", Py.JBool false);
                     ("error", Py.JStr "'list' object has no attribute 'get'") ]),
     Py.mkProc Fixtures.Pdf.disk []).
Proof.
  exact (watermark_rejects_non_dict_options (E := Fixtures.Pdf.env) "in.pdf" "out.pdf"
           "DRAFT" (Py.JList []) (Py.mkProc Fixtures.Pdf.disk []) I).
Defined.


(** The instance of X9 for options that repeat one default. *)
Lemma watermark_defaults_witness :
  let kv := [("rotation", Py.JInt 45)] in
  (forall k v, Py.assoc k kv = Some v -> Py.assoc k Properties.default_bindings = Some v)
  /\ PdfHelper.add_watermark (E := Fixtures.Pdf.env) "in.pdf" "out.pdf" "DRAFT"
       (Py.JDict kv) (Py.mkProc Fixtures.Pdf.disk [])
     = PdfHelper.add_watermark (E := Fixtures.Pdf.env) "in.pdf" "out.pdf" "DRAFT"
         Properties.default_options (Py.mkProc Fixtures.Pdf.disk []).
Proof.
  intro kv.
  assert (Hsub : forall k v, Py.assoc k kv = Some v
                             -> Py.assoc k Properties.default_bindings = Some v).
  { intros k v. simpl.
    destruct (String.eqb_spec k "rotation") as [-> | _]; [| discriminate].
    intro H. injection H as <-. reflexivity. }
  split; [exact Hsub |].
  exact (proj2 (proj2 (watermark_defaults (E := Fixtures.Pdf.env) "in.pdf" "out.pdf"
                         "DRAFT" (Py.mkProc Fixtures.Pdf.disk []))) kv Hsub).
Defined.

Section WatermarkPages.
Import Py PdfHelper Claims Properties Geometry.
Context {E : PdfEnv}.

(** The loop stops at the first page that cannot be watermarked, with
    that page's message. *)
Lemma watermark_pages_first_failure (opacity font_size rotation position color : json)
      (text : string) (good rest writer : list page) (bad : page) (msg : string) :
  (forall pg, In pg good ->
     exists pg', watermark_page opacity font_size rotation position color text pg = inr pg') ->
  watermark_page opacity font_size rotation position color text bad = inl msg ->
  watermark_pages opacity font_size rotation position color text
                  (good ++ bad :: rest)%list writer
  = inl msg.
Proof.
  revert writer. induction good as [| pg good IH]; intros writer Hgood Hbad.
  - simpl. now rewrite Hbad.
  - destruct (Hgood pg (or_introl eq_refl)) as [pg' Hpg].
    simpl. rewrite Hpg. cbn [and_then].
    apply IH; [| exact Hbad]. intros q Hq. apply Hgood. now right.
Qed.

(** X11.  Watermarking is all or nothing.  When a page cannot be
    watermarked, the report carries the message of the first such page
    and no output is written: the world is as it was, however many pages
    before it went well. *)
Theorem watermark_failure_writes_nothing (input_path output_path text : string)
        (kv : list (string * json)) (p : proc world) (good rest : list page)
        (bad : page) (msg : string) :
  let opacity := dict_get kv "opacity" (JFloat (3#10)) in
  let font_size := dict_get kv "fontSize" (JInt 48) in
  let rotation := dict_get kv "rotation" (JInt 45) in
  let position := dict_get kv "position" (JStr "diagonal") in
  let color := dict_get kv "color" default_color in
  PdfReader input_path (env p) = inr (good ++ bad :: rest)%list ->
  (forall pg, In pg good ->
     exists pg', watermark_page opacity font_size rotation position color text pg = inr pg') ->
  watermark_page opacity font_size rotation position color text bad = inl msg ->
  add_watermark input_path output_path text (JDict kv) p
  = (inr (JDict [ ("success", JBool false); ("error", JStr msg) ]), p).
Proof.
  intros opacity font_size rotation position color Hread Hgood Hbad.
  unfold add_watermark. step_monad. destruct p as [w out]; simpl in *.
  rewrite Hread; simpl.
  fold opacity font_size rotation position color.
  now rewrite (watermark_pages_first_failure opacity font_size rotation position color
                 text good rest [] bad msg Hgood Hbad).
Qed.

(** What [place_text] adds to a canvas: nothing, or operators of which
    exactly one draws, and draws [text]. *)
Lemma place_text_draws_once (can can' : Canvas) (position rotation : json) (text : string)
      (page_width page_height : Q) :
  place_text can position rotation text page_width page_height = inr can' ->
  pagesize can' = pagesize can
  /\ exists added,
      code can' = (code can ++ added)%list
      /\ (List.length (filter draws_text added) <= 1)%nat
      /\ Forall (fun op => draws_text op = true -> exists x y, op = drawCentredString x y text)
                added.
Proof.
  unfold place_text.
  destruct (eq_str position "diagonal").
  { intro H.
    repeat match goal with
           | H : and_then (emit ?c ?op) _ = inr _ |- _ =>
               let c' := fresh "can" in
               let Hc := fresh "Hemit" in
               destruct (emit c op) as [? | c'] eqn:Hc; [discriminate H |];
               apply emit_code in Hc; destruct Hc as [? ?]; cbn [and_then] in H
           end.
    apply emit_code in H as [Hcode Hsize].
    split; [congruence |].
    eexists [saveState; translate _ _; rotate rotation; drawCentredString 0 0 text;
             restoreState].
    split; [| split].
    - repeat match goal with Hc : code _ = _ |- _ => rewrite Hc; clear Hc end.
      now rewrite <- !app_assoc.
    - simpl. lia.
    - repeat constructor; try discriminate. intros _. eauto. }
  assert (Hone : forall x y,
             emit can (drawCentredString x y text) = inr can' ->
             pagesize can' = pagesize can
             /\ exists added,
                 code can' = (code can ++ added)%list
                 /\ (List.length (filter draws_text added) <= 1)%nat
                 /\ Forall (fun op => draws_text op = true
                                      -> exists x y, op = drawCentredString x y text)
                           added).
  { intros x y H. apply emit_code in H as [Hcode Hsize]. split; [exact Hsize |].
    exists [drawCentredString x y text]. split; [exact Hcode |]. split; [simpl; lia |].
    repeat constructor. intros _. eauto. }
  destruct (eq_str position "center"); [apply Hone |].
  destruct (eq_str position "top"); [apply Hone |].
  destruct (eq_str position "bottom"); [apply Hone |].
  intro H. injection H as <-. split; [reflexivity |].
  exists []. split; [now rewrite app_nil_r |]. split; [simpl; lia | constructor].
Qed.

(** X12.  Whatever the options, a page that is watermarked keeps its
    media box and all of its content, in place, and gains exactly one
    overlay on top.  The overlay sets the colour and the bold face first
    and then draws the text once at most, and nothing but the text. *)
Theorem watermarked_page_keeps_content (opacity font_size rotation position color : json)
        (text : string) (pg pg' : page) :
  watermark_page opacity font_size rotation position color text pg = inr pg' ->
  mediabox_left pg' = mediabox_left pg
  /\ mediabox_bottom pg' = mediabox_bottom pg
  /\ mediabox_width pg' = mediabox_width pg
  /\ mediabox_height pg' = mediabox_height pg
  /\ exists r g b drawn,
      contents pg'
      = (contents pg
         ++ [Overlay (setFillColor r g b opacity
                      :: setFont "Helvetica-Bold" font_size :: drawn)])%list
      /\ (List.length (filter draws_text drawn) <= 1)%nat
      /\ Forall (fun op => draws_text op = true -> exists x y, op = drawCentredString x y text)
                drawn.
Proof.
  unfold watermark_page.
  destruct (draw_overlay opacity font_size rotation position color text pg)
    as [? | can] eqn:Hdraw; [discriminate |].
  cbn [and_then]. intro H. injection H as <-.
  apply draw_overlay_code in Hdraw as (r & g & b & can0 & Hcode0 & _ & Hplace).
  apply place_text_draws_once in Hplace as (_ & drawn & Hcode & Hcount & Htext).
  do 4 (split; [reflexivity |]).
  exists r, g, b, drawn. split; [| now split].
  unfold merge_page, saved_page; cbn [contents]. now rewrite Hcode, Hcode0.
Qed.

End WatermarkPages.

(** The instance of X11: a font size that is no number stops the first
    page. *)
Lemma watermark_failure_writes_nothing_witness :
  PdfHelper.add_watermark (E := Fixtures.Pdf.env) "in.pdf" "out.pdf" "DRAFT"
    (Py.JDict [("fontSize", Py.JStr "big")]) (Py.mkProc Fixtures.Pdf.disk [])
  = (inr (Py.JDict [ ("success", Py.JBool false); ("error", Py.JStr "bad font size") ]),
     Py.mkProc Fixtures.Pdf.disk []).
Proof.
  apply (watermark_failure_writes_nothing (E := Fixtures.Pdf.env) "in.pdf" "out.pdf"
           "DRAFT" [("fontSize", Py.JStr "big")] (Py.mkProc Fixtures.Pdf.disk [])
           [] [Fixtures.Pdf.a4_page "two"] (Fixtures.Pdf.a4_page "one") "bad font size").
  - reflexivity.
  - intros pg [].
  - reflexivity.
Defined.

(** The instance of X12 for the first page of the example file, at the
    top. *)
Lemma watermarked_page_keeps_content_witness :
  let pg := Fixtures.Pdf.a4_page "one" in
  exists pg',
    PdfHelper.watermark_page (E := Fixtures.Pdf.env)
      (Py.JFloat (3#10)) (Py.JInt 48) (Py.JInt 45) (Py.JStr "top")
      PdfHelper.default_color "DRAFT" pg = inr pg'
    /\ PdfHelper.mediabox_left pg' = PdfHelper.mediabox_left pg
    /\ PdfHelper.mediabox_bottom pg' = PdfHelper.mediabox_bottom pg
    /\ PdfHelper.mediabox_width pg' = PdfHelper.mediabox_width pg
    /\ PdfHelper.mediabox_height pg' = PdfHelper.mediabox_height pg
    /\ exists r g b drawn,
        PdfHelper.contents pg'
        = (PdfHelper.contents pg
           ++ [PdfHelper.Overlay
                 (PdfHelper.setFillColor r g b (Py.JFloat (3#10))
                  :: PdfHelper.setFont "Helvetica-Bold" (Py.JInt 48) :: drawn)])%list
        /\ (List.length (filter Claims.draws_text drawn) <= 1)%nat
        /\ Forall (fun op => Claims.draws_text op = true
                             -> exists x y, op = PdfHelper.drawCentredString x y "DRAFT")
                  drawn.
Proof.
  intro pg. eexists. split; [reflexivity |].
  apply (watermarked_page_keeps_content (E := Fixtures.Pdf.env)
           (Py.JFloat (3#10)) (Py.JInt 48) (Py.JInt 45) (Py.JStr "top")
           PdfHelper.default_color "DRAFT" pg).
  reflexivity.
Defined.

Section WatermarkGeometry.
Import Py PdfHelper Claims Properties Geometry.
Context {E : PdfEnv}.
Local Open Scope R_scope.

Lemma Q2R_fifty : Q2R 50 = 50.
Proof. unfold Q2R; simpl. lra. Qed.

(** The operators of an overlay at one of the three upright positions. *)
Lemma draw_overlay_upright (opacity font_size rotation color : json) (position text : string)
      (pg : page) (can : Canvas) :
  In position ["center"; "top"; "bottom"] ->
  draw_overlay opacity font_size rotation (JStr position) color text pg = inr can ->
  exists r g b x y,
    code can = [ setFillColor r g b opacity;
                 setFont "Helvetica-Bold" font_size;
                 drawCentredString x y text ]
    /\ (Q2R x, Q2R y) = drawn_at position pg.
Proof.
  intros Hposition Hdraw.
  apply draw_overlay_code in Hdraw as (r & g & b & can0 & Hcode0 & _ & Hplace).
  unfold place_text, eq_str in Hplace.
  destruct Hposition as [<- | [<- | [<- | []]]]; cbn in Hplace;
    apply emit_code in Hplace as [Hcode _]; rewrite Hcode0 in Hcode;
    do 5 eexists; (split; [exact Hcode |]);
    unfold drawn_at; cbn [String.eqb Ascii.eqb Bool.eqb];
    rewrite ?Q2R_half, ?Q2R_minus, ?Q2R_fifty; reflexivity.
Qed.

(** Where the script draws is where the name of the position points
    exactly when the media box starts at the origin. *)
Lemma drawn_at_anchor (position : string) (pg : page) :
  anchor position pg
  = translated (Q2R (mediabox_left pg)) (Q2R (mediabox_bottom pg)) (drawn_at position pg)
  /\ (drawn_at position pg = anchor position pg <-> at_origin pg).
Proof.
  unfold anchor, drawn_at, translated, at_origin.
  destruct (String.eqb position "center"); [| destruct (String.eqb position "top")];
    cbn [fst snd]; (split; [f_equal; lra |]); split.
  all: try (intro H; injection H as Hx Hy; split; apply eqR_Qeq; rewrite Q2R_zero; lra).
  all: intros [Hl Hb]; apply Qeq_eqR in Hl, Hb; rewrite Q2R_zero in Hl, Hb;
    rewrite Hl, Hb; f_equal; lra.
Qed.

(** X13.  At the positions [center], [top] and [bottom] the overlay
    draws the string once, upright: its baseline is horizontal and as
    long as the string is wide, and its middle is at half the width of
    the media box and at half its height for [center], 50 units under
    its height for [top] and at 50 units for [bottom], in user space.
    On a page whose media box starts at the origin, and on no other,
    that is where the name points: on the vertical axis of the page, at
    half its height, 50 units below its top edge or 50 units above its
    bottom edge.  On every page the text is off that place by the lower
    left corner of the media box. *)
Theorem upright_text_placement (opacity font_size rotation color : json)
        (position text : string) (pg : page) (can : Canvas) (width : string -> R) :
  In position ["center"; "top"; "bottom"] ->
  draw_overlay opacity font_size rotation (JStr position) color text pg = inr can ->
  exists start stop,
    render width initial (code can) = [TextRun start stop]
    /\ midpoint start stop = drawn_at position pg
    /\ anchor position pg
       = translated (Q2R (mediabox_left pg)) (Q2R (mediabox_bottom pg))
                    (midpoint start stop)
    /\ (midpoint start stop = anchor position pg <-> at_origin pg)
    /\ snd start = snd stop
    /\ fst stop - fst start = width text.
Proof.
  intros Hposition Hdraw.
  destruct (draw_overlay_upright _ _ _ _ _ _ _ _ Hposition Hdraw)
    as (r & g & b & x & y & Hcode & Hanchor).
  destruct (drawn_at_anchor position pg) as [Hmoved Hsame].
  rewrite Hcode. cbn [render initial ctm saved].
  eexists _, _. split; [reflexivity |].
  assert (Hmid : midpoint (Q2R x - width text / 2, Q2R y) (Q2R x + width text / 2, Q2R y)
                 = drawn_at position pg).
  { rewrite <- Hanchor. unfold midpoint; cbn [fst snd]. f_equal; field. }
  rewrite Hmid. split; [reflexivity |]. split; [exact Hmoved |]. split; [exact Hsame |].
  cbn [fst snd]. split; [reflexivity | field].
Qed.

(** X14.  With position [diagonal] the baseline of the string runs from
    its start in the direction of the rotation angle, counter-clockwise
    from the horizontal, and is as long as the string is wide: rotating
    does not stretch the text. *)
Theorem diagonal_baseline_direction (opacity font_size rotation color : json)
        (text : string) (pg : page) (can : Canvas) (width : string -> R) :
  draw_overlay opacity font_size rotation (JStr "diagonal") color text pg = inr can ->
  let angle := radians (number rotation) in
  exists start stop,
    render width initial (code can) = [Pivot (canvas_centre pg); TextRun start stop]
    /\ fst stop - fst start = width text * cos angle
    /\ snd stop - snd start = width text * sin angle
    /\ Rsqr (fst stop - fst start) + Rsqr (snd stop - snd start) = Rsqr (width text).
Proof.
  intros Hdraw angle.
  apply draw_overlay_code in Hdraw as (r & g & b & can0 & Hcode0 & _ & Hplace).
  apply place_text_diagonal in Hplace. rewrite Hcode0 in Hplace. simpl in Hplace.
  rewrite Hplace. cbn [render initial ctm saved].
  unfold translated, rotated, canvas_centre; cbn [fst snd].
  rewrite !Q2R_half, Q2R_zero. fold angle.
  do 2 eexists. split.
  { apply f_equal2; [| reflexivity]. apply f_equal. apply f_equal2; ring. }
  cbn [fst snd].
  split; [field |]. split; [field |].
  pose proof (sin2_cos2 angle) as Hunit. unfold Rsqr in *.
  transitivity (width text * width text * (sin angle * sin angle + cos angle * cos angle));
    [field | rewrite Hunit; ring].
Qed.

(** X15.  A diagonal watermark with rotation 0 lies exactly where a
    [center] watermark lies. *)
Theorem diagonal_unrotated_is_center (opacity font_size rotation color : json)
        (text : string) (pg : page) (diagonal center : Canvas) (width : string -> R) :
  number rotation = 0 ->
  draw_overlay opacity font_size rotation (JStr "diagonal") color text pg = inr diagonal ->
  draw_overlay opacity font_size rotation (JStr "center") color text pg = inr center ->
  render width initial (code diagonal)
  = Pivot (canvas_centre pg) :: render width initial (code center).
Proof.
  intros Hzero Hdiagonal Hcenter.
  apply draw_overlay_code in Hdiagonal as (r & g & b & can0 & Hcode0 & _ & Hplace).
  apply place_text_diagonal in Hplace. rewrite Hcode0 in Hplace. simpl in Hplace.
  destruct (draw_overlay_upright _ _ _ _ "center" _ _ _ ltac:(simpl; tauto) Hcenter)
    as (r' & g' & b' & x & y & Hcode & Hanchor).
  rewrite Hplace, Hcode. cbn [render initial ctm saved].
  unfold drawn_at in Hanchor; cbn [String.eqb Ascii.eqb Bool.eqb] in Hanchor.
  injection Hanchor as -> ->.
  unfold translated, rotated, canvas_centre, radians; cbn [fst snd].
  rewrite !Q2R_half, Q2R_zero, Hzero.
  replace (0 * PI / 180) with 0 by field. rewrite cos_0, sin_0.
  f_equal; [f_equal; f_equal; ring |].
  f_equal. f_equal; f_equal; ring.
Qed.

End WatermarkGeometry.

(** The instance of X13 for the bottom of the first example page, whose
    media box starts at the origin. *)
Lemma upright_text_placement_witness :
  let pg := Fixtures.Pdf.a4_page "one" in
  let can :=
    PdfHelper.mkCanvas (595, 842)
      [ PdfHelper.setFillColor (Py.JFloat (1#2)) (Py.JFloat (1#2)) (Py.JFloat (1#2))
                               (Py.JFloat (3#10));
        PdfHelper.setFont "Helvetica-Bold" (Py.JInt 48);
        PdfHelper.drawCentredString (595 / 2) 50 "DRAFT" ] in
  PdfHelper.draw_overlay (E := Fixtures.Pdf.env)
    (Py.JFloat (3#10)) (Py.JInt 48) (Py.JInt 45) (Py.JStr "bottom")
    PdfHelper.default_color "DRAFT" pg = inr can
  /\ exists start stop,
      Geometry.render (fun _ => 200%R) Geometry.initial (PdfHelper.code can)
      = [Geometry.TextRun start stop]
      /\ Geometry.midpoint start stop = Properties.drawn_at "bottom" pg
      /\ Properties.anchor "bottom" pg
         = Geometry.translated (Q2R (PdfHelper.mediabox_left pg))
                               (Q2R (PdfHelper.mediabox_bottom pg))
                               (Geometry.midpoint start stop)
      /\ (Geometry.midpoint start stop = Properties.anchor "bottom" pg
          <-> Geometry.at_origin pg)
      /\ snd start = snd stop
      /\ (fst stop - fst start = 200)%R.
Proof.
  intros pg can.
  assert (Hdraw : PdfHelper.draw_overlay (E := Fixtures.Pdf.env)
                    (Py.JFloat (3#10)) (Py.JInt 48) (Py.JInt 45) (Py.JStr "bottom")
                    PdfHelper.default_color "DRAFT" pg = inr can) by reflexivity.
  split; [exact Hdraw |].
  apply (upright_text_placement (E := Fixtures.Pdf.env)
           (Py.JFloat (3#10)) (Py.JInt 48) (Py.JInt 45) PdfHelper.default_color
           "bottom" "DRAFT" pg can (fun _ => 200%R)); [simpl; tauto | exact Hdraw].
Defined.

(** The instance of X14 for a diagonal overlay turned by 30 degrees on
    the first example page. *)
Lemma diagonal_baseline_direction_witness :
  let pg := Fixtures.Pdf.a4_page "one" in
  let can :=
    PdfHelper.mkCanvas (595, 842)
      [ PdfHelper.setFillColor (Py.JFloat (1#2)) (Py.JFloat (1#2)) (Py.JFloat (1#2))
                               (Py.JFloat (3#10));
        PdfHelper.setFont "Helvetica-Bold" (Py.JInt 48);
        PdfHelper.saveState;
        PdfHelper.translate (595 / 2) (842 / 2);
        PdfHelper.rotate (Py.JInt 30);
        PdfHelper.drawCentredString 0 0 "DRAFT";
        PdfHelper.restoreState ] in
  let angle := Geometry.radians (Geometry.number (Py.JInt 30)) in
  PdfHelper.draw_overlay (E := Fixtures.Pdf.env)
    (Py.JFloat (3#10)) (Py.JInt 48) (Py.JInt 30) (Py.JStr "diagonal")
    PdfHelper.default_color "DRAFT" pg = inr can
  /\ exists start stop,
      Geometry.render (fun _ => 200%R) Geometry.initial (PdfHelper.code can)
      = [Geometry.Pivot (Geometry.canvas_centre pg); Geometry.TextRun start stop]
      /\ (fst stop - fst start = 200 * cos angle)%R
      /\ (snd stop - snd start = 200 * sin angle)%R
      /\ (Rsqr (fst stop - fst start) + Rsqr (snd stop - snd start) = Rsqr 200)%R.
Proof.
  intros pg can angle.
  assert (Hdraw : PdfHelper.draw_overlay (E := Fixtures.Pdf.env)
                    (Py.JFloat (3#10)) (Py.JInt 48) (Py.JInt 30) (Py.JStr "diagonal")
                    PdfHelper.default_color "DRAFT" pg = inr can) by reflexivity.
  split; [exact Hdraw |].
  exact (diagonal_baseline_direction (E := Fixtures.Pdf.env) _ _ _ _ _ _ _
           (fun _ => 200%R) Hdraw).
Defined.

(** The instance of X15 on the same page: the operators of the diagonal
    overlay with rotation 0 and those of the centred one. *)
Lemma diagonal_unrotated_is_center_witness :
  let pg := Fixtures.Pdf.a4_page "one" in
  let colour := PdfHelper.setFillColor (Py.JFloat (1#2)) (Py.JFloat (1#2)) (Py.JFloat (1#2))
                                       (Py.JFloat (3#10)) in
  let face := PdfHelper.setFont "Helvetica-Bold" (Py.JInt 48) in
  let diagonal :=
    [ colour; face; PdfHelper.saveState; PdfHelper.translate (595 / 2) (842 / 2);
      PdfHelper.rotate (Py.JInt 0); PdfHelper.drawCentredString 0 0 "DRAFT";
      PdfHelper.restoreState ] in
  let center := [ colour; face; PdfHelper.drawCentredString (595 / 2) (842 / 2) "DRAFT" ] in
  Geometry.number (Py.JInt 0) = 0%R
  /\ Geometry.render (fun _ => 200%R) Geometry.initial diagonal
     = Geometry.Pivot (Geometry.canvas_centre pg)
       :: Geometry.render (fun _ => 200%R) Geometry.initial center.
Proof.
  intros pg colour face diagonal center.
  split; [reflexivity |].
  apply (diagonal_unrotated_is_center (E := Fixtures.Pdf.env)
           (Py.JFloat (3#10)) (Py.JInt 48) (Py.JInt 0) PdfHelper.default_color "DRAFT" pg
           (PdfHelper.mkCanvas (595, 842) diagonal) (PdfHelper.mkCanvas (595, 842) center)
           (fun _ => 200%R)); reflexivity.
Defined.

(** ** Paragraph markup, continued *)

Section MarkupProperties.
Import Py DocxToPdf Claims Properties.

Lemma concat_app (l1 l2 : list string) :
  String.concat "" (l1 ++ l2) = String.concat "" l1 ++ String.concat "" l2.
Proof.
  induction l1 as [| s l1 IH]; [reflexivity |].
  cbn [app]. now rewrite !concat_cons, IH, string_app_assoc.
Qed.

Lemma parse_as_concat (rs : list Run) (style : string) (a : option WD_ALIGN_PARAGRAPH) :
  parse_docx_paragraph (mkPara rs style a)
  = String.concat "" (map markup_underline_outermost (filter has_text rs)).
Proof.
  unfold parse_docx_paragraph, Str.join. cbn [runs]. now rewrite fold_parse_run.
Qed.

(** X16.  The markup of a paragraph is built run by run: the markup of
    two lists of runs put together is the markup of the first followed by
    the markup of the second, and runs without text can be dropped, also
    when they are bold, italic or underlined.  The style and the
    alignment of the paragraph play no part. *)
Theorem parse_docx_paragraph_app (rs1 rs2 : list Run) (style style1 style2 : string)
        (a a1 a2 : option WD_ALIGN_PARAGRAPH) :
  parse_docx_paragraph (mkPara (rs1 ++ rs2) style a)
  = parse_docx_paragraph (mkPara rs1 style1 a1)
    ++ parse_docx_paragraph (mkPara rs2 style2 a2)
  /\ parse_docx_paragraph (mkPara (filter has_text rs1) style a)
     = parse_docx_paragraph (mkPara rs1 style1 a1).
Proof.
  rewrite !parse_as_concat. split.
  - now rewrite filter_app, map_app, concat_app.
  - f_equal. f_equal. induction rs1 as [| run rs IH]; [reflexivity |].
    cbn [filter]. destruct (has_text run) eqn:Hrun; cbn [filter]; rewrite ?Hrun, IH;
      reflexivity.
Qed.

(** X17.  A paragraph whose runs are all unformatted gets no markup at
    all: its string is the text of its runs. *)
Theorem parse_unformatted_is_plain (para : DocxParagraph) :
  Forall (fun run => unformatted run = true) (runs para) ->
  parse_docx_paragraph para = plain_text para.
Proof.
  intro Hplain. destruct para as [rs style a]. rewrite parse_as_concat.
  unfold plain_text; cbn [runs] in *.
  rewrite <- concat_has_text. f_equal.
  induction Hplain as [| run rs Hrun _ IH]; [reflexivity |].
  cbn [filter]. destruct (has_text run); [| exact IH].
  cbn [map]. rewrite IH. f_equal.
  unfold unformatted in Hrun. unfold markup_underline_outermost, wrap_if.
  destruct (truthy (bold run)), (truthy (italic run)), (underlined (underline run));
    try discriminate Hrun; reflexivity.
Qed.

Lemma balanced_from_app_run (run : Run) (pending : list tag) (rest : list piece) :
  balanced_from pending (run_pieces run ++ rest) = balanced_from pending rest.
Proof.
  unfold run_pieces.
  destruct (underlined (underline run)), (truthy (italic run)), (truthy (bold run));
    reflexivity.
Qed.

(** X18.  The markup of a paragraph is well nested: cut into the markers
    the converter wrote and the text of the runs, every closing marker
    closes the marker opened last and none stays open. *)
Theorem parse_docx_paragraph_balanced (para : DocxParagraph) :
  flatten (para_pieces para) = parse_docx_paragraph para
  /\ balanced (para_pieces para) = true.
Proof.
  split; [apply flatten_para_pieces |].
  unfold balanced, para_pieces.
  induction (filter has_text (runs para)) as [| run rs IH]; [reflexivity |].
  cbn [flat_map]. now rewrite balanced_from_app_run.
Qed.

Lemma replace_from_length (old : string) (skip : nat) (s : string) :
  (String.length (Str.replace_from old "" skip s) <= String.length s)%nat.
Proof.
  revert skip. induction s as [| c s IH]; intro skip; [simpl; lia |].
  cbn [Str.replace_from]. destruct skip as [| k].
  - destruct (String.prefix old (String c s)).
    + cbn [append String.length]. specialize (IH (String.length old - 1)%nat). lia.
    + cbn [String.length]. specialize (IH 0%nat). lia.
  - cbn [String.length]. specialize (IH k). lia.
Qed.

(** X19.  The fallback never makes a string longer, and leaves a string
    without any [<] as it is. *)
Theorem strip_markup_shrinks (s : string) :
  (String.length (strip_markup s) <= String.length s)%nat
  /\ (tag_free s = true -> strip_markup s = s).
Proof.
  split.
  - unfold strip_markup, Str.replace.
    repeat match goal with
           | |- (String.length (Str.replace_from ?old "" 0 ?t) <= _)%nat =>
               apply Nat.le_trans with (String.length t);
               [apply replace_from_length |]
           end.
    lia.
  - intro Hfree.
    pose proof (strip_markup_flatten [Plain s]) as H.
    assert (Hs : flatten [Plain s] = s) by reflexivity.
    rewrite Hs in H. rewrite H; [reflexivity |].
    repeat constructor. exact Hfree.
Qed.

End MarkupProperties.

(** The instance of X17 on two plain runs. *)
Lemma parse_unformatted_is_plain_witness :
  let para := DocxToPdf.mkPara [Fixtures.Docx.plain "Hello, "; Fixtures.Docx.plain "world"]
                               "Normal" None in
  Forall (fun run => Properties.unformatted run = true) (DocxToPdf.runs para)
  /\ DocxToPdf.parse_docx_paragraph para = "Hello, world".
Proof.
  intro para.
  assert (Hplain : Forall (fun run => Properties.unformatted run = true)
                          (DocxToPdf.runs para)) by (repeat constructor).
  split; [exact Hplain |].
  exact (parse_unformatted_is_plain para Hplain).
Defined.

(** The instance of X19 on a sentence without markup. *)
Lemma strip_markup_shrinks_witness :
  Claims.tag_free "a > b" = true /\ DocxToPdf.strip_markup "a > b" = "a > b".
Proof.
  split; [reflexivity |].
  exact (proj2 (strip_markup_shrinks "a > b") eq_refl).
Defined.

(** ** The conversion, continued *)

Section WhiteSpace.
Import Py DocxToPdf Claims Properties.

Lemma all_space_app (s t : string) :
  all_space (s ++ t) = all_space s && all_space t.
Proof.
  induction s as [| c s IH]; [reflexivity |].
  cbn [append all_space]. now rewrite IH, andb_assoc.
Qed.

Lemma all_space_strip (s : string) : all_space s = true -> Str.strip s = "".
Proof.
  intro Hspace. unfold Str.strip.
  assert (Hl : Str.lstrip s = "").
  { induction s as [| c s IH]; [reflexivity |].
    cbn [all_space] in Hspace. apply andb_prop in Hspace as [Hc Hs].
    cbn [Str.lstrip]. rewrite Hc. now apply IH. }
  now rewrite Hl.
Qed.

Lemma rstrip_idempotent (s : string) : Str.rstrip (Str.rstrip s) = Str.rstrip s.
Proof.
  induction s as [| c s IH]; [reflexivity |].
  cbn [Str.rstrip].
  destruct (Str.isspace c && String.eqb (Str.rstrip s) "") eqn:Hdrop; [reflexivity |].
  cbn [Str.rstrip]. now rewrite IH, Hdrop.
Qed.

(** Stripping twice is stripping once: a stripped string has no white
    space at either end. *)
Lemma strip_idempotent (s : string) : Str.strip (Str.strip s) = Str.strip s.
Proof.
  unfold Str.strip.
  assert (Hhead : Str.lstrip s = ""
                  \/ exists c t, Str.lstrip s = String c t /\ Str.isspace c = false).
  { induction s as [| c s IH]; [now left |].
    cbn [Str.lstrip]. destruct (Str.isspace c) eqn:Hc; [exact IH |].
    right. now exists c, s. }
  destruct Hhead as [-> | (c & t & -> & Hc)]; [reflexivity |].
  cbn [Str.rstrip]. rewrite Hc. cbn [andb Str.lstrip]. rewrite Hc.
  cbn [Str.rstrip]. rewrite Hc. cbn [andb]. now rewrite rstrip_idempotent.
Qed.

Lemma prefix_app (sub after : string) : String.prefix sub (sub ++ after) = true.
Proof.
  induction sub as [| c sub IH]; [now destruct after |].
  cbn [append String.prefix]. now destruct (Ascii.ascii_dec c c).
Qed.

Lemma prefix_inv (sub s : string) :
  String.prefix sub s = true -> exists after, s = sub ++ after.
Proof.
  revert s. induction sub as [| c sub IH]; intros s Hprefix.
  - now exists s.
  - destruct s as [| c' s]; [discriminate Hprefix |].
    cbn [String.prefix] in Hprefix.
    destruct (Ascii.ascii_dec c c') as [<- | _]; [| discriminate Hprefix].
    destruct (IH s Hprefix) as [after ->]. now exists after.
Qed.

(** [Str.contains] decides whether a string occurs in another. *)
Lemma contains_occurs (sub s : string) : Str.contains sub s = true <-> occurs_in sub s.
Proof.
  split.
  - induction s as [| c s IH]; cbn [Str.contains]; intro H.
    + rewrite orb_false_r in H. apply prefix_inv in H as [after ->].
      now exists "", after.
    + apply orb_prop in H as [H | H].
      * apply prefix_inv in H as [after ->]. now exists "", after.
      * destruct (IH H) as (before & after & ->). now exists (String c before), after.
  - intros (before & after & ->).
    induction before as [| c before IH].
    + cbn [append]. destruct (sub ++ after) eqn:Hs; cbn [Str.contains];
        rewrite <- Hs, prefix_app; reflexivity.
    + cbn [append Str.contains]. rewrite IH. apply orb_true_r.
Qed.

End WhiteSpace.

Section ConversionProperties.
Import Py DocxToPdf Claims Properties.
Context {E : DocxEnv}.

Lemma invisible_runs_all_space (rs : list Run) :
  Forall (fun run => invisible run = true) rs ->
  all_space (String.concat "" (map markup_underline_outermost (filter has_text rs))) = true.
Proof.
  induction 1 as [| run rs Hrun _ IH]; [reflexivity |].
  cbn [filter]. unfold has_text at 1. unfold invisible in Hrun.
  destruct (String.eqb (text run) ""); cbn [negb]; [exact IH |].
  cbn [orb] in Hrun. apply andb_prop in Hrun as [Hspace Hplain].
  cbn [map]. rewrite concat_cons, all_space_app, IH, andb_true_r.
  unfold unformatted in Hplain. unfold markup_underline_outermost, wrap_if.
  destruct (truthy (bold run)), (truthy (italic run)), (underlined (underline run));
    try discriminate Hplain; exact Hspace.
Qed.

(** X20.  A paragraph that shows nothing (every run empty, or white
    space without formatting) becomes a spacer 0.2 inch high; no
    paragraph is built for it, so the markup parser cannot fail on
    it. *)
Theorem invisible_paragraph_is_spacer (para : DocxParagraph) :
  Forall (fun run => invisible run = true) (runs para) ->
  convert_paragraph para = inr (Spacer 1 (0.2 * inch)).
Proof.
  intro Hinvisible. unfold convert_paragraph.
  assert (Hblank : Str.strip (parse_docx_paragraph para) = "").
  { apply all_space_strip. unfold parse_docx_paragraph, Str.join.
    rewrite fold_parse_run. now apply invisible_runs_all_space. }
  now rewrite Hblank.
Qed.

(** X21.  The style of a paragraph goes by substrings of its style's
    name, matched with case.  A name in which [Heading 1] or [Title]
    occurs gets the 18 point heading style whatever else occurs in it,
    and only such a name gets 18 points; in every tier the alignment is
    the one [get_alignment] finds and the colour is black. *)
Theorem heading_one_style (para : DocxParagraph) :
  (occurs_in "Heading 1" (style_name para) \/ occurs_in "Title" (style_name para) ->
   select_style para
   = mkStyle "CustomHeading1" "Heading1" 18 "black" 12 (Some 12%Z) (get_alignment para))
  /\ (fontSize (select_style para) = 18%Z ->
      occurs_in "Heading 1" (style_name para) \/ occurs_in "Title" (style_name para))
  /\ style_alignment (select_style para) = get_alignment para
  /\ textColor (select_style para) = "black".
Proof.
  unfold select_style.
  destruct (Str.contains "Heading 1" (style_name para)) eqn:H1;
    destruct (Str.contains "Title" (style_name para)) eqn:HT; cbn [orb].
  1-3: repeat split; try reflexivity; intros _;
       (left; now apply contains_occurs) || (right; now apply contains_occurs).
  assert (Hnone : ~ (occurs_in "Heading 1" (style_name para)
                     \/ occurs_in "Title" (style_name para))).
  { intros [H | H]; apply contains_occurs in H; congruence. }
  destruct (Str.contains "Heading 2" (style_name para));
    [| destruct (Str.contains "Heading 3" (style_name para))];
    repeat split; try reflexivity; try (intro H; now destruct (Hnone H));
    cbn [fontSize]; discriminate.
Qed.

(** X22.  A table without rows adds nothing to the story.  A table with
    rows adds the table and a spacer 0.3 inch high; the table has the
    rows and cells of the original, in order, each cell stripped of the
    white space around its text. *)
Theorem table_flowables (table : DocxTable) (fs : list flowable) :
  convert_table table = inr fs ->
  (table = [] /\ fs = [])
  \/ (exists data,
         table <> []
         /\ fs = [Table data table_theme; Spacer 1 (0.3 * inch)]
         /\ Forall2 (Forall2 (fun cell stripped =>
                                stripped = Str.strip cell
                                /\ Str.strip stripped = stripped))
                    table data).
Proof.
  unfold convert_table.
  destruct table as [| row rows]; [intro H; injection H as <-; now left |].
  cbn [map].
  destruct (Table_error (map Str.strip row :: map (map Str.strip) rows));
    [discriminate |].
  intro H. injection H as <-. right. eexists. split; [discriminate |].
  split; [reflexivity |].
  change (Forall2 (Forall2 (fun cell stripped =>
                              stripped = Str.strip cell /\ Str.strip stripped = stripped))
                  (row :: rows) (map (map Str.strip) (row :: rows))).
  induction (row :: rows) as [| r rs IH]; constructor; [| exact IH].
  induction r as [| cell r IHr]; constructor; [| exact IHr].
  split; [reflexivity | apply strip_idempotent].
Qed.

End ConversionProperties.

Section StoryProperties.
Import Py DocxToPdf Claims Properties.
Context {E : DocxEnv}.

Lemma convert_paragraph_kind (para : DocxParagraph) (f : flowable) :
  convert_paragraph para = inr f -> is_table f = false.
Proof.
  unfold convert_paragraph, new_paragraph.
  destruct (String.eqb (Str.strip (parse_docx_paragraph para)) "");
    [intro H; injection H as <-; reflexivity |].
  destruct (Paragraph_error (parse_docx_paragraph para) (select_style para));
    [| intro H; injection H as <-; reflexivity].
  destruct (Paragraph_error (strip_markup (parse_docx_paragraph para)) (select_style para));
    [discriminate | intro H; injection H as <-; reflexivity].
Qed.

(** The story after the paragraphs: one flowable for each, none of them
    a table. *)
Lemma convert_paragraphs_layout (paras : list DocxParagraph) (story story' : list flowable) :
  convert_paragraphs paras story = inr story' ->
  exists added,
    story' = (story ++ added)%list
    /\ List.length added = List.length paras
    /\ forallb (fun f => negb (is_table f)) added = true.
Proof.
  revert story. induction paras as [| para paras IH]; intros story Hrun.
  - injection Hrun as <-. exists []. now rewrite app_nil_r.
  - cbn [convert_paragraphs] in Hrun.
    destruct (convert_paragraph para) as [? | f] eqn:Hpara; [discriminate Hrun |].
    cbn [and_then] in Hrun. apply IH in Hrun as (added & -> & Hlen & Hkind).
    exists (f :: added). rewrite <- app_assoc. split; [reflexivity |].
    cbn [List.length forallb]. rewrite Hlen, Hkind, (convert_paragraph_kind _ _ Hpara).
    now split.
Qed.

(** The story after the tables: a table and a spacer for each table with
    rows, no paragraph among them. *)
Lemma convert_tables_layout (tbls : list DocxTable) (story story' : list flowable) :
  convert_tables tbls story = inr story' ->
  exists added,
    story' = (story ++ added)%list
    /\ List.length added = (2 * List.length (filter has_rows tbls))%nat
    /\ forallb (fun f => negb (is_paragraph f)) added = true.
Proof.
  revert story. induction tbls as [| table tbls IH]; intros story Hrun.
  - injection Hrun as <-. exists []. now rewrite app_nil_r.
  - cbn [convert_tables] in Hrun.
    destruct (convert_table table) as [? | fs] eqn:Htable; [discriminate Hrun |].
    cbn [and_then] in Hrun. apply IH in Hrun as (added & -> & Hlen & Hkind).
    exists (fs ++ added)%list. rewrite <- app_assoc. split; [reflexivity |].
    unfold convert_table in Htable.
    destruct table as [| row rows].
    + injection Htable as <-. cbn [app filter has_rows]. now split.
    + cbn [map] in Htable.
      destruct (Table_error (map Str.strip row :: map (map Str.strip) rows));
        [discriminate Htable |].
      injection Htable as <-. cbn [app filter has_rows List.length forallb is_paragraph negb].
      rewrite Hlen, Hkind. split; [lia | reflexivity].
Qed.

(** X23.  When a conversion succeeds, the story that was laid out holds
    as many flowables as the document has paragraphs, none of them a
    table, and after them two for each table with rows, none of them a
    paragraph: tables never sit between paragraphs, wherever they are
    in the document.  The report counts every paragraph and every
    table, the empty ones too. *)
Theorem successful_conversion_layout (input_path output_path : string) (p p' : proc world)
        (report : json) :
  docx_to_pdf input_path output_path p = (inr report, p') ->
  success report = true ->
  exists doc from_paragraphs from_tables,
    load_document input_path (env p) = inr doc
    /\ build (mkTemplate output_path letter 72 72 72 72)
             (from_paragraphs ++ from_tables)%list (env p)
       = (inr tt, env p')
    /\ List.length from_paragraphs = List.length (paragraphs doc)
    /\ forallb (fun f => negb (is_table f)) from_paragraphs = true
    /\ List.length from_tables = (2 * List.length (filter has_rows (tables doc)))%nat
    /\ forallb (fun f => negb (is_paragraph f)) from_tables = true
    /\ field report "paragraphs" = Some (JInt (Z.of_nat (List.length (paragraphs doc))))
    /\ field report "tables" = Some (JInt (Z.of_nat (List.length (tables doc)))).
Proof.
  unfold docx_to_pdf. step_monad. destruct p as [w out]; simpl.
  destruct (load_document input_path w) as [msg | doc]; simpl;
    [intros H; injection H as <- _; discriminate |].
  destruct (convert_paragraphs (paragraphs doc) []) as [msg | s1] eqn:Hparas; simpl;
    [intros H; injection H as <- _; discriminate |].
  destruct (convert_tables (tables doc) s1) as [msg | s2] eqn:Htables; simpl;
    [intros H; injection H as <- _; discriminate |].
  destruct (build _ s2 w) as [[msg | []] w1] eqn:Hbuild; simpl;
    [intros H; injection H as <- _; discriminate |].
  destruct (getsize output_path w1) as [msg | n]; simpl;
    [intros H; injection H as <- _; discriminate |].
  intros H _. injection H as <- <-.
  apply convert_paragraphs_layout in Hparas as (ps & -> & Hplen & Hpkind).
  apply convert_tables_layout in Htables as (ts & -> & Htlen & Htkind).
  exists doc, ps, ts. cbn [app] in *. now repeat split.
Qed.

(** X24.  A conversion that fails before the layout starts touches
    nothing.  When the report says failure, either the world is as it
    was, or it is as a call of [build] left it: the failure came from
    the layout itself or from reading the size of its output. *)
Theorem failed_conversion_touches_nothing (input_path output_path : string)
        (p p' : proc world) (report : json) :
  docx_to_pdf input_path output_path p = (inr report, p') ->
  success report = false ->
  env p' = env p
  \/ exists story answer,
      build (mkTemplate output_path letter 72 72 72 72) story (env p) = (answer, env p').
Proof.
  unfold docx_to_pdf. step_monad. destruct p as [w out]; simpl.
  destruct (load_document input_path w) as [msg | doc]; simpl;
    [intros H _; injection H as _ <-; now left |].
  destruct (convert_paragraphs (paragraphs doc) []) as [msg | s1]; simpl;
    [intros H _; injection H as _ <-; now left |].
  destruct (convert_tables (tables doc) s1) as [msg | s2]; simpl;
    [intros H _; injection H as _ <-; now left |].
  destruct (build _ s2 w) as [[msg | []] w1] eqn:Hbuild; simpl;
    [intros H _; injection H as _ <-; right; eauto |].
  destruct (getsize output_path w1) as [msg | n]; simpl;
    intros H _; injection H as _ <-; right; eauto.
Qed.

(** X25.  When the plain retry of a paragraph fails too, the conversion
    ends there: the report carries the message of the retry, not that of
    the styled attempt, and the world is untouched, however many
    paragraphs before it went well. *)
Theorem failed_retry_ends_conversion (input_path output_path : string) (p : proc world)
        (doc : Document) (good rest : list DocxParagraph) (bad : DocxParagraph)
        (styled_msg plain_msg : string) :
  load_document input_path (env p) = inr doc ->
  paragraphs doc = (good ++ bad :: rest)%list ->
  (forall para, In para good -> recovers para = true) ->
  is_blank bad = false ->
  Paragraph_error (parse_docx_paragraph bad) (select_style bad) = Some styled_msg ->
  Paragraph_error (strip_markup (parse_docx_paragraph bad)) (select_style bad)
  = Some plain_msg ->
  docx_to_pdf input_path output_path p
  = (inr (JDict [ ("success", JBool false); ("error", JStr plain_msg) ]), p).
Proof.
  intros Hload Hparas Hgood Hblank Hstyled Hplain.
  assert (Hbad : convert_paragraph bad = inl plain_msg).
  { unfold convert_paragraph, new_paragraph. unfold is_blank in Hblank.
    now rewrite Hblank, Hstyled, Hplain. }
  assert (Hrun : forall story, convert_paragraphs (good ++ bad :: rest) story = inl plain_msg).
  { clear Hparas. induction good as [| para good IH]; intro story.
    - cbn [app convert_paragraphs]. now rewrite Hbad.
    - cbn [app convert_paragraphs].
      rewrite (convert_paragraph_recovers para) by (apply Hgood; now left).
      cbn [and_then]. apply IH. intros q Hq. apply Hgood. now right. }
  unfold docx_to_pdf. step_monad. destruct p as [w out]; simpl in *.
  rewrite Hload; simpl. rewrite Hparas, Hrun. reflexivity.
Qed.

End StoryProperties.

(** The instance of X20 on an empty bold run followed by two spaces. *)
Lemma invisible_paragraph_is_spacer_witness :
  let para := DocxToPdf.mkPara
                [DocxToPdf.mkRun "" (Some true) None DocxToPdf.UnderlineInherited;
                 Fixtures.Docx.plain "  "]
                "Normal" None in
  Forall (fun run => Properties.invisible run = true) (DocxToPdf.runs para)
  /\ DocxToPdf.convert_paragraph (E := Fixtures.Docx.env) para
     = inr (DocxToPdf.Spacer 1 (0.2 * DocxToPdf.inch)).
Proof.
  intro para.
  assert (Hinvisible : Forall (fun run => Properties.invisible run = true)
                              (DocxToPdf.runs para)) by (repeat constructor).
  split; [exact Hinvisible |].
  exact (invisible_paragraph_is_spacer (E := Fixtures.Docx.env) para Hinvisible).
Defined.

(** The instance of X21 on the style name [Heading 12], in which
    [Heading 1] occurs. *)
Lemma heading_one_style_witness :
  let para := DocxToPdf.mkPara [] "Heading 12" (Some DocxToPdf.CENTER) in
  Properties.occurs_in "Heading 1" (DocxToPdf.style_name para)
  /\ DocxToPdf.select_style (E := Fixtures.Docx.env) para
     = DocxToPdf.mkStyle "CustomHeading1" "Heading1" 18 "black" 12 (Some 12%Z)
                         (DocxToPdf.get_alignment (E := Fixtures.Docx.env) para).
Proof.
  intro para.
  assert (Hoccurs : Properties.occurs_in "Heading 1" (DocxToPdf.style_name para))
    by (exists "", "2"; reflexivity).
  split; [exact Hoccurs |].
  exact (proj1 (heading_one_style (E := Fixtures.Docx.env) para) (or_introl Hoccurs)).
Defined.

(** The instance of X22 on a table of one row and two cells. *)
Lemma table_flowables_witness :
  let table := [["a "; " b"]] in
  let fs := [DocxToPdf.Table [["a"; "b"]] DocxToPdf.table_theme;
             DocxToPdf.Spacer 1 (0.3 * DocxToPdf.inch)] in
  DocxToPdf.convert_table (E := Fixtures.Docx.env) table = inr fs
  /\ ((table = [] /\ fs = [])
      \/ (exists data,
             table <> []
             /\ fs = [DocxToPdf.Table data DocxToPdf.table_theme;
                      DocxToPdf.Spacer 1 (0.3 * DocxToPdf.inch)]
             /\ Forall2 (Forall2 (fun cell stripped =>
                                    stripped = Str.strip cell
                                    /\ Str.strip stripped = stripped))
                        table data)).
Proof.
  intros table fs.
  assert (Hrun : DocxToPdf.convert_table (E := Fixtures.Docx.env) table = inr fs)
    by reflexivity.
  split; [exact Hrun |].
  exact (table_flowables (E := Fixtures.Docx.env) table fs Hrun).
Defined.

(** The instance of X23 on the example disk: three paragraphs, one of
    them empty, and one table. *)
Lemma successful_conversion_layout_witness :
  let p := Py.mkProc Fixtures.Docx.disk [] in
  let result := DocxToPdf.docx_to_pdf (E := Fixtures.Docx.env) "report.docx" "out.pdf" p in
  let report := Py.JDict [ ("success", Py.JBool true); ("paragraphs", Py.JInt 3);
                           ("tables", Py.JInt 1); ("output_size", Py.JInt 1500);
                           ("format", Py.JStr "pdf") ] in
  (result = (inr report, snd result) /\ Py.success report = true)
  /\ exists doc from_paragraphs from_tables,
      DocxToPdf.load_document (DocxEnv := Fixtures.Docx.env) "report.docx" (Py.env p)
      = inr doc
      /\ DocxToPdf.build (DocxEnv := Fixtures.Docx.env)
           (DocxToPdf.mkTemplate "out.pdf" DocxToPdf.letter 72 72 72 72)
           (from_paragraphs ++ from_tables)%list (Py.env p)
         = (inr tt, Py.env (snd result))
      /\ List.length from_paragraphs = List.length (DocxToPdf.paragraphs doc)
      /\ forallb (fun f => negb (Properties.is_table f)) from_paragraphs = true
      /\ List.length from_tables
         = (2 * List.length (filter Properties.has_rows (DocxToPdf.tables doc)))%nat
      /\ forallb (fun f => negb (Properties.is_paragraph f)) from_tables = true
      /\ Py.field report "paragraphs"
         = Some (Py.JInt (Z.of_nat (List.length (DocxToPdf.paragraphs doc))))
      /\ Py.field report "tables"
         = Some (Py.JInt (Z.of_nat (List.length (DocxToPdf.tables doc)))).
Proof.
  intros p result report.
  assert (Hrun : result = (inr report, snd result)) by reflexivity.
  split; [split; [exact Hrun | reflexivity] |].
  exact (successful_conversion_layout (E := Fixtures.Docx.env) "report.docx" "out.pdf"
           p (snd result) report Hrun eq_refl).
Defined.

(** The instance of X24 on a file that is no document: nothing is
    written. *)
Lemma failed_conversion_touches_nothing_witness :
  let p := Py.mkProc Fixtures.Docx.disk [] in
  let result := DocxToPdf.docx_to_pdf (E := Fixtures.Docx.env) "notes.txt" "out.pdf" p in
  let report := Py.JDict [ ("success", Py.JBool false);
                           ("error", Py.JStr "File is not a zip file") ] in
  (result = (inr report, snd result) /\ Py.success report = false)
  /\ (Py.env (snd result) = Py.env p
      \/ exists story answer,
          DocxToPdf.build (DocxEnv := Fixtures.Docx.env)
            (DocxToPdf.mkTemplate "out.pdf" DocxToPdf.letter 72 72 72 72) story (Py.env p)
          = (answer, Py.env (snd result))).
Proof.
  intros p result report.
  assert (Hrun : result = (inr report, snd result)) by reflexivity.
  split; [split; [exact Hrun | reflexivity] |].
  exact (failed_conversion_touches_nothing (E := Fixtures.Docx.env) "notes.txt" "out.pdf"
           p (snd result) report Hrun eq_refl).
Defined.

(** The instance of X25 on the memo: its second paragraph is refused as
    it stands for the [<] before [<i>] and after the fallback for the
    [<b>] left open, and the report carries the second message. *)
Lemma failed_retry_ends_conversion_witness :
  let p := Py.mkProc Properties.memo_disk [] in
  let good := [DocxToPdf.mkPara [Fixtures.Docx.plain "To all staff"] "Normal" None] in
  let bad := DocxToPdf.mkPara [Fixtures.Docx.plain "<<i>b>x"] "Normal" None in
  let rest := [DocxToPdf.mkPara [Fixtures.Docx.plain "Regards"] "Normal" None] in
  (DocxToPdf.load_document (DocxEnv := Fixtures.Docx.env) "memo.docx" (Py.env p)
   = inr Properties.memo
   /\ DocxToPdf.paragraphs Properties.memo = (good ++ bad :: rest)%list
   /\ (forall para, In para good -> Claims.recovers (E := Fixtures.Docx.env) para = true)
   /\ Claims.is_blank bad = false
   /\ DocxToPdf.Paragraph_error (DocxEnv := Fixtures.Docx.env)
        (DocxToPdf.parse_docx_paragraph bad) (DocxToPdf.select_style (E := Fixtures.Docx.env) bad)
      = Some "paraparser: malformed tag"
   /\ DocxToPdf.Paragraph_error (DocxEnv := Fixtures.Docx.env)
        (DocxToPdf.strip_markup (DocxToPdf.parse_docx_paragraph bad))
        (DocxToPdf.select_style (E := Fixtures.Docx.env) bad)
      = Some "paraparser: unclosed tag")
  /\ DocxToPdf.docx_to_pdf (E := Fixtures.Docx.env) "memo.docx" "memo.pdf" p
     = (inr (Py.JDict [ ("success", Py.JBool false);
                        ("error", Py.JStr "paraparser: unclosed tag") ]), p).
Proof.
  intros p good bad rest.
  assert (Hgood : forall para, In para good
                               -> Claims.recovers (E := Fixtures.Docx.env) para = true).
  { intros para [<- | []]. reflexivity. }
  split;
    [split; [reflexivity | split; [reflexivity | split; [exact Hgood |]]];
     split; [reflexivity | split; reflexivity] |].
  exact (failed_retry_ends_conversion (E := Fixtures.Docx.env) "memo.docx" "memo.pdf" p
           Properties.memo good rest bad
           "paraparser: malformed tag" "paraparser: unclosed tag"
           eq_refl eq_refl Hgood eq_refl eq_refl eq_refl).
Defined.
